(** * Meeting-minutes generator: a shallow embedding of
      [scripts/ai_minutes_generator.py]

    The script turns a meeting transcript into a structured record with a
    completion service, renders the record as HTML and publishes the page to a
    wiki.  Python values are modelled by the inductive type [pyval], exceptions
    by the error monad [result], and the outside world (clock, completion
    service, HTTP endpoint, file system) by the state monad [M] over [world].

    A Python [str] is a [string]: one [ascii] stands for one character.  The
    calls of [logger] are left out, except that the arguments they format are
    evaluated where the source evaluates them.  Of [main] the parsing of the
    command line and the printed text are left out. *)

From Stdlib Require Import ZArith QArith String Ascii List Bool Lia.
From Stdlib Require Import Floats.SpecFloat.
From stdpp Require Import base option list strings pretty gmap.
Import ListNotations.

Local Open Scope Z_scope.
Set Warnings "-register-all".

(** ** Python values and exceptions *)

(** The values [json.loads] can produce, which are also the values the script
    builds for its request payloads.  A dict keeps its insertion order. *)
Inductive pyval : Type :=
| PNone
| PBool (b : bool)
| PInt (z : Z)
| PFloat (f : spec_float)
| PStr (s : string)
| PList (l : list pyval)
| PDict (d : list (string * pyval)).

(** The exception classes that occur in the script or in the operations it
    uses.  [ExceptionMsg] is a plain [Exception(msg)]; [ServiceError] stands
    for whatever an outside library raises (transport errors, API errors). *)
Inductive exn : Type :=
| TypeError
| AttributeError
| KeyError (key : string)
| IndexError
| JSONDecodeError
| ImportError
| FileNotFoundError
| ExceptionMsg (msg : string)
| ServiceError (name : string)
| IsADirectoryError
| NotADirectoryError
| FileExistsError.

Inductive result (A : Type) : Type :=
| Ok (a : A)
| Raise (e : exn).
Arguments Ok {A} a.
Arguments Raise {A} e.

#[export] Instance result_ret : MRet result := fun _ a => Ok a.
#[export] Instance result_bind : MBind result := fun _ _ f m =>
  match m with
  | Ok a => f a
  | Raise e => Raise e
  end.
#[export] Instance result_fmap : FMap result := fun _ _ f m =>
  match m with
  | Ok a => Ok (f a)
  | Raise e => Raise e
  end.

Definition is_ok {A} (r : result A) : bool :=
  match r with Ok _ => true | Raise _ => false end.

Fixpoint result_mapM {A B} (f : A -> result B) (l : list A) : result (list B) :=
  match l with
  | [] => Ok []
  | x :: l' => y ← f x; ys ← result_mapM f l'; Ok (y :: ys)
  end.

(** ** Strings *)

Definition nl : string := String (ascii_of_nat 10) EmptyString.
Definition dq : string := String (ascii_of_nat 34) EmptyString.

(** The text of a literal that spans several source lines. *)
Definition unlines (ls : list string) : string := String.concat nl ls.

(** [str.join] on a list of strings. *)
Definition str_join (sep : string) (ss : list string) : string :=
  String.concat sep ss.

(** [s[:n]] *)
Definition str_prefix (n : nat) (s : string) : string := substring 0 n s.

(** [needle in hay], as a boolean. *)
Fixpoint str_contains (needle hay : string) : bool :=
  String.prefix needle hay
  || match hay with
     | EmptyString => false
     | String _ hay' => str_contains needle hay'
     end.

(** ** Dynamic operations *)

Fixpoint dict_lookup (k : string) (d : list (string * pyval)) : option pyval :=
  match d with
  | [] => None
  | (k', v) :: d' => if String.eqb k' k then Some v else dict_lookup k d'
  end.

(** [d[k] = v] on a dict: replace in place or append. *)
Fixpoint dict_set (k : string) (v : pyval) (d : list (string * pyval))
  : list (string * pyval) :=
  match d with
  | [] => [(k, v)]
  | (k', v') :: d' =>
      if String.eqb k' k then (k, v) :: d' else (k', v') :: dict_set k v d'
  end.

(** [o.get(k, default)]: only dicts have the method. *)
Definition py_get (o : pyval) (k : string) (default : pyval) : result pyval :=
  match o with
  | PDict d => Ok (from_option id default (dict_lookup k d))
  | _ => Raise AttributeError
  end.

(** [o[k]] with a string key. *)
Definition py_item (o : pyval) (k : string) : result pyval :=
  match o with
  | PDict d =>
      match dict_lookup k d with
      | Some v => Ok v
      | None => Raise (KeyError k)
      end
  | _ => Raise TypeError
  end.

Definition chars (s : string) : list pyval :=
  map (fun c => PStr (String c EmptyString)) (list_ascii_of_string s).

(** [o[0]] *)
Definition py_first (o : pyval) : result pyval :=
  match o with
  | PList (x :: _) => Ok x
  | PList [] => Raise IndexError
  | PStr s =>
      match chars s with
      | c :: _ => Ok c
      | [] => Raise IndexError
      end
  | PDict _ => Raise (KeyError "0")
  | _ => Raise TypeError
  end.

(** The items a [for] loop (or [str.join]) visits. *)
Definition py_iter (o : pyval) : result (list pyval) :=
  match o with
  | PList l => Ok l
  | PStr s => Ok (chars s)
  | PDict d => Ok (map (fun kv => PStr (fst kv)) d)
  | _ => Raise TypeError
  end.

Definition py_len (o : pyval) : result nat :=
  match o with
  | PList l => Ok (length l)
  | PStr s => Ok (String.length s)
  | PDict d => Ok (length d)
  | _ => Raise TypeError
  end.

(** Truth value of an object in [if o:] and [a or b]. *)
Definition py_truthy (o : pyval) : bool :=
  match o with
  | PNone => false
  | PBool b => b
  | PInt z => negb (z =? 0)
  | PFloat (S754_zero _) => false
  | PFloat _ => true
  | PStr s => negb (String.eqb s "")
  | PList [] => false
  | PList (_ :: _) => true
  | PDict [] => false
  | PDict (_ :: _) => true
  end.

Definition as_str (v : pyval) : result string :=
  match v with
  | PStr s => Ok s
  | _ => Raise TypeError
  end.

(** [sep.join(o)]: every item must be a string. *)
Definition py_join (sep : string) (o : pyval) : result string :=
  items ← py_iter o;
  ss ← result_mapM as_str items;
  Ok (str_join sep ss).

(** The binary64 number [1.0]. *)
Definition float_one : spec_float := S754_finite false 4503599627370496 (-52).

(** [o + 1]: integers are unbounded, a bool counts as 0 or 1, floats add in
    binary64. *)
Definition py_succ (o : pyval) : result pyval :=
  match o with
  | PInt z => Ok (PInt (z + 1))
  | PBool b => Ok (PInt ((if b then 1 else 0) + 1))
  | PFloat f => Ok (PFloat (SFadd 53 1024 f float_one))
  | _ => Raise TypeError
  end.

(** ** Rendering: [AIMinutesGenerator.format_minutes_as_html] *)

(** An f-string is the concatenation of its literal segments and of the texts
    of its interpolated expressions.  The renderer is modelled as the list of
    these segments in the order the source appends them to [html]; the
    document is their concatenation ([flatten]). *)
Inductive piece : Type :=
| Lit (s : string)
| Val (s : string).

Definition piece_text (p : piece) : string :=
  match p with
  | Lit s => s
  | Val s => s
  end.

Fixpoint flatten (ps : list piece) : string :=
  match ps with
  | [] => ""
  | p :: ps' => piece_text p +:+ flatten ps'
  end.

(* lines 233-255, literal segment 0; 40 characters *)
Definition tpl_head_0 : string :=
  unlines
    [ "";
      "        <h1>Stand-up Meeting Minutes - " ].

(* lines 233-255, literal segment 1; 98 characters *)
Definition tpl_head_1 : string :=
  unlines
    [ "</h1>";
      "        ";
      "        <table>";
      "            <tr>";
      "                <th>Date</th>";
      "                <td>" ].

(* lines 233-255, literal segment 2; 201 characters *)
Definition tpl_head_2 : string :=
  unlines
    [ "</td>";
      "            </tr>";
      "            <tr>";
      "                <th>Type</th>";
      "                <td>Daily Stand-up</td>";
      "            </tr>";
      "            <tr>";
      "                <th>Attendees</th>";
      "                <td>" ].

(* lines 233-255, literal segment 3; 96 characters *)
Definition tpl_head_3 : string :=
  unlines
    [ "</td>";
      "            </tr>";
      "        </table>";
      "        ";
      "        <h2>Executive Summary</h2>";
      "        <p>" ].

(* lines 233-255, literal segment 4; 58 characters *)
Definition tpl_head_4 : string :=
  unlines
    [ "</p>";
      "        ";
      "        <h2>Individual Updates</h2>";
      "        " ].

(* lines 259-266, literal segment 0; 17 characters *)
Definition tpl_update_0 : string :=
  unlines
    [ "";
      "            <h3>" ].

(* lines 259-266, literal segment 1; 71 characters *)
Definition tpl_update_1 : string :=
  unlines
    [ "</h3>";
      "            <ul>";
      "                <li><strong>Yesterday:</strong> " ].

(* lines 259-266, literal segment 2; 50 characters *)
Definition tpl_update_2 : string :=
  unlines
    [ "</li>";
      "                <li><strong>Today:</strong> " ].

(* lines 259-266, literal segment 3; 53 characters *)
Definition tpl_update_3 : string :=
  unlines
    [ "</li>";
      "                <li><strong>Blockers:</strong> " ].

(* lines 259-266, literal segment 4; 36 characters *)
Definition tpl_update_4 : string :=
  unlines
    [ "</li>";
      "            </ul>";
      "            " ].

(* lines 279-288, literal segment 0; 260 characters *)
Definition tpl_actions_0 : string :=
  unlines
    [ "";
      "            <h2>Action Items</h2>";
      "            <table>";
      "                <tr>";
      "                    <th>Action</th>";
      "                    <th>Assignee</th>";
      "                    <th>Due Date</th>";
      "                    <th>Priority</th>";
      "                </tr>";
      "            " ].

(* lines 290-297, literal segment 0; 46 characters *)
Definition tpl_item_0 : string :=
  unlines
    [ "";
      "                <tr>";
      "                    <td>" ].

(* lines 290-297, literal segment 1; 30 characters *)
Definition tpl_item_1 : string :=
  unlines
    [ "</td>";
      "                    <td>" ].

(* lines 290-297, literal segment 2; 30 characters *)
Definition tpl_item_2 : string :=
  unlines
    [ "</td>";
      "                    <td>" ].

(* lines 290-297, literal segment 3; 30 characters *)
Definition tpl_item_3 : string :=
  unlines
    [ "</td>";
      "                    <td>" ].

(* lines 290-297, literal segment 4; 44 characters *)
Definition tpl_item_4 : string :=
  unlines
    [ "</td>";
      "                </tr>";
      "                " ].

(* lines 317-329, literal segment 0; 111 characters *)
Definition tpl_foot_0 : string :=
  unlines
    [ "";
      "        <hr/>";
      "        <h2>Meeting Metrics</h2>";
      "        <ul>";
      "            <li><strong>Total Attendees:</strong> " ].

(* lines 317-329, literal segment 1; 53 characters *)
Definition tpl_foot_1 : string :=
  unlines
    [ "</li>";
      "            <li><strong>Action Items:</strong> " ].

(* lines 317-329, literal segment 2; 49 characters *)
Definition tpl_foot_2 : string :=
  unlines
    [ "</li>";
      "            <li><strong>Blockers:</strong> " ].

(* lines 317-329, literal segment 3; 50 characters *)
Definition tpl_foot_3 : string :=
  unlines
    [ "</li>";
      "            <li><strong>Decisions:</strong> " ].

(* lines 317-329, literal segment 4; 93 characters *)
Definition tpl_foot_4 : string :=
  unlines
    [ "</li>";
      "        </ul>";
      "        ";
      "        <hr/>";
      "        <p><em>Minutes generated automatically on " ].

(* lines 317-329, literal segment 5; 27 characters *)
Definition tpl_foot_5 : string :=
  unlines
    [ " using AI</em></p>";
      "        " ].

Definition h2_blockers : string := "<h2>Blockers/Impediments</h2><ul>".
Definition h2_decisions : string := "<h2>Decisions Made</h2><ul>".
Definition h2_discussions : string := "<h2>Key Discussion Points</h2><ul>".

Section Rendering.

(** [repr] of the values whose text the model does not compute: floats, lists
    and dicts. *)
Variable py_repr : pyval -> string.

(** [str(v)], which is what [{v}] puts into an f-string. *)
Definition py_str (v : pyval) : string :=
  match v with
  | PStr s => s
  | PNone => "None"
  | PBool true => "True"
  | PBool false => "False"
  | PInt z => pretty z
  | PFloat _ | PList _ | PDict _ => py_repr v
  end.

(** [{o.get(k, default)}] *)
Definition field (o : pyval) (k default : string) : result piece :=
  v ← py_get o k (PStr default); Ok (Val (py_str v)).

(** Lines 258-266: one pass of the loop over [individual_updates]. *)
Definition update_pieces (update : pyval) : result (list piece) :=
  name ← field update "name" "Unknown";
  yesterday ← field update "yesterday" "Not mentioned";
  today ← field update "today" "Not mentioned";
  blockers ← field update "blockers" "None";
  Ok [Lit tpl_update_0; name; Lit tpl_update_1; yesterday;
      Lit tpl_update_2; today; Lit tpl_update_3; blockers; Lit tpl_update_4].

(** Lines 289-297: one row of the action-item table. *)
Definition item_pieces (item : pyval) : result (list piece) :=
  action ← field item "action" "";
  assignee ← field item "assignee" "TBD";
  due_date ← field item "due_date" "TBD";
  priority ← field item "priority" "Medium";
  Ok [Lit tpl_item_0; action; Lit tpl_item_1; assignee;
      Lit tpl_item_2; due_date; Lit tpl_item_3; priority; Lit tpl_item_4].

(** [html += f"<li>{x}</li>"] *)
Definition li_pieces (x : pyval) : result (list piece) :=
  Ok [Lit "<li>"; Val (py_str x); Lit "</li>"].

(** [for x in o: html += body(x)] *)
Definition for_pieces (o : pyval) (body : pyval -> result (list piece))
  : result (list piece) :=
  items ← py_iter o; pss ← result_mapM body items; Ok (concat pss).

(** [if seq: html += heading; for x in seq: html += f"<li>{x}</li>";
    html += "</ul>"] (lines 270-274, 302-306, 310-314). *)
Definition bullet_section (heading : string) (seq : pyval) : result (list piece) :=
  if py_truthy seq then
    rows ← for_pieces seq li_pieces; Ok (Lit heading :: rows ++ [Lit "</ul>"])
  else Ok [].

(** Lines 278-298. *)
Definition action_section (action_items : pyval) : result (list piece) :=
  if py_truthy action_items then
    rows ← for_pieces action_items item_pieces;
    Ok (Lit tpl_actions_0 :: rows ++ [Lit "</table>"])
  else Ok [].

Definition len_piece (o : pyval) : result piece :=
  n ← py_len o; Ok (Val (pretty (Z.of_nat n))).

(** Lines 233-328, up to the point where the clock is read: everything the
    renderer appends before the generation stamp. *)
Definition minutes_body (meeting_data : pyval) (meeting_date : string)
  : result (list piece) :=
  attendees ← py_get meeting_data "attendees" (PList [PStr "No attendees extracted"]);
  attendees_cell ← py_join ", " attendees;
  summary ← field meeting_data "summary" "No summary available.";
  let head :=
    [Lit tpl_head_0; Val meeting_date; Lit tpl_head_1; Val meeting_date;
     Lit tpl_head_2; Val attendees_cell; Lit tpl_head_3; summary;
     Lit tpl_head_4] in
  updates ← py_get meeting_data "individual_updates" (PList []);
  update_part ← for_pieces updates update_pieces;
  blockers ← py_get meeting_data "blockers" (PList []);
  blocker_part ← bullet_section h2_blockers blockers;
  action_items ← py_get meeting_data "action_items" (PList []);
  action_part ← action_section action_items;
  decisions ← py_get meeting_data "decisions" (PList []);
  decision_part ← bullet_section h2_decisions decisions;
  discussions ← py_get meeting_data "key_discussions" (PList []);
  discussion_part ← bullet_section h2_discussions discussions;
  attendees' ← py_get meeting_data "attendees" (PList []);
  n_attendees ← len_piece attendees';
  n_actions ← len_piece action_items;
  n_blockers ← len_piece blockers;
  n_decisions ← len_piece decisions;
  Ok (head ++ update_part ++ blocker_part ++ action_part ++ decision_part
        ++ discussion_part
        ++ [Lit tpl_foot_0; n_attendees; Lit tpl_foot_1; n_actions;
            Lit tpl_foot_2; n_blockers; Lit tpl_foot_3; n_decisions;
            Lit tpl_foot_4]).

(** The segments of the whole document, given the text of the generation
    stamp read at line 328. *)
Definition minutes_pieces (meeting_data : pyval) (meeting_date stamp : string)
  : result (list piece) :=
  body ← minutes_body meeting_data meeting_date;
  Ok (body ++ [Val stamp; Lit tpl_foot_5]).

(** The document as a function of the record, the date and the stamp. *)
Definition render (meeting_data : pyval) (meeting_date stamp : string)
  : result string :=
  flatten <$> minutes_pieces meeting_data meeting_date stamp.

End Rendering.

(** ** The outside world *)

(** A reading of [datetime.now()]. *)
Record datetime : Type := {
  year : nat; month : nat; day : nat;
  hour : nat; minute : nat; second : nat
}.

Definition pad2 (n : nat) : string :=
  if (n <? 10)%nat then "0" +:+ pretty n else pretty n.

(** [strftime('%Y-%m-%d')]; the years the clock gives have four digits. *)
Definition strftime_date (d : datetime) : string :=
  pretty (year d) +:+ "-" +:+ pad2 (month d) +:+ "-" +:+ pad2 (day d).

(** [strftime('%Y-%m-%d %H:%M:%S')] *)
Definition strftime_stamp (d : datetime) : string :=
  strftime_date d +:+ " " +:+ pad2 (hour d) +:+ ":" +:+ pad2 (minute d)
    +:+ ":" +:+ pad2 (second d).

(** [strftime('%Y%m%d')] *)
Definition strftime_compact (d : datetime) : string :=
  pretty (year d) +:+ pad2 (month d) +:+ pad2 (day d).

(** The keyword arguments of [openai.ChatCompletion.create]; a message is a
    pair of a role and a content. *)
Record chat_request : Type := {
  model : string;
  messages : list (string * string);
  temperature : Q;
  max_tokens : Z
}.

(** The calls of [requests] the publisher makes. *)
Inductive http_request : Type :=
| HttpGet (url : string) (params : list (string * string)) (auth : string * string)
| HttpPost (url : string) (json : pyval) (auth : string * string)
| HttpPut (url : string) (json : pyval) (auth : string * string).

Record http_response : Type := {
  status_code : Z;
  text : string
}.

(** What leaves the process, in the order it is sent. *)
Inductive event : Type :=
| EvChat (r : chat_request)
| EvHttp (r : http_request).

(** The clock gives its [n]-th reading at the [n]-th call; the services answer
    a request or raise; the file system maps a path to the text of the file. *)
Record world : Type := {
  clock : nat -> datetime;
  ticks : nat;
  chat_service : chat_request -> result string;
  http_service : http_request -> result http_response;
  docx_service : string -> result (list string);
  files : gmap string string;
  dirs : gset string;
  log : list event
}.

Definition tick (w : world) : world :=
  {| clock := clock w; ticks := S (ticks w); chat_service := chat_service w;
     http_service := http_service w; docx_service := docx_service w;
     files := files w; dirs := dirs w; log := log w |}.

Definition emit (e : event) (w : world) : world :=
  {| clock := clock w; ticks := ticks w; chat_service := chat_service w;
     http_service := http_service w; docx_service := docx_service w;
     files := files w; dirs := dirs w; log := log w ++ [e] |}.

Definition set_file (p content : string) (w : world) : world :=
  {| clock := clock w; ticks := ticks w; chat_service := chat_service w;
     http_service := http_service w; docx_service := docx_service w;
     files := <[p := content]> (files w); dirs := dirs w; log := log w |}.

(** Computations that read and change the world and may raise. *)
Definition M (A : Type) : Type := world -> world * result A.

#[export] Instance M_ret : MRet M := fun _ a w => (w, Ok a).
#[export] Instance M_bind : MBind M := fun _ _ f m w =>
  match m w with
  | (w', Ok a) => f a w'
  | (w', Raise e) => (w', Raise e)
  end.

Definition lift {A} (r : result A) : M A := fun w => (w, r).
Definition raise {A} (e : exn) : M A := fun w => (w, Raise e).

(** [try: body except: handler] *)
Definition try_except {A} (body : M A) (handler : exn -> M A) : M A :=
  fun w =>
    match body w with
    | (w', Ok a) => (w', Ok a)
    | (w', Raise e) => handler e w'
    end.

Definition datetime_now : M datetime :=
  fun w => (tick w, Ok (clock w (ticks w))).

(** [openai.ChatCompletion.create(...).choices[0].message.content] *)
Definition chat_completion_create (r : chat_request) : M string :=
  fun w => (emit (EvChat r) w, chat_service w r).

Definition requests_send (r : http_request) : M http_response :=
  fun w => (emit (EvHttp r) w, http_service w r).

(** *** Paths

    A path is the string [str(path)] of a [pathlib.Path]: no trailing slash
    except for the root, [.] for the current directory.  The current
    directory and the root are always there; every other directory is listed
    in [dirs].  Permissions, links and the limits of a disk are left out: an
    operation fails only for what is or is not at a path. *)

Definition is_file (w : world) (p : string) : bool :=
  bool_decide (is_Some (files w !! p)).

Definition is_dir (w : world) (p : string) : bool :=
  String.eqb p "." || String.eqb p "/" || bool_decide (p ∈ dirs w).

(** The directories a path names on the way to its last component: for
    [a/b/c] they are [a] and [a/b]. *)
Fixpoint ancestors_from (seen rest : string) : list string :=
  match rest with
  | EmptyString => []
  | String c rest' =>
      (if Ascii.eqb c "/" && negb (String.eqb seen "") then [seen] else [])
      ++ ancestors_from (seen +:+ String c EmptyString) rest'
  end.

Definition path_ancestors (p : string) : list string := ancestors_from "" p.

(** What the operating system answers for a path below [l]: the first
    component that is not a directory decides, [NotADirectoryError] when it is
    a file and [FileNotFoundError] when it is missing. *)
Fixpoint check_ancestors (w : world) (l : list string) : result unit :=
  match l with
  | [] => Ok tt
  | q :: l' =>
      if is_dir w q then check_ancestors w l'
      else if is_file w q then Raise NotADirectoryError
      else Raise FileNotFoundError
  end.

Definition add_dirs (l : list string) (w : world) : world :=
  {| clock := clock w; ticks := ticks w; chat_service := chat_service w;
     http_service := http_service w; docx_service := docx_service w;
     files := files w; dirs := list_to_set l ∪ dirs w; log := log w |}.

(** [Path.exists] on a file or a directory. *)
Definition path_exists (p : string) : M bool :=
  fun w => (w, Ok (is_file w p || is_dir w p)).

(** [Path.read_text] *)
Definition read_text (p : string) : M string :=
  fun w =>
    match files w !! p with
    | Some s => (w, Ok s)
    | None =>
        (w, if is_dir w p then Raise IsADirectoryError
            else _ ← check_ancestors w (path_ancestors p);
                 Raise FileNotFoundError)
    end.

(** [Path.write_text]: the file is created or replaced; the directory it
    goes into must be there. *)
Definition write_text (p content : string) : M unit :=
  fun w =>
    if is_dir w p then (w, Raise IsADirectoryError)
    else match check_ancestors w (path_ancestors p) with
         | Ok _ => (set_file p content w, Ok tt)
         | Raise e => (w, Raise e)
         end.

(** [Path.mkdir(parents=True)]: the missing directories on the way are made
    too; a path that is already there raises [FileExistsError], and a file on
    the way [NotADirectoryError]. *)
Definition mkdir (p : string) : M unit :=
  fun w =>
    if is_file w p || is_dir w p then (w, Raise FileExistsError)
    else if existsb (fun q => negb (is_dir w q) && is_file w q) (path_ancestors p)
    then (w, Raise NotADirectoryError)
    else (add_dirs (path_ancestors p ++ [p]) w, Ok tt).

(** [str(Path(d) / name)] for a file name [name]. *)
Fixpoint ends_with_slash (d : string) : bool :=
  match d with
  | EmptyString => false
  | String c EmptyString => Ascii.eqb c "/"
  | String _ d' => ends_with_slash d'
  end.

Definition path_join (d name : string) : string :=
  if String.eqb d "." || String.eqb d "" then name
  else if ends_with_slash d then d +:+ name
  else d +:+ "/" +:+ name.

(** [docx.Document(p).paragraphs], the text of each paragraph. *)
Definition docx_paragraphs (p : string) : M (list string) :=
  fun w => (w, docx_service w p).

(** ** Configuration and publisher: [ConfluenceConfig], [ConfluencePublisher] *)

Record ConfluenceConfig : Type := {
  base_url : string;
  username : string;
  api_token : string;
  space_key : string;
  parent_page_id : option string
}.

(** [s.rstrip('/')] *)
Fixpoint rstrip_slash (s : string) : string :=
  match s with
  | EmptyString => EmptyString
  | String c s' =>
      match rstrip_slash s' with
      | EmptyString => if Ascii.eqb c "/" then EmptyString else String c EmptyString
      | t => String c t
      end
  end.

Record ConfluencePublisher : Type := {
  config : ConfluenceConfig;
  auth : string * string;
  pub_base_url : string
}.

(** [ConfluencePublisher.__init__] *)
Definition new_publisher (c : ConfluenceConfig) : ConfluencePublisher :=
  {| config := c;
     auth := (username c, api_token c);
     pub_base_url := rstrip_slash (base_url c) |}.

(** Truth value of an optional string: [None] and the empty string are false. *)
Definition opt_truthy (o : option string) : bool :=
  match o with
  | Some s => negb (String.eqb s "")
  | None => false
  end.

(** [a or b] on optional strings. *)
Definition opt_or (a b : option string) : option string :=
  if opt_truthy a then a else b.

Definition opt_val (o : option string) : pyval :=
  match o with
  | Some s => PStr s
  | None => PNone
  end.

(* lines 129-137, literal segment 0; 361 characters *)
Definition tpl_confluence_0 : string :=
  unlines
    [ "";
      ("        <ac:structured-macro ac:name=" +:+ dq +:+ "info" +:+ dq +:+ " ac:schema-version=" +:+ dq +:+ "1" +:+ dq +:+ ">");
      ("            <ac:parameter ac:name=" +:+ dq +:+ "title" +:+ dq +:+ ">AI-Generated Meeting Minutes</ac:parameter>");
      "            <ac:rich-text-body>";
      "                <p>This page was automatically generated from a Teams meeting transcript using AI.</p>";
      "            </ac:rich-text-body>";
      "        </ac:structured-macro>";
      "        " ].

(* lines 129-137, literal segment 1; 9 characters *)
Definition tpl_confluence_1 : string :=
  unlines
    [ "";
      "        " ].

(* lines 376-383, literal segment 0; 183 characters *)
Definition tpl_suggest_0 : string :=
  unlines
    [ "";
      "            <h2>AI Suggestions for Improvement</h2>";
      ("            <ac:structured-macro ac:name=" +:+ dq +:+ "note" +:+ dq +:+ " ac:schema-version=" +:+ dq +:+ "1" +:+ dq +:+ ">");
      "                <ac:rich-text-body>";
      "                    <p>" ].

(* lines 376-383, literal segment 1; 89 characters *)
Definition tpl_suggest_1 : string :=
  unlines
    [ "</p>";
      "                </ac:rich-text-body>";
      "            </ac:structured-macro>";
      "            " ].

(* lines 155-172, literal segment 0; 617 characters *)
Definition tpl_primary_prompt_0 : string :=
  unlines
    [ "";
      "        Analyze this meeting transcript and create structured meeting minutes. ";
      "        Extract the following information and format it as JSON:";
      "        ";
      "        Analyze this engineering team standup transcript.";
      "        Focus on:";
      "        - Technical tasks and implementations";
      "        - Blockers and dependencies";
      "        - Testing and deployment status";
      "        - Infrastructure decisions";
      "        Team members: Ranjeet, Hieu, Varshith, Swati";
      "        Projects: AI meeting pipeline, 5-FU clearance model, Kubernetes deployment";
      "        Extract updates, action items, and technical decisions.";
      "        ";
      "        Transcript: " ].

(* lines 155-172, literal segment 1; 70 characters *)
Definition tpl_primary_prompt_1 : string :=
  unlines
    [ "";
      "        ";
      "        Return ONLY valid JSON, no additional text.";
      "        " ].

(* lines 202-207, literal segment 0; 71 characters *)
Definition tpl_simple_prompt_0 : string :=
  unlines
    [ "";
      "        Create a simple meeting summary from this transcript:";
      "        " ].

(* lines 202-207, literal segment 1; 160 characters *)
Definition tpl_simple_prompt_1 : string :=
  unlines
    [ "  # Limit context for simpler processing";
      "        ";
      "        Format as JSON with: attendees (list), summary (string), action_items (list), blockers (list)";
      "        " ].

(* lines 336-343, literal segment 0; 130 characters *)
Definition tpl_improve_prompt_0 : string :=
  unlines
    [ "";
      "        Based on these meeting minutes, suggest 2-3 specific improvements for future meetings:";
      "        - Number of action items: " ].

(* lines 336-343, literal segment 1; 31 characters *)
Definition tpl_improve_prompt_1 : string :=
  unlines
    [ "";
      "        - Number of blockers: " ].

(* lines 336-343, literal segment 2; 22 characters *)
Definition tpl_improve_prompt_2 : string :=
  unlines
    [ "";
      "        - Attendees: " ].

(* lines 336-343, literal segment 3; 65 characters *)
Definition tpl_improve_prompt_3 : string :=
  unlines
    [ "";
      "        ";
      "        Provide brief, actionable suggestions.";
      "        " ].

(** The record the generator returns: the keys of the result dict. *)
Record run_result : Type := {
  meeting_data : pyval;
  html_content : string;
  confluence_url : option string;
  page_id : option pyval;
  local_file : option string;
  json_file : option string
}.

(** The attributes of the [pathlib.Path] of the transcript that
    [process_file] reads. *)
Record input_path : Type := {
  path_str : string;
  suffix : string;
  stem : string
}.

Definition ascii_lower (c : ascii) : ascii :=
  let n := nat_of_ascii c in
  if ((65 <=? n) && (n <=? 90))%nat then ascii_of_nat (n + 32) else c.

(** [s.lower()] on ASCII text. *)
Fixpoint str_lower (s : string) : string :=
  match s with
  | EmptyString => EmptyString
  | String c s' => String (ascii_lower c) (str_lower s')
  end.

(** The ultimate fallback of [simple_ai_extraction] (lines 223-228). *)
Definition safe_default : pyval :=
  PDict [("attendees", PList [PStr "Unable to extract attendees"]);
         ("summary", PStr "Meeting transcript processed but extraction failed.");
         ("action_items", PList []);
         ("blockers", PList [])].

Section Pipeline.

Variable py_repr : pyval -> string.

(** [json.loads]: the value of a JSON text, or nothing when it is malformed. *)
Variable json_parse : string -> option pyval.

(** [json.dumps(v, indent=2)] *)
Variable json_dumps : pyval -> string.

Definition json_loads (s : string) : result pyval :=
  match json_parse s with
  | Some v => Ok v
  | None => Raise JSONDecodeError
  end.

(** *** [ConfluencePublisher] *)

(** [format_for_confluence] *)
Definition format_for_confluence (html : string) : string :=
  tpl_confluence_0 +:+ html +:+ tpl_confluence_1.

Definition storage_body (content : string) : pyval :=
  PDict [("storage", PDict [("value", PStr content);
                            ("representation", PStr "storage")])].

(** Lines 73-79 and 101-107: the page on status 200, an exception otherwise.
    The log line on success reads [page_data['_links']['webui']]. *)
Definition page_or_error (response : http_response) : result pyval :=
  if status_code response =? 200 then
    page_data ← json_loads (text response);
    links ← py_item page_data "_links";
    _ ← py_item links "webui";
    Ok page_data
  else
    Raise (ExceptionMsg ("Confluence API error: " +:+ pretty (status_code response))).

Definition create_payload (self : ConfluencePublisher) (title content : string)
  (parent_id : option string) : pyval :=
  let payload :=
    [("type", PStr "page");
     ("title", PStr title);
     ("space", PDict [("key", PStr (space_key (config self)))]);
     ("body", storage_body (format_for_confluence content));
     ("metadata",
       PDict [("labels", PList [PDict [("name", PStr "meeting-minutes")];
                                PDict [("name", PStr "standup")];
                                PDict [("name", PStr "ai-generated")]])])] in
  let parent := opt_or parent_id (parent_page_id (config self)) in
  if opt_truthy parent then
    PDict (dict_set "ancestors" (PList [PDict [("id", opt_val parent)]]) payload)
  else PDict payload.

Definition create_page (self : ConfluencePublisher) (title content : string)
  (parent_id : option string) : M pyval :=
  let url := pub_base_url self +:+ "/rest/api/content" in
  let payload := create_payload self title content parent_id in
  response ← requests_send (HttpPost url payload (auth self));
  lift (page_or_error response).

Definition update_payload (title content : string) (version : pyval)
  : result pyval :=
  number ← py_succ version;
  Ok (PDict [("version", PDict [("number", number)]);
             ("title", PStr title);
             ("type", PStr "page");
             ("body", storage_body (format_for_confluence content))]).

Definition update_page (self : ConfluencePublisher) (page_id : pyval)
  (title content : string) (version : pyval) : M pyval :=
  let url := pub_base_url self +:+ "/rest/api/content/" +:+ py_str py_repr page_id in
  payload ← lift (update_payload title content version);
  response ← requests_send (HttpPut url payload (auth self));
  lift (page_or_error response).

Definition find_request (self : ConfluencePublisher) (title : string)
  : http_request :=
  HttpGet (pub_base_url self +:+ "/rest/api/content")
    [("spaceKey", space_key (config self)); ("title", title);
     ("expand", "version")]
    (auth self).

(** Lines 120-124. *)
Definition first_result (response : http_response) : result pyval :=
  if status_code response =? 200 then
    data ← json_loads (text response);
    results ← py_item data "results";
    if py_truthy results then py_first results else Ok PNone
  else Ok PNone.

Definition find_page_by_title (self : ConfluencePublisher) (title : string)
  : M pyval :=
  response ← requests_send (find_request self title);
  lift (first_result response).

(** *** [AIMinutesGenerator] *)

Record AIMinutesGenerator : Type := {
  confluence : option ConfluencePublisher
}.

(** [AIMinutesGenerator.__init__]; the key goes to the [openai] module. *)
Definition new_generator (openai_api_key : string)
  (confluence_config : option ConfluenceConfig) : AIMinutesGenerator :=
  {| confluence := new_publisher <$> confluence_config |}.

(** [if not meeting_date: meeting_date = datetime.now().strftime('%Y-%m-%d')] *)
Definition date_or_today (meeting_date : option string) : M string :=
  if opt_truthy meeting_date then mret (default "" meeting_date)
  else d ← datetime_now; mret (strftime_date d).

Definition primary_request (transcript : string) : chat_request :=
  {| model := "gpt-4";
     messages :=
       [("system", "You are an expert at analyzing meeting transcripts and creating clear, concise meeting minutes. Always return valid JSON.");
        ("user", tpl_primary_prompt_0 +:+ transcript +:+ tpl_primary_prompt_1)];
     temperature := 3 # 10;
     max_tokens := 2000 |}.

Definition simple_request (transcript : string) : chat_request :=
  {| model := "gpt-3.5-turbo";
     messages :=
       [("system", "Extract meeting information and return as JSON.");
        ("user", tpl_simple_prompt_0 +:+ str_prefix 3000 transcript
                   +:+ tpl_simple_prompt_1)];
     temperature := 5 # 10;
     max_tokens := 1000 |}.

(** The body of a [try] of an extraction tier: the call, then [json.loads]
    of the answer. *)
Definition ask_json (r : chat_request) : M pyval :=
  content ← chat_completion_create r; lift (json_loads content).

Definition simple_ai_extraction (transcript : string) : M pyval :=
  try_except (ask_json (simple_request transcript))
             (fun _ => mret safe_default).

Definition process_transcript_with_ai (transcript : string)
  (meeting_date : option string) : M pyval :=
  _ ← date_or_today meeting_date;
  try_except (ask_json (primary_request transcript))
             (fun e =>
                match e with
                | JSONDecodeError => simple_ai_extraction transcript
                | _ => raise e
                end).

(** Line 328 reads the clock after everything else in the document has been
    computed. *)
Definition format_minutes_as_html (meeting_data : pyval) (meeting_date : string)
  : M string :=
  body ← lift (minutes_body py_repr meeting_data meeting_date);
  now ← datetime_now;
  mret (flatten (body ++ [Val (strftime_stamp now); Lit tpl_foot_5])).

Definition count_of (meeting_data : pyval) (k : string) : result string :=
  seq ← py_get meeting_data k (PList []);
  n ← py_len seq;
  Ok (pretty (Z.of_nat n)).

(** The prompt is built before the [try] (lines 336-343). *)
Definition improvement_prompt (meeting_data : pyval) : result string :=
  n_actions ← count_of meeting_data "action_items";
  n_blockers ← count_of meeting_data "blockers";
  n_attendees ← count_of meeting_data "attendees";
  Ok (tpl_improve_prompt_0 +:+ n_actions +:+ tpl_improve_prompt_1 +:+ n_blockers
        +:+ tpl_improve_prompt_2 +:+ n_attendees +:+ tpl_improve_prompt_3).

Definition improvement_request (prompt : string) : chat_request :=
  {| model := "gpt-3.5-turbo";
     messages := [("system", "You are a meeting efficiency expert.");
                  ("user", prompt)];
     temperature := 7 # 10;
     max_tokens := 200 |}.

Definition generate_improvement_suggestions (meeting_data : pyval) : M string :=
  prompt ← lift (improvement_prompt meeting_data);
  try_except (chat_completion_create (improvement_request prompt))
             (fun _ => mret "").

(** Lines 375-383: the callout block, only for a non-empty suggestion. *)
Definition with_suggestions (html suggestions : string) : string :=
  if negb (String.eqb suggestions "") then
    html +:+ tpl_suggest_0 +:+ suggestions +:+ tpl_suggest_1
  else html.

Definition page_title (meeting_date : string) : string :=
  "Stand-up Minutes - " +:+ meeting_date.

(** Lines 390-400: look the title up, then update or create. *)
Definition publish (self : ConfluencePublisher) (title html : string) : M pyval :=
  existing_page ← find_page_by_title self title;
  if py_truthy existing_page then
    id ← lift (py_item existing_page "id");
    number ← lift (version ← py_item existing_page "version";
                   py_item version "number");
    update_page self id title html number
  else create_page self title html None.

(** Lines 385-412: publish when a publisher is configured, and build the
    result. *)
Definition deliver (self : AIMinutesGenerator) (meeting_date : string)
  (meeting_data : pyval) (html : string) : M run_result :=
  match confluence self with
  | Some pub =>
      page_data ← publish pub (page_title meeting_date) html;
      webui ← lift (links ← py_item page_data "_links"; py_item links "webui");
      id ← lift (py_item page_data "id");
      mret {| meeting_data := meeting_data; html_content := html;
              confluence_url := Some (pub_base_url pub +:+ py_str py_repr webui);
              page_id := Some id; local_file := None; json_file := None |}
  | None =>
      mret {| meeting_data := meeting_data; html_content := html;
              confluence_url := None; page_id := None;
              local_file := None; json_file := None |}
  end.

Definition process_and_publish (self : AIMinutesGenerator) (transcript : string)
  (meeting_date : option string) : M run_result :=
  meeting_date ← date_or_today meeting_date;
  meeting_data ← process_transcript_with_ai transcript (Some meeting_date);
  html ← format_minutes_as_html meeting_data meeting_date;
  suggestions ← generate_improvement_suggestions meeting_data;
  deliver self meeting_date meeting_data (with_suggestions html suggestions).

(** Lines 418-428. *)
Definition read_transcript (input_file : input_path) : M string :=
  if String.eqb (str_lower (suffix input_file)) ".docx" then
    paragraphs ← docx_paragraphs (path_str input_file);
    mret (str_join nl paragraphs)
  else read_text (path_str input_file).

(** Lines 438 and 444: [output_dir / f"minutes_{stem}_{today}{ext}"]. *)
Definition output_name (output_dir : string) (input_file : input_path)
  (now : datetime) (ext : string) : string :=
  path_join output_dir
    ("minutes_" +:+ stem input_file +:+ "_" +:+ strftime_compact now +:+ ext).

(** Lines 434-448. *)
Definition save_local (output_dir : string) (input_file : input_path)
  (r : run_result) : M run_result :=
  there ← path_exists output_dir;
  _ ← (if negb there then mkdir output_dir else mret tt);
  now ← datetime_now;
  let output_file := output_name output_dir input_file now ".html" in
  _ ← write_text output_file (html_content r);
  now' ← datetime_now;
  let json_out := output_name output_dir input_file now' ".json" in
  _ ← write_text json_out (json_dumps (meeting_data r));
  mret {| meeting_data := meeting_data r; html_content := html_content r;
          confluence_url := confluence_url r; page_id := page_id r;
          local_file := Some output_file; json_file := Some json_out |}.

Definition process_file (self : AIMinutesGenerator) (input_file : input_path)
  (output_dir : option string) : M run_result :=
  text ← read_transcript input_file;
  r ← process_and_publish self text None;
  match output_dir with
  | Some d => save_local d input_file r
  | None => mret r
  end.

End Pipeline.

(** * The documented renderer

    The data model of the specification: a meeting record is a key/value
    object with seven optional fields; [attendees] is a sequence of names, the
    other six sequences hold objects ([individual_updates], [action_items]) or
    free values, and every absent field has a literal default. *)

Definition is_str (v : pyval) : bool :=
  match v with PStr _ => true | _ => false end.

Definition is_dict (v : pyval) : bool :=
  match v with PDict _ => true | _ => false end.

Definition any_value (v : pyval) : bool := true.

Definition list_of (p : pyval -> bool) (v : pyval) : bool :=
  match v with PList l => forallb p l | _ => false end.

(** The field [k] is absent, or present with a value accepted by [p]. *)
Definition optional (p : pyval -> bool) (d : list (string * pyval)) (k : string)
  : bool :=
  match dict_lookup k d with
  | Some v => p v
  | None => true
  end.

Definition meeting_record (v : pyval) : bool :=
  match v with
  | PDict d =>
      optional (list_of is_str) d "attendees"
      && optional (list_of is_dict) d "individual_updates"
      && optional (list_of any_value) d "blockers"
      && optional (list_of is_dict) d "action_items"
      && optional (list_of any_value) d "decisions"
      && optional (list_of any_value) d "key_discussions"
  | _ => false
  end.

Definition fields_of (v : pyval) : list (string * pyval) :=
  match v with PDict d => d | _ => [] end.

(** The sequence stored under [k]; empty when the field is absent. *)
Definition seq_of (v : pyval) (k : string) : list pyval :=
  match dict_lookup k (fields_of v) with
  | Some (PList l) => l
  | _ => []
  end.

Definition str_of (v : pyval) : string :=
  match v with PStr s => s | _ => "" end.

Section Documented.

Variable py_repr : pyval -> string.

(** The text of field [k] of an object, or the literal [default]. *)
Definition text_or (v : pyval) (k default : string) : string :=
  match dict_lookup k (fields_of v) with
  | Some x => py_str py_repr x
  | None => default
  end.

Definition documented_update (u : pyval) : list piece :=
  [Lit tpl_update_0; Val (text_or u "name" "Unknown");
   Lit tpl_update_1; Val (text_or u "yesterday" "Not mentioned");
   Lit tpl_update_2; Val (text_or u "today" "Not mentioned");
   Lit tpl_update_3; Val (text_or u "blockers" "None");
   Lit tpl_update_4].

Definition documented_item (i : pyval) : list piece :=
  [Lit tpl_item_0; Val (text_or i "action" "");
   Lit tpl_item_1; Val (text_or i "assignee" "TBD");
   Lit tpl_item_2; Val (text_or i "due_date" "TBD");
   Lit tpl_item_3; Val (text_or i "priority" "Medium");
   Lit tpl_item_4].

Definition documented_li (x : pyval) : list piece :=
  [Lit "<li>"; Val (py_str py_repr x); Lit "</li>"].

(** A bulleted section: nothing for an empty sequence. *)
Definition documented_bullets (heading : string) (l : list pyval) : list piece :=
  match l with
  | [] => []
  | _ :: _ => Lit heading :: concat (map documented_li l) ++ [Lit "</ul>"]
  end.

Definition documented_actions (l : list pyval) : list piece :=
  match l with
  | [] => []
  | _ :: _ => Lit tpl_actions_0 :: concat (map documented_item l) ++ [Lit "</table>"]
  end.

(** The attendees cell: the names joined by a comma, or the default text when
    the field is absent. *)
Definition documented_attendees (md : pyval) : string :=
  match dict_lookup "attendees" (fields_of md) with
  | Some _ => str_join ", " (map str_of (seq_of md "attendees"))
  | None => "No attendees extracted"
  end.

Definition count_text (l : list pyval) : string := pretty (Z.of_nat (length l)).

Definition documented_pieces (md : pyval) (meeting_date stamp : string)
  : list piece :=
  [Lit tpl_head_0; Val meeting_date; Lit tpl_head_1; Val meeting_date;
   Lit tpl_head_2; Val (documented_attendees md);
   Lit tpl_head_3; Val (text_or md "summary" "No summary available.");
   Lit tpl_head_4]
  ++ concat (map documented_update (seq_of md "individual_updates"))
  ++ documented_bullets h2_blockers (seq_of md "blockers")
  ++ documented_actions (seq_of md "action_items")
  ++ documented_bullets h2_decisions (seq_of md "decisions")
  ++ documented_bullets h2_discussions (seq_of md "key_discussions")
  ++ [Lit tpl_foot_0; Val (count_text (seq_of md "attendees"));
      Lit tpl_foot_1; Val (count_text (seq_of md "action_items"));
      Lit tpl_foot_2; Val (count_text (seq_of md "blockers"));
      Lit tpl_foot_3; Val (count_text (seq_of md "decisions"));
      Lit tpl_foot_4; Val stamp; Lit tpl_foot_5].

End Documented.






(** The Attendees row of the header table with [cell] as its text. *)
Definition attendees_row (cell : string) : string :=
  "<th>Attendees</th>" +:+ nl +:+ "                <td>" +:+ cell +:+ "</td>".

(** ** Sample data *)

Definition sample_repr (v : pyval) : string := "<repr>".

Definition sample_clock (n : nat) : datetime :=
  {| year := 2024; month := 1; day := 15; hour := 9; minute := 30; second := n |}.

(** A record with every top-level field absent. *)
Definition empty_record : pyval := PDict [].

(** A record whose update and action item lack most of their fields. *)
Definition sparse_record : pyval :=
  PDict [("individual_updates", PList [PDict [("today", PStr "Ship the parser")]]);
         ("action_items", PList [PDict [("action", PStr "Review the draft")]]);
         ("decisions", PList [PStr "Adopt the new template"])].

(** A record whose [attendees] field is present and empty. *)
Definition nobody_record : pyval := PDict [("attendees", PList [])].

(** A world in which every service is down and the disk is empty. *)
Definition quiet_world : world :=
  {| clock := sample_clock; ticks := 0;
     chat_service := fun _ => Raise (ServiceError "APIConnectionError");
     http_service := fun _ => Raise (ServiceError "ConnectionError");
     docx_service := fun _ => Raise ImportError;
     files := ∅; dirs := ∅; log := [] |}.

(** Another world: a file on the disk, a request already logged, and a clock
    that gives the same reading at its third call. *)
Definition busy_world : world :=
  {| clock := fun n => sample_clock (n - 3); ticks := 3;
     chat_service := fun _ => Ok "{}";
     http_service := fun _ => Ok {| status_code := 404; text := "" |};
     docx_service := fun _ => Ok [];
     files := {[ "notes.txt" := "hello" ]}; dirs := {[ "out" ]};
     log := [EvChat {| model := "gpt-4"; messages := [];
                       temperature := 0; max_tokens := 1 |}] |}.

(** ** Vocabulary of the statements *)

(** The outcome of the body of a tier's [try]: the answer of the completion
    service to the request, parsed as JSON. *)
Definition tier_outcome (json_parse : string -> option pyval) (w : world)
  (r : chat_request) : result pyval :=
  content ← chat_service w r; json_loads json_parse content.

(** What was sent between the world [w] and the later world [w']. *)
Definition sent_during (w w' : world) : list event :=
  drop (length (log w)) (log w').

(** Lines 363-371 of [process_and_publish]: the date, the record and the
    rendered document. *)
Definition prepare (py_repr : pyval -> string) (json_parse : string -> option pyval)
  (transcript : string) (meeting_date : option string)
  : M (string * pyval * string) :=
  meeting_date ← date_or_today meeting_date;
  meeting_data ← process_transcript_with_ai json_parse transcript (Some meeting_date);
  html ← format_minutes_as_html py_repr meeting_data meeting_date;
  mret (meeting_date, meeting_data, html).

(** A request that creates or changes a page. *)
Definition is_write (r : http_request) : bool :=
  match r with
  | HttpGet _ _ _ => false
  | HttpPost _ _ _ | HttpPut _ _ _ => true
  end.

(** A JSON parser for the sample worlds: it knows two texts. *)
Definition sample_parse (s : string) : option pyval :=
  if String.eqb s "RECORD" then Some sparse_record
  else if String.eqb s "EMPTY" then Some empty_record
  else None.

(** The completion service answers the primary tier with text that is not
    JSON and is down for every other request. *)
Definition garbled_world : world :=
  {| clock := sample_clock; ticks := 0;
     chat_service := fun r =>
       if String.eqb (model r) "gpt-4" then Ok "Sure! Here are the minutes."
       else Raise (ServiceError "RateLimitError");
     http_service := fun _ => Raise (ServiceError "ConnectionError");
     docx_service := fun _ => Raise ImportError;
     files := ∅; dirs := ∅; log := [] |}.

(** The world in which the tiers run: the date step may have read the clock. *)
Definition dated (meeting_date : option string) (w : world) : world :=
  if opt_truthy meeting_date then w else tick w.


(** The completion service gives the primary tier a JSON record and is down
    for every other request; no publisher answers. *)
Definition silent_advisor_world : world :=
  {| clock := sample_clock; ticks := 0;
     chat_service := fun r =>
       if String.eqb (model r) "gpt-4" then Ok "RECORD"
       else Raise (ServiceError "Timeout");
     http_service := fun _ => Raise (ServiceError "ConnectionError");
     docx_service := fun _ => Raise ImportError;
     files := {[ "standup.txt" := "Ana: done." ]}; dirs := ∅; log := [] |}.

(** A generator without a publisher. *)
Definition local_generator : AIMinutesGenerator := new_generator "sk-test" None.

(** [w'] differs from [w] in the clock count and in the log only: services
    and disk are the same. *)
Definition frame (w w' : world) : Prop :=
  clock w' = clock w /\ chat_service w' = chat_service w
  /\ http_service w' = http_service w /\ docx_service w' = docx_service w
  /\ files w' = files w /\ dirs w' = dirs w.

(** A computation that leaves services and disk as they are. *)
Definition framed {A} (m : M A) : Prop := forall w, frame w (fst (m w)).

(** The request [create_page] sends for a page without an explicit parent. *)
Definition create_request (self : ConfluencePublisher) (title html : string)
  : http_request :=
  HttpPost (pub_base_url self +:+ "/rest/api/content")
    (create_payload self title html None) (auth self).

(** The answer to a request, read by [reader]. *)
Definition answered {A} (w : world) (r : http_request)
  (reader : http_response -> result A) : result A :=
  response ← http_service w r; reader response.

Definition sample_config : ConfluenceConfig :=
  {| base_url := "https://wiki.example.org/"; username := "bot";
     api_token := "secret"; space_key := "TEAM"; parent_page_id := None |}.

Definition sample_publisher : ConfluencePublisher := new_publisher sample_config.

(** A generator that publishes. *)
Definition wiki_generator : AIMinutesGenerator :=
  new_generator "sk-test" (Some sample_config).

(** The page of Scenario D: version 3. *)
Definition sample_page : pyval :=
  PDict [("id", PStr "4711");
         ("version", PDict [("number", PInt 3)]);
         ("_links", PDict [("webui", PStr "/spaces/TEAM/pages/4711")])].

(** A JSON parser for the answers of the sample wiki. *)
Definition wiki_parse (s : string) : option pyval :=
  if String.eqb s "RECORD" then Some sparse_record
  else if String.eqb s "FOUND" then Some (PDict [("results", PList [sample_page])])
  else if String.eqb s "NOTHING" then Some (PDict [("results", PList [])])
  else if String.eqb s "NO RESULTS KEY" then Some (PDict [])
  else if String.eqb s "PAGE" then Some sample_page
  else None.

(** The wiki answers every request with [lookup] for a GET and [write] for a
    POST or a PUT; the completion service answers the primary tier with a
    record and is down otherwise. *)
Definition wiki_world (lookup write : http_response) : world :=
  {| clock := sample_clock; ticks := 0;
     chat_service := fun r =>
       if String.eqb (model r) "gpt-4" then Ok "RECORD"
       else Raise (ServiceError "Timeout");
     http_service := fun r => if is_write r then Ok write else Ok lookup;
     docx_service := fun _ => Raise ImportError;
     files := {[ "standup.txt" := "Ana: done." ]}; dirs := ∅; log := [] |}.

Definition sample_input : input_path :=
  {| path_str := "standup.txt"; suffix := ".txt"; stem := "standup" |}.

Definition sample_dumps (v : pyval) : string := "<json>".

(** Some create or update request was answered with status 200. *)
Definition write_accepted (w : world) : Prop :=
  exists r response,
    is_write r = true /\ http_service w r = Ok response
    /\ status_code response = 200.


(** ** The command line: [main] *)

(** What [parser.parse_args()] returns: an option that was not given is
    [None]. *)
Record cli_args : Type := {
  arg_input : string;
  arg_output_dir : option string;
  arg_date : option string;
  arg_openai_key : option string;
  arg_confluence_url : option string;
  arg_confluence_username : option string;
  arg_confluence_token : option string;
  arg_confluence_space : option string;
  arg_confluence_parent_id : option string
}.

(** Lines 486-493: a configuration only when all four settings are given and
    not empty. *)
Definition confluence_config_of (args : cli_args) : option ConfluenceConfig :=
  if opt_truthy (arg_confluence_url args)
     && opt_truthy (arg_confluence_username args)
     && opt_truthy (arg_confluence_token args)
     && opt_truthy (arg_confluence_space args)
  then Some {| base_url := default "" (arg_confluence_url args);
               username := default "" (arg_confluence_username args);
               api_token := default "" (arg_confluence_token args);
               space_key := default "" (arg_confluence_space args);
               parent_page_id := arg_confluence_parent_id args |}
  else None.

(** Lines 517-522: the four counts of the printed summary. *)
Definition summary_counts (meeting_data : pyval) : result unit :=
  _ ← count_of meeting_data "attendees";
  _ ← count_of meeting_data "action_items";
  _ ← count_of meeting_data "blockers";
  _ ← count_of meeting_data "decisions";
  Ok tt.

Section CommandLine.

Variable py_repr : pyval -> string.
Variable json_parse : string -> option pyval.
Variable json_dumps : pyval -> string.

(** [pathlib.Path(s)], as far as [main] and [process_file] read it. *)
Variable py_Path : string -> input_path.

(** [main], after the arguments are parsed; [env_key] is the value of
    [OPENAI_API_KEY] in the environment.  The result is the exit code.  What
    is printed is left out; the expressions the summary prints are evaluated. *)
Definition main (args : cli_args) (env_key : option string) : M Z :=
  let openai_api_key := opt_or (arg_openai_key args) env_key in
  if negb (opt_truthy openai_api_key) then mret 1
  else
    let input_file := py_Path (arg_input args) in
    there ← path_exists (path_str input_file);
    if negb there then mret 1
    else
      let output_dir :=
        if opt_truthy (arg_output_dir args)
        then Some (path_str (py_Path (default "" (arg_output_dir args))))
        else None in
      let generator :=
        new_generator (default "" openai_api_key) (confluence_config_of args) in
      try_except
        (result ← process_file py_repr json_parse json_dumps generator input_file
                    output_dir;
         _ ← lift (summary_counts (meeting_data result));
         mret 0)
        (fun _ => mret 1).

End CommandLine.

(** ** More vocabulary *)

Definition is_chat (e : event) : bool :=
  match e with EvChat _ => true | EvHttp _ => false end.

(** From [w] to [w'] the log has grown by the events [l]. *)
Definition grows (w w' : world) (l : list event) : Prop :=
  log w' = log w ++ l.

(** [', '.join(v)] succeeds on [v]: a list of strings, a string or a dict. *)
Definition joinable (v : pyval) : bool :=
  match v with
  | PList l => forallb is_str l
  | PStr _ | PDict _ => true
  | _ => false
  end.

(** The footer line of the attendee count. *)
Definition attendee_count_line (n : string) : string :=
  "<li><strong>Total Attendees:</strong> " +:+ n +:+ "</li>".

(** A record with two attendees, one update, two action items and a blocker:
    Scenario A with a blocker added. *)
Definition full_record : pyval :=
  PDict [("attendees", PList [PStr "Ana"; PStr "Ben"]);
         ("summary", PStr "Release is on track.");
         ("individual_updates",
           PList [PDict [("name", PStr "Ana"); ("today", PStr "Ship the parser")]]);
         ("action_items",
           PList [PDict [("action", PStr "Review the draft"); ("assignee", PStr "Ben")];
                  PDict [("action", PStr "Book the room")]]);
         ("blockers", PList [PStr "CI is red"])].

(** What a simplified tier may answer: action items as plain strings. *)
Definition flat_record : pyval :=
  PDict [("attendees", PList [PStr "Ana"]);
         ("summary", PStr "Short sync.");
         ("action_items", PList [PStr "Review the draft"]);
         ("blockers", PList [])].

(** The content of the last message of a request: the prompt. *)
Definition user_content (r : chat_request) : string :=
  from_option snd "" (last (messages r)).

(** The primary tier gets an answer that is not JSON; the simplified tier and
    the advisor get [answer]. *)
Definition fallback_world (answer : string) : world :=
  {| clock := sample_clock; ticks := 0;
     chat_service := fun r =>
       if String.eqb (model r) "gpt-4" then Ok "Sure! Here are the minutes."
       else Ok answer;
     http_service := fun _ => Raise (ServiceError "ConnectionError");
     docx_service := fun _ => Raise ImportError;
     files := {[ "standup.txt" := "Ana: done." ]}; dirs := ∅; log := [] |}.

(** The primary tier gets [record]; every other completion request gets
    [advice]. *)
Definition advised_world (record advice : string) : world :=
  {| clock := sample_clock; ticks := 0;
     chat_service := fun r =>
       if String.eqb (model r) "gpt-4" then Ok record else Ok advice;
     http_service := fun _ => Raise (ServiceError "ConnectionError");
     docx_service := fun _ => Raise ImportError;
     files := {[ "standup.txt" := "Ana: done." ]}; dirs := ∅; log := [] |}.

(** A JSON parser for the sample answers of the completion service. *)
Definition answer_parse (s : string) : option pyval :=
  if String.eqb s "RECORD" then Some sparse_record
  else if String.eqb s "LIST" then Some (PList [PStr "Ana"; PStr "Ben"])
  else None.

(** The configuration [c] with another base URL. *)
Definition with_base_url (u : string) (c : ConfluenceConfig) : ConfluenceConfig :=
  {| base_url := u; username := username c; api_token := api_token c;
     space_key := space_key c; parent_page_id := parent_page_id c |}.

(** The JSON payload of a create or update request. *)
Definition request_json (r : http_request) : pyval :=
  match r with
  | HttpGet _ _ _ => PNone
  | HttpPost _ json _ | HttpPut _ json _ => json
  end.

(** [payload['body']['storage']['value']] *)
Definition storage_value (payload : pyval) : result pyval :=
  body ← py_item payload "body";
  storage ← py_item body "storage";
  py_item storage "value".

(** Lines 393-398 and 83-97: the update request for a found page, when its
    id and version number can be read and the number can be incremented. *)
Definition update_request (py_repr : pyval -> string) (self : ConfluencePublisher)
  (page : pyval) (title html : string) : result http_request :=
  id ← py_item page "id";
  number ← (version ← py_item page "version"; py_item version "number");
  payload ← update_payload title html number;
  Ok (HttpPut (pub_base_url self +:+ "/rest/api/content/" +:+ py_str py_repr id)
        payload (auth self)).

(** The wiki answers every lookup with a list of results and accepts every
    write. *)
Definition found_world : world :=
  {| clock := sample_clock; ticks := 0;
     chat_service := fun r =>
       if String.eqb (model r) "gpt-4" then Ok "RECORD"
       else Raise (ServiceError "Timeout");
     http_service := fun r =>
       if is_write r then Ok {| status_code := 200; text := "PAGE" |}
       else Ok {| status_code := 200; text := "FOUND" |};
     docx_service := fun _ => Raise ImportError;
     files := {[ "standup.txt" := "Ana: done." ]}; dirs := ∅; log := [] |}.

(** A parser whose lookup answer holds [page] first and another page after. *)
Definition found_parse (page : pyval) (s : string) : option pyval :=
  if String.eqb s "RECORD" then Some sparse_record
  else if String.eqb s "FOUND" then Some (PDict [("results", PList [page; sample_page])])
  else if String.eqb s "PAGE" then Some sample_page
  else if String.eqb s "BARE" then Some (PDict [("id", PStr "4711")])
  else None.

(** A found page whose version number is a string. *)
Definition odd_page : pyval :=
  PDict [("id", PStr "4711"); ("version", PDict [("number", PStr "3")])].

(** The meeting date a run works with: the one given, or today's. *)
Definition date_value (meeting_date : option string) (w : world) : string :=
  if opt_truthy meeting_date then default "" meeting_date
  else strftime_date (clock w (ticks w)).

(** The result [r] with the names of the two local files. *)
Definition with_local_files (html_name json_name : string) (r : run_result)
  : run_result :=
  {| meeting_data := meeting_data r; html_content := html_content r;
     confluence_url := confluence_url r; page_id := page_id r;
     local_file := Some html_name; json_file := Some json_name |}.

(** The arguments [args] with another [--date]. *)
Definition with_date (d : option string) (args : cli_args) : cli_args :=
  {| arg_input := arg_input args; arg_output_dir := arg_output_dir args;
     arg_date := d; arg_openai_key := arg_openai_key args;
     arg_confluence_url := arg_confluence_url args;
     arg_confluence_username := arg_confluence_username args;
     arg_confluence_token := arg_confluence_token args;
     arg_confluence_space := arg_confluence_space args;
     arg_confluence_parent_id := arg_confluence_parent_id args |}.

(** A path parser for the sample runs: it knows the sample transcript. *)
Definition sample_Path (s : string) : input_path :=
  if String.eqb s "standup.txt" then sample_input
  else {| path_str := s; suffix := ""; stem := s |}.

(** A command line with a key, an output directory, a date and a wiki. *)
Definition sample_args : cli_args :=
  {| arg_input := "standup.txt"; arg_output_dir := Some "out";
     arg_date := Some "1999-12-31"; arg_openai_key := Some "sk-test";
     arg_confluence_url := Some "https://wiki.example.org/";
     arg_confluence_username := Some "bot";
     arg_confluence_token := Some "secret";
     arg_confluence_space := Some "TEAM";
     arg_confluence_parent_id := None |}.

(** The same command line without the token of the wiki. *)
Definition tokenless_args : cli_args :=
  {| arg_input := "standup.txt"; arg_output_dir := Some "out";
     arg_date := None; arg_openai_key := Some "sk-test";
     arg_confluence_url := Some "https://wiki.example.org/";
     arg_confluence_username := Some "bot";
     arg_confluence_token := None;
     arg_confluence_space := Some "TEAM";
     arg_confluence_parent_id := None |}.

(** The key, the generator, the output directory and the existence test
    [main] works with (lines 472, 482, 499 and 478). *)
Definition main_key (args : cli_args) (env_key : option string) : option string :=
  opt_or (arg_openai_key args) env_key.

Definition main_generator (args : cli_args) (env_key : option string)
  : AIMinutesGenerator :=
  new_generator (default "" (main_key args env_key)) (confluence_config_of args).

Definition main_output_dir (py_Path : string -> input_path) (args : cli_args)
  : option string :=
  if opt_truthy (arg_output_dir args)
  then Some (path_str (py_Path (default "" (arg_output_dir args))))
  else None.

Definition input_there (py_Path : string -> input_path) (args : cli_args)
  (w : world) : bool :=
  is_file w (path_str (py_Path (arg_input args)))
  || is_dir w (path_str (py_Path (arg_input args))).

(** The parameters of the lookup for the page of [meeting_date]. *)
Definition lookup_params (space meeting_date : string) : list (string * string) :=
  [("spaceKey", space); ("title", "Stand-up Minutes - " +:+ meeting_date);
   ("expand", "version")].

(** *** What saving needs from the disk *)

(** [mkdir(parents=True)] succeeds on a path that is not there yet when no
    file is on the way to it. *)
Definition can_make (w : world) (p : string) : bool :=
  negb (existsb (fun q => negb (is_dir w q) && is_file w q) (path_ancestors p)).

(** A file can be written where its name is not a directory and every
    directory on the way is there. *)
Definition can_write (w : world) (p : string) : bool :=
  negb (is_dir w p) && forallb (is_dir w) (path_ancestors p).

(** The disk after lines 435-436: the output directory and the directories on
    the way to it are made unless the path is there already. *)
Definition made_dir (d : string) (w : world) : world :=
  if is_file w d || is_dir w d then w
  else add_dirs (path_ancestors d ++ [d]) w.

(** The two files can be saved under [d]. *)
Definition save_ready (w : world) (d html_name json_name : string) : bool :=
  (is_file w d || is_dir w d || can_make w d)
  && can_write (made_dir d w) html_name
  && can_write (made_dir d w) json_name.

(** A disk with a file where the output directory should be. *)
Definition blocked_world (w : world) : world :=
  set_file "out" "not a directory" w.

(** A disk with a directory where the transcript should be. *)
Definition folder_world : world := add_dirs ["standup.txt"] quiet_world.


(** * Text in the rendered document *)

(** The number of places of [hay] where [needle] starts. *)
Fixpoint occurrences (needle hay : string) : nat :=
  match hay with
  | EmptyString => 0
  | String _ hay' =>
      ((if String.prefix needle hay then 1 else 0) + occurrences needle hay')%nat
  end.

(** A text without the character [<]. *)
Fixpoint markup_free (s : string) : bool :=
  match s with
  | EmptyString => true
  | String c s' => negb (Ascii.eqb c "<") && markup_free s'
  end.

(** No end of [x] is an unfinished beginning of [needle]: an occurrence of
    [needle] that starts in [x] also ends in [x], whatever follows. *)
Fixpoint edge_safe (needle x : string) : bool :=
  match x with
  | EmptyString => true
  | String _ x' =>
      (String.prefix needle x || negb (String.prefix x needle))
      && edge_safe needle x'
  end.

(** The occurrences of [needle] in the template segments of a document. *)
Fixpoint occ_lits (needle : string) (ps : list piece) : nat :=
  match ps with
  | [] => 0
  | Lit l :: ps' => (occurrences needle l + occ_lits needle ps')%nat
  | Val _ :: ps' => occ_lits needle ps'
  end.

Definition lit_edge_safe (needle : string) (p : piece) : bool :=
  match p with Lit l => edge_safe needle l | Val _ => true end.

Definition val_markup_free (p : piece) : bool :=
  match p with Lit _ => true | Val v => markup_free v end.


Section MarkupFree.

Variable py_repr : pyval -> string.

Definition markup_free_update (u : pyval) : bool :=
  markup_free (text_or py_repr u "name" "Unknown")
  && markup_free (text_or py_repr u "yesterday" "Not mentioned")
  && markup_free (text_or py_repr u "today" "Not mentioned")
  && markup_free (text_or py_repr u "blockers" "None").

Definition markup_free_item (i : pyval) : bool :=
  markup_free (text_or py_repr i "action" "")
  && markup_free (text_or py_repr i "assignee" "TBD")
  && markup_free (text_or py_repr i "due_date" "TBD")
  && markup_free (text_or py_repr i "priority" "Medium").

Definition markup_free_value (x : pyval) : bool :=
  markup_free (py_str py_repr x).

(** No text that the record or the date puts into the document has a [<]:
    the date, the attendees cell, the summary, the four fields of every update
    and of every action item, and every blocker, decision and discussion
    point. *)
Definition markup_free_record (md : pyval) (meeting_date : string) : bool :=
  markup_free meeting_date
  && markup_free (documented_attendees md)
  && markup_free (text_or py_repr md "summary" "No summary available.")
  && forallb markup_free_update (seq_of md "individual_updates")
  && forallb markup_free_value (seq_of md "blockers")
  && forallb markup_free_item (seq_of md "action_items")
  && forallb markup_free_value (seq_of md "decisions")
  && forallb markup_free_value (seq_of md "key_discussions").

End MarkupFree.

(** The footer of the document for the four counts and the time stamp. *)
Definition footer (attendees actions blockers decisions : nat) (stamp : string)
  : string :=
  tpl_foot_0 +:+ pretty (Z.of_nat attendees)
  +:+ tpl_foot_1 +:+ pretty (Z.of_nat actions)
  +:+ tpl_foot_2 +:+ pretty (Z.of_nat blockers)
  +:+ tpl_foot_3 +:+ pretty (Z.of_nat decisions)
  +:+ tpl_foot_4 +:+ stamp +:+ tpl_foot_5.


(** A record without updates whose summary holds the tag of an update. *)
Definition tag_in_summary : pyval :=
  PDict [("summary", PStr "<h3>Nobody</h3>")].
(** * Properties *)

(** ** The error monad *)

Lemma result_bind_ok {A B} (f : A -> result B) (a : A) : (Ok a ≫= f) = f a.
Proof. reflexivity. Qed.

Lemma result_bind_inv {A B} (f : A -> result B) (m : result A) (b : B) :
  (m ≫= f) = Ok b -> exists a, m = Ok a /\ f a = Ok b.
Proof. destruct m as [a|e]; simpl; [eauto | discriminate]. Qed.

Lemma mapM_as_str (l : list pyval) :
  forallb is_str l = true -> result_mapM as_str l = Ok (map str_of l).
Proof.
  induction l as [|v l IH]; simpl; [reflexivity|].
  intros [Hv Hl]%andb_prop. destruct v; try discriminate.
  simpl. rewrite (IH Hl). reflexivity.
Qed.

Lemma mapM_total {A B} (f : A -> result B) (g : A -> B) (p : A -> bool) (l : list A) :
  (forall x, p x = true -> f x = Ok (g x)) ->
  forallb p l = true -> result_mapM f l = Ok (map g l).
Proof.
  intros Hf. induction l as [|x l IH]; simpl; [reflexivity|].
  intros [Hx Hl]%andb_prop. rewrite (Hf x Hx), (IH Hl). reflexivity.
Qed.

(** ** Field access *)

Section RenderFacts.

Variable py_repr : pyval -> string.

Lemma field_dict (d : list (string * pyval)) (k default : string) :
  field py_repr (PDict d) k default = Ok (Val (text_or py_repr (PDict d) k default)).
Proof.
  unfold field, text_or, py_get, fields_of. simpl.
  destruct (dict_lookup k d); reflexivity.
Qed.

Lemma update_pieces_dict (u : pyval) :
  is_dict u = true -> update_pieces py_repr u = Ok (documented_update py_repr u).
Proof.
  destruct u; try discriminate. intros _.
  unfold update_pieces. rewrite !field_dict. reflexivity.
Qed.

Lemma item_pieces_dict (i : pyval) :
  is_dict i = true -> item_pieces py_repr i = Ok (documented_item py_repr i).
Proof.
  destruct i; try discriminate. intros _.
  unfold item_pieces. rewrite !field_dict. reflexivity.
Qed.

Lemma for_pieces_list (body : pyval -> result (list piece))
  (row : pyval -> list piece) (p : pyval -> bool) (l : list pyval) :
  (forall x, p x = true -> body x = Ok (row x)) ->
  forallb p l = true ->
  for_pieces (PList l) body = Ok (concat (map row l)).
Proof.
  intros Hb Hl. unfold for_pieces. simpl.
  rewrite (mapM_total body row p l Hb Hl). reflexivity.
Qed.

Lemma bullet_section_list (heading : string) (l : list pyval) :
  bullet_section py_repr heading (PList l)
  = Ok (documented_bullets py_repr heading l).
Proof.
  unfold bullet_section. destruct l as [|x l]; [reflexivity|].
  change (py_truthy (PList (x :: l))) with true. cbv iota.
  rewrite (for_pieces_list (li_pieces py_repr) (documented_li py_repr) any_value);
    [reflexivity | reflexivity | ].
  clear. induction (x :: l); simpl; auto.
Qed.

Lemma action_section_list (l : list pyval) :
  forallb is_dict l = true ->
  action_section py_repr (PList l) = Ok (documented_actions py_repr l).
Proof.
  intros Hl. unfold action_section. destruct l as [|x l]; [reflexivity|].
  change (py_truthy (PList (x :: l))) with true. cbv iota.
  rewrite (for_pieces_list (item_pieces py_repr) (documented_item py_repr) is_dict);
    [reflexivity | apply item_pieces_dict | exact Hl].
Qed.

(** A sequence field of a record reads as the list [seq_of] gives. *)
Lemma get_seq (p : pyval -> bool) (d : list (string * pyval)) (k : string) :
  optional (list_of p) d k = true ->
  py_get (PDict d) k (PList []) = Ok (PList (seq_of (PDict d) k))
  /\ forallb p (seq_of (PDict d) k) = true.
Proof.
  unfold optional, py_get, seq_of, fields_of.
  destruct (dict_lookup k d) as [v|]; simpl; [|auto].
  destruct v; try discriminate. simpl. auto.
Qed.

Lemma attendees_cell (d : list (string * pyval)) :
  optional (list_of is_str) d "attendees" = true ->
  exists att,
    py_get (PDict d) "attendees" (PList [PStr "No attendees extracted"]) = Ok att
    /\ py_join ", " att = Ok (documented_attendees (PDict d)).
Proof.
  unfold optional, py_get, documented_attendees, seq_of, fields_of.
  destruct (dict_lookup "attendees" d) as [v|]; simpl.
  - destruct v; try discriminate. simpl. intros Hl.
    eexists; split; [reflexivity|].
    unfold py_join. simpl. rewrite (mapM_as_str _ Hl). reflexivity.
  - intros _. eexists; split; reflexivity.
Qed.

Lemma len_piece_list (l : list pyval) :
  len_piece (PList l) = Ok (Val (count_text l)).
Proof. reflexivity. Qed.

(** The renderer computes the documented document on every meeting record. *)
Lemma minutes_pieces_documented (md : pyval) (meeting_date stamp : string) :
  meeting_record md = true ->
  minutes_pieces py_repr md meeting_date stamp
  = Ok (documented_pieces py_repr md meeting_date stamp).
Proof.
  destruct md as [| | | | |l|d]; try discriminate. simpl.
  rewrite !andb_true_iff. intros [[[[[Hatt Hupd] Hblk] Hact] Hdec] Hdis].
  destruct (get_seq _ _ _ Hatt) as [Eatt _].
  destruct (get_seq _ _ _ Hupd) as [Eupd Hupd'].
  destruct (get_seq _ _ _ Hblk) as [Eblk _].
  destruct (get_seq _ _ _ Hact) as [Eact Hact'].
  destruct (get_seq _ _ _ Hdec) as [Edec _].
  destruct (get_seq _ _ _ Hdis) as [Edis _].
  destruct (attendees_cell d Hatt) as (att & Eget & Ejoin).
  unfold minutes_pieces, minutes_body.
  rewrite Eget, result_bind_ok, Ejoin, result_bind_ok.
  rewrite field_dict, result_bind_ok.
  rewrite Eupd, result_bind_ok.
  rewrite (for_pieces_list (update_pieces py_repr) (documented_update py_repr) is_dict
             _ (update_pieces_dict) Hupd'), result_bind_ok.
  rewrite Eblk, result_bind_ok, bullet_section_list, result_bind_ok.
  rewrite Eact, result_bind_ok, (action_section_list _ Hact'), result_bind_ok.
  rewrite Edec, result_bind_ok, bullet_section_list, result_bind_ok.
  rewrite Edis, result_bind_ok, bullet_section_list, result_bind_ok.
  rewrite Eatt, result_bind_ok.
  rewrite !len_piece_list, !result_bind_ok.
  unfold documented_pieces.
  rewrite <- !app_assoc. reflexivity.
Qed.

End RenderFacts.

(** ** Strings and containment *)

Lemma str_app_cons (x : ascii) (a b : string) :
  String x a +:+ b = String x (a +:+ b).
Proof. reflexivity. Qed.

Lemma str_app_nil_l (a : string) : "" +:+ a = a.
Proof. reflexivity. Qed.

Lemma str_app_assoc (a b c : string) : (a +:+ b) +:+ c = a +:+ (b +:+ c).
Proof.
  induction a as [|x a IH]; [reflexivity|].
  rewrite !str_app_cons, IH. reflexivity.
Qed.

Lemma prefix_app (n b : string) : String.prefix n (n +:+ b) = true.
Proof.
  induction n as [|x n IH]; [destruct b; reflexivity|].
  rewrite str_app_cons. cbn [String.prefix].
  destruct (ascii_dec x x); [exact IH | contradiction].
Qed.

Lemma prefix_inv (n h : string) :
  String.prefix n h = true -> exists b, h = n +:+ b.
Proof.
  revert h. induction n as [|x n IH]; intros h; [exists h; reflexivity|].
  destruct h as [|y h]; cbn; [discriminate|].
  destruct (ascii_dec x y) as [->|]; [|discriminate].
  intros [b ->]%IH. exists b. reflexivity.
Qed.

Lemma str_contains_intro (n a b : string) : str_contains n (a +:+ n +:+ b) = true.
Proof.
  induction a as [|x a IH].
  - rewrite str_app_nil_l. pose proof (prefix_app n b) as Hp.
    destruct (n +:+ b); cbn [str_contains]; rewrite Hp; reflexivity.
  - rewrite str_app_cons. cbn [str_contains]. rewrite IH. apply orb_true_r.
Qed.

Lemma str_contains_inv (n h : string) :
  str_contains n h = true -> exists a b, h = a +:+ n +:+ b.
Proof.
  induction h as [|x h IH]; cbn [str_contains].
  - rewrite orb_false_r. intros [b Hb]%prefix_inv. exists "", b. exact Hb.
  - intros [Hp|Hc]%orb_prop.
    + apply prefix_inv in Hp as [b Hb]. exists "", b. exact Hb.
    + destruct (IH Hc) as (a & b & ->). exists (String x a), b. reflexivity.
Qed.

(** Containment is kept when text is put before and after. *)
Lemma str_contains_mid (n m a b : string) :
  str_contains n m = true -> str_contains n (a +:+ m +:+ b) = true.
Proof.
  intros (a' & b' & ->)%str_contains_inv.
  replace (a +:+ (a' +:+ n +:+ b') +:+ b) with ((a +:+ a') +:+ n +:+ (b' +:+ b)).
  - apply str_contains_intro.
  - rewrite !str_app_assoc. reflexivity.
Qed.

Lemma flatten_app (ps qs : list piece) :
  flatten (ps ++ qs) = flatten ps +:+ flatten qs.
Proof.
  induction ps as [|p ps IH]; [reflexivity|].
  cbn [flatten app]. rewrite IH, str_app_assoc. reflexivity.
Qed.







Section SectionFacts.

Variable py_repr : pyval -> string.









End SectionFacts.

(** ** The renderer in the world *)

Section RenderWorld.

Variable py_repr : pyval -> string.

(** The renderer reads the clock once, after the body, and nothing else of the
    world. *)
Lemma format_minutes_as_html_run (md : pyval) (meeting_date : string) (w : world) :
  format_minutes_as_html py_repr md meeting_date w
  = match minutes_body py_repr md meeting_date with
    | Ok body =>
        (tick w,
         Ok (flatten (body ++ [Val (strftime_stamp (clock w (ticks w)));
                               Lit tpl_foot_5])))
    | Raise e => (w, Raise e)
    end.
Proof.
  unfold format_minutes_as_html, mbind, M_bind, lift.
  destruct (minutes_body py_repr md meeting_date); reflexivity.
Qed.

Lemma format_minutes_as_html_render (md : pyval) (meeting_date : string) (w : world) :
  snd (format_minutes_as_html py_repr md meeting_date w)
  = render py_repr md meeting_date (strftime_stamp (clock w (ticks w))).
Proof.
  rewrite format_minutes_as_html_run. unfold render, minutes_pieces.
  destruct (minutes_body py_repr md meeting_date); reflexivity.
Qed.

Lemma render_documented (md : pyval) (meeting_date stamp : string) :
  meeting_record md = true ->
  render py_repr md meeting_date stamp
  = Ok (flatten (documented_pieces py_repr md meeting_date stamp)).
Proof.
  intros H. unfold render. rewrite (minutes_pieces_documented py_repr _ _ _ H).
  reflexivity.
Qed.

End RenderWorld.

(** C2.  On every meeting record, whichever of its fields are absent,
    [format_minutes_as_html] returns a document and raises nothing, and the
    document is the documented one: an absent field of an update, of an action
    item or of the record shows exactly its literal default ('Unknown',
    'Not mentioned', 'None', 'TBD', 'Medium', 'No summary available.'). *)
Theorem render_total_with_documented_defaults
  (py_repr : pyval -> string) (md : pyval) (meeting_date : string) (w : world) :
  meeting_record md = true ->
  snd (format_minutes_as_html py_repr md meeting_date w)
  = Ok (flatten (documented_pieces py_repr md meeting_date
                   (strftime_stamp (clock w (ticks w)))))
  /\ (forall (o : pyval) (k default : string),
        dict_lookup k (fields_of o) = None ->
        text_or py_repr o k default = default).
Proof.
  intros H. split.
  - rewrite format_minutes_as_html_render. apply render_documented, H.
  - intros o k default Hk. unfold text_or. rewrite Hk. reflexivity.
Qed.

Lemma render_total_with_documented_defaults_witness :
  meeting_record sparse_record = true
  /\ is_ok (snd (format_minutes_as_html sample_repr sparse_record "2024-01-15"
                   quiet_world)) = true.
Proof.
  split; [reflexivity|].
  destruct (render_total_with_documented_defaults sample_repr sparse_record
              "2024-01-15" quiet_world eq_refl) as [H _].
  rewrite H. reflexivity.
Defined.

(** C7.  Two renderings of the same record and date whose clock readings at
    line 328 give the same stamp produce the same text, whatever else differs
    between the two worlds. *)
Theorem rendering_deterministic
  (py_repr : pyval -> string) (md : pyval) (meeting_date : string) (w1 w2 : world) :
  strftime_stamp (clock w1 (ticks w1)) = strftime_stamp (clock w2 (ticks w2)) ->
  snd (format_minutes_as_html py_repr md meeting_date w1)
  = snd (format_minutes_as_html py_repr md meeting_date w2).
Proof.
  intros H. rewrite !format_minutes_as_html_render, H. reflexivity.
Qed.

Lemma rendering_deterministic_witness :
  strftime_stamp (clock quiet_world (ticks quiet_world))
  = strftime_stamp (clock busy_world (ticks busy_world))
  /\ snd (format_minutes_as_html sample_repr sparse_record "2024-01-15" quiet_world)
     = snd (format_minutes_as_html sample_repr sparse_record "2024-01-15" busy_world).
Proof.
  split; [reflexivity|].
  apply (rendering_deterministic sample_repr sparse_record "2024-01-15"
           quiet_world busy_world).
  reflexivity.
Defined.

(** The Attendees row of the documented document. *)
Lemma attendees_row_documented
  (py_repr : pyval -> string) (md : pyval) (meeting_date stamp : string) :
  str_contains (attendees_row (documented_attendees md))
    (flatten (documented_pieces py_repr md meeting_date stamp)) = true.
Proof.
  unfold documented_pieces.
  change ([Lit tpl_head_0; Val meeting_date; Lit tpl_head_1; Val meeting_date;
           Lit tpl_head_2; Val (documented_attendees md); Lit tpl_head_3;
           Val (text_or py_repr md "summary" "No summary available.");
           Lit tpl_head_4] ++ ?rest)
    with ([Lit tpl_head_0; Val meeting_date; Lit tpl_head_1; Val meeting_date]
            ++ [Lit tpl_head_2; Val (documented_attendees md); Lit tpl_head_3]
            ++ (Val (text_or py_repr md "summary" "No summary available.")
                  :: Lit tpl_head_4 :: rest)).
  rewrite 2!flatten_app.
  apply str_contains_mid.
  generalize (documented_attendees md) as cell. intros cell.
  cbn [flatten piece_text].
  set (pre := unlines ["</td>"; "            </tr>"; "            <tr>";
                       "                <th>Type</th>";
                       "                <td>Daily Stand-up</td>";
                       "            </tr>"; "            <tr>";
                       "                "]).
  set (post := unlines [""; "            </tr>"; "        </table>"; "        ";
                        "        <h2>Executive Summary</h2>"; "        <p>"]).
  replace (tpl_head_2 +:+ cell +:+ tpl_head_3 +:+ "")
    with (pre +:+ attendees_row cell +:+ post).
  - apply str_contains_intro.
  - unfold attendees_row.
    replace tpl_head_2
      with (pre +:+ "<th>Attendees</th>" +:+ nl +:+ "                <td>")
      by (vm_compute; reflexivity).
    replace (tpl_head_3 +:+ "") with ("</td>" +:+ post) by (vm_compute; reflexivity).
    rewrite !str_app_assoc. reflexivity.
Qed.

(** C8, as the code has it.  A meeting record whose [attendees] field is absent
    renders the text 'No attendees extracted' in the Attendees cell; a record
    whose field is present renders the names joined by a comma and a space. *)
Theorem attendees_cell_default_when_absent
  (py_repr : pyval -> string) (md : pyval) (meeting_date : string) (w : world) :
  meeting_record md = true ->
  exists html,
    snd (format_minutes_as_html py_repr md meeting_date w) = Ok html
    /\ (dict_lookup "attendees" (fields_of md) = None ->
        str_contains (attendees_row "No attendees extracted") html = true)
    /\ (forall names,
          dict_lookup "attendees" (fields_of md) = Some (PList names) ->
          str_contains (attendees_row (str_join ", " (map str_of names))) html = true).
Proof.
  intros H.
  eexists. split.
  { rewrite format_minutes_as_html_render. apply render_documented, H. }
  pose proof (attendees_row_documented py_repr md meeting_date
                (strftime_stamp (clock w (ticks w)))) as Hrow.
  split.
  - intros Habs. unfold documented_attendees in Hrow. rewrite Habs in Hrow.
    exact Hrow.
  - intros names Hn. unfold documented_attendees, seq_of in Hrow.
    rewrite Hn in Hrow. exact Hrow.
Qed.

Lemma attendees_cell_default_when_absent_witness :
  meeting_record empty_record = true
  /\ exists html,
       snd (format_minutes_as_html sample_repr empty_record "2024-01-15" quiet_world)
       = Ok html
       /\ str_contains (attendees_row "No attendees extracted") html = true.
Proof.
  split; [reflexivity|].
  destruct (attendees_cell_default_when_absent sample_repr empty_record
              "2024-01-15" quiet_world eq_refl) as (html & Hr & Habs & _).
  exists html. split; [exact Hr|]. apply Habs. reflexivity.
Defined.

(** C8 as stated fails: a record whose [attendees] sequence is present and
    empty renders an empty cell, and the default text is nowhere in the
    document. *)
Lemma attendees_cell_empty_sequence :
  meeting_record nobody_record = true
  /\ seq_of nobody_record "attendees" = []
  /\ exists html,
       snd (format_minutes_as_html sample_repr nobody_record "2024-01-15" quiet_world)
       = Ok html
       /\ str_contains (attendees_row "") html = true
       /\ str_contains "No attendees extracted" html = false.
Proof.
  split; [reflexivity|]. split; [reflexivity|].
  eexists. split; [reflexivity|]. split; vm_compute; reflexivity.
Qed.

(** Outside the meeting records the renderer can raise: a null [attendees], or
    action items that are plain strings. *)
Example render_null_attendees_raises :
  render sample_repr (PDict [("attendees", PNone)]) "2024-01-15" "2024-01-15 09:30:00"
  = Raise TypeError.
Proof. reflexivity. Qed.

Example render_string_action_items_raises :
  render sample_repr (PDict [("action_items", PList [PStr "Review the draft"])])
    "2024-01-15" "2024-01-15 09:30:00"
  = Raise AttributeError.
Proof. reflexivity. Qed.

(** ** Extraction: the two tiers *)

Section Extraction.

Variable json_parse : string -> option pyval.

Lemma ask_json_run (r : chat_request) (w : world) :
  ask_json json_parse r w = (emit (EvChat r) w, tier_outcome json_parse w r).
Proof.
  unfold ask_json, tier_outcome, mbind, M_bind, chat_completion_create, lift.
  destruct (chat_service w r); reflexivity.
Qed.

Lemma simple_ai_extraction_run (t : string) (w : world) :
  simple_ai_extraction json_parse t w
  = (emit (EvChat (simple_request t)) w,
     Ok match tier_outcome json_parse w (simple_request t) with
        | Ok v => v
        | Raise _ => safe_default
        end).
Proof.
  unfold simple_ai_extraction, try_except. rewrite ask_json_run.
  destruct (tier_outcome json_parse w (simple_request t)); reflexivity.
Qed.

Lemma date_or_today_run (meeting_date : option string) (w : world) :
  exists d, date_or_today meeting_date w = (dated meeting_date w, Ok d).
Proof.
  unfold date_or_today, dated. destruct (opt_truthy meeting_date); eexists; reflexivity.
Qed.

Lemma process_transcript_with_ai_run (t : string) (meeting_date : option string)
  (w : world) :
  let w0 := dated meeting_date w in
  process_transcript_with_ai json_parse t meeting_date w
  = match tier_outcome json_parse w (primary_request t) with
    | Ok v => (emit (EvChat (primary_request t)) w0, Ok v)
    | Raise JSONDecodeError =>
        simple_ai_extraction json_parse t (emit (EvChat (primary_request t)) w0)
    | Raise e => (emit (EvChat (primary_request t)) w0, Raise e)
    end.
Proof.
  intros w0. unfold process_transcript_with_ai.
  destruct (date_or_today_run meeting_date w) as [d Hd].
  unfold mbind at 1. unfold M_bind. rewrite Hd. fold w0.
  unfold try_except. rewrite ask_json_run.
  assert (Hsame : tier_outcome json_parse w0 (primary_request t)
                  = tier_outcome json_parse w (primary_request t)).
  { unfold w0, dated. destruct (opt_truthy meeting_date); reflexivity. }
  rewrite Hsame.
  destruct (tier_outcome json_parse w (primary_request t)) as [v|[]]; reflexivity.
Qed.

Lemma log_dated (meeting_date : option string) (w : world) :
  log (dated meeting_date w) = log w.
Proof. unfold dated. destruct (opt_truthy meeting_date); reflexivity. Qed.

Lemma sent_during_one (meeting_date : option string) (w : world) (e : event) :
  sent_during w (emit e (dated meeting_date w)) = [e].
Proof.
  unfold sent_during. cbn [log emit]. rewrite log_dated. apply drop_app_length.
Qed.

Lemma sent_during_two (meeting_date : option string) (w : world) (e1 e2 : event) :
  sent_during w (emit e2 (emit e1 (dated meeting_date w))) = [e1; e2].
Proof.
  unfold sent_during. cbn [log emit]. rewrite log_dated, <- app_assoc.
  apply drop_app_length.
Qed.

Lemma primary_is_not_simple (t t' : string) :
  EvChat (simple_request t) <> EvChat (primary_request t').
Proof. intros H. inversion H. Qed.

End Extraction.

(** C5.  In [process_transcript_with_ai] the request of the simplified tier is
    sent if and only if the primary tier fails with a JSON decode error; any
    other exception of the primary tier is raised to the caller, and nothing
    but the primary request has been sent. *)
Theorem fallback_only_on_json_decode_error
  (json_parse : string -> option pyval) (t : string) (meeting_date : option string)
  (w : world) :
  let run := process_transcript_with_ai json_parse t meeting_date w in
  (In (EvChat (simple_request t)) (sent_during w (fst run))
   <-> tier_outcome json_parse w (primary_request t) = Raise JSONDecodeError)
  /\ (forall e,
        tier_outcome json_parse w (primary_request t) = Raise e ->
        e <> JSONDecodeError ->
        snd run = Raise e
        /\ sent_during w (fst run) = [EvChat (primary_request t)]).
Proof.
  intros run. subst run. rewrite process_transcript_with_ai_run.
  destruct (tier_outcome json_parse w (primary_request t)) as [v|e] eqn:E.
  - cbn [fst snd]. rewrite sent_during_one. split.
    + split; [|discriminate].
      intros [H|[]]. symmetry in H. destruct (primary_is_not_simple _ _ H).
    + intros e He. discriminate He.
  - assert (Hother : e <> JSONDecodeError ->
              (let run := (emit (EvChat (primary_request t)) (dated meeting_date w),
                           @Raise pyval e) in
               (In (EvChat (simple_request t)) (sent_during w (fst run))
                <-> Raise e = @Raise pyval JSONDecodeError)
               /\ (forall e0, @Raise pyval e = Raise e0 -> e0 <> JSONDecodeError ->
                     snd run = Raise e0
                     /\ sent_during w (fst run) = [EvChat (primary_request t)]))).
    { intros Hne. cbn [fst snd]. rewrite sent_during_one. split.
      - split.
        + intros [H|[]]. symmetry in H. destruct (primary_is_not_simple _ _ H).
        + intros H. inversion H. contradiction.
      - intros e0 He0 _. inversion He0. subst. split; reflexivity. }
    destruct e; try (apply Hother; discriminate).
    rewrite simple_ai_extraction_run. cbn [fst snd]. rewrite sent_during_two.
    split.
    + split; [reflexivity|]. intros _. right. left. reflexivity.
    + intros e He Hne. inversion He. subst. contradiction.
Qed.

Lemma tier_outcome_later (json_parse : string -> option pyval)
  (meeting_date : option string) (w : world) (e : event) (r : chat_request) :
  tier_outcome json_parse (emit e (dated meeting_date w)) r
  = tier_outcome json_parse w r.
Proof. unfold dated. destruct (opt_truthy meeting_date); reflexivity. Qed.

Lemma fallback_only_on_json_decode_error_witness :
  tier_outcome sample_parse quiet_world (primary_request "Ana: done.")
  = Raise (ServiceError "APIConnectionError")
  /\ snd (process_transcript_with_ai sample_parse "Ana: done." None quiet_world)
     = Raise (ServiceError "APIConnectionError")
  /\ sent_during quiet_world
       (fst (process_transcript_with_ai sample_parse "Ana: done." None quiet_world))
     = [EvChat (primary_request "Ana: done.")].
Proof.
  split; [reflexivity|].
  apply (proj2 (fallback_only_on_json_decode_error sample_parse "Ana: done." None
                  quiet_world)).
  - reflexivity.
  - discriminate.
Defined.

(** C4.  When the primary tier fails to decode its answer and the simplified
    tier fails in any way, extraction returns the fixed safe-default record;
    and [simple_ai_extraction] returns a record, never an exception, whatever
    its completion call and its JSON parse do. *)
Theorem safe_default_when_both_tiers_fail
  (json_parse : string -> option pyval) (t : string) (meeting_date : option string)
  (w : world) (e : exn) :
  tier_outcome json_parse w (primary_request t) = Raise JSONDecodeError ->
  tier_outcome json_parse w (simple_request t) = Raise e ->
  let fixed :=
    PDict [("attendees", PList [PStr "Unable to extract attendees"]);
           ("summary", PStr "Meeting transcript processed but extraction failed.");
           ("action_items", PList []);
           ("blockers", PList [])] in
  snd (process_transcript_with_ai json_parse t meeting_date w) = Ok fixed
  /\ snd (simple_ai_extraction json_parse t w) = Ok fixed
  /\ (forall t' w', exists v, snd (simple_ai_extraction json_parse t' w') = Ok v).
Proof.
  intros Hp Hs fixed. split; [|split].
  - rewrite process_transcript_with_ai_run, Hp, simple_ai_extraction_run.
    cbn [snd]. rewrite tier_outcome_later, Hs. reflexivity.
  - rewrite simple_ai_extraction_run. cbn [snd]. rewrite Hs. reflexivity.
  - intros t' w'. rewrite simple_ai_extraction_run. eexists. reflexivity.
Qed.

Lemma safe_default_when_both_tiers_fail_witness :
  tier_outcome sample_parse garbled_world (primary_request "Ana: done.")
  = Raise JSONDecodeError
  /\ tier_outcome sample_parse garbled_world (simple_request "Ana: done.")
     = Raise (ServiceError "RateLimitError")
  /\ snd (process_transcript_with_ai sample_parse "Ana: done." (Some "2024-01-15")
            garbled_world)
     = Ok safe_default.
Proof.
  split; [reflexivity|]. split; [reflexivity|].
  apply (safe_default_when_both_tiers_fail sample_parse "Ana: done."
           (Some "2024-01-15") garbled_world (ServiceError "RateLimitError"));
    reflexivity.
Defined.

(** ** Suggestions *)

Lemma generate_improvement_suggestions_run (md : pyval) (p : string) (w : world) :
  improvement_prompt md = Ok p ->
  generate_improvement_suggestions md w
  = (emit (EvChat (improvement_request p)) w,
     Ok match chat_service w (improvement_request p) with
        | Ok s => s
        | Raise _ => ""
        end).
Proof.
  intros Hp. unfold generate_improvement_suggestions, mbind, M_bind, lift.
  rewrite Hp. unfold try_except, chat_completion_create.
  destruct (chat_service w (improvement_request p)); reflexivity.
Qed.

Ltac bind_inv H :=
  let x := fresh "x" in
  let Hx := fresh "Hx" in
  apply result_bind_inv in H as (x & Hx & H).

Lemma len_piece_count (md o : pyval) (k : string) (p : piece) :
  py_get md k (PList []) = Ok o -> len_piece o = Ok p ->
  exists s, count_of md k = Ok s.
Proof.
  intros Hget Hlen. unfold count_of. rewrite Hget, result_bind_ok.
  unfold len_piece in Hlen. bind_inv Hlen. rewrite Hx. eexists. reflexivity.
Qed.

(** A record that renders has the three counts of the suggestion prompt. *)
Lemma rendered_record_has_prompt (py_repr : pyval -> string) (md : pyval)
  (meeting_date : string) (body : list piece) :
  minutes_body py_repr md meeting_date = Ok body ->
  exists p, improvement_prompt md = Ok p.
Proof.
  unfold minutes_body. intros H.
  do 18 bind_inv H.
  destruct (len_piece_count md _ "action_items" _ Hx6 Hx14) as [a Ha].
  destruct (len_piece_count md _ "blockers" _ Hx4 Hx15) as [b Hb].
  destruct (len_piece_count md _ "attendees" _ Hx12 Hx13) as [c Hc].
  unfold improvement_prompt. rewrite Ha, Hb, Hc. eexists. reflexivity.
Qed.

(** ** The pipeline in stages *)

Section Stages.

Variable py_repr : pyval -> string.
Variable json_parse : string -> option pyval.

Lemma process_and_publish_stages (self : AIMinutesGenerator) (t : string)
  (meeting_date : option string) (w : world) :
  process_and_publish py_repr json_parse self t meeting_date w
  = match prepare py_repr json_parse t meeting_date w with
    | (w1, Ok (d, md, html)) =>
        match generate_improvement_suggestions md w1 with
        | (w2, Ok s) => deliver py_repr json_parse self d md (with_suggestions html s) w2
        | (w2, Raise e) => (w2, Raise e)
        end
    | (w1, Raise e) => (w1, Raise e)
    end.
Proof.
  unfold process_and_publish, prepare, mbind, M_bind.
  destruct (date_or_today meeting_date w) as [w0 [d|e]]; [|reflexivity].
  destruct (process_transcript_with_ai json_parse t (Some d) w0) as [w1 [md|e]];
    [|reflexivity].
  destruct (format_minutes_as_html py_repr md d w1) as [w2 [html|e]];
    reflexivity.
Qed.

(** What [prepare] returns is a record that rendered. *)
Lemma prepare_rendered (t : string) (meeting_date : option string) (w w1 : world)
  (d : string) (md : pyval) (html : string) :
  prepare py_repr json_parse t meeting_date w = (w1, Ok (d, md, html)) ->
  exists body, minutes_body py_repr md d = Ok body.
Proof.
  unfold prepare, mbind, M_bind.
  destruct (date_or_today meeting_date w) as [w0 [d0|e]]; [|discriminate].
  destruct (process_transcript_with_ai json_parse t (Some d0) w0) as [w2 [md0|e]];
    [|discriminate].
  rewrite format_minutes_as_html_run.
  destruct (minutes_body py_repr md0 d0) as [body|e] eqn:E; [|discriminate].
  intros H. inversion H. subst. exists body. exact E.
Qed.

End Stages.

(** C6.  When the completion call of the suggestion step raises, whatever the
    exception, [generate_improvement_suggestions] returns the empty string, no
    callout block is added to the rendered document, and [process_and_publish]
    goes on to deliver the rendered document as it is. *)
Theorem suggestion_failure_is_absorbed
  (py_repr : pyval -> string) (json_parse : string -> option pyval)
  (self : AIMinutesGenerator) (t : string) (meeting_date : option string)
  (w w1 : world) (d : string) (md : pyval) (html p : string) (e : exn) :
  prepare py_repr json_parse t meeting_date w = (w1, Ok (d, md, html)) ->
  improvement_prompt md = Ok p ->
  chat_service w1 (improvement_request p) = Raise e ->
  let w2 := emit (EvChat (improvement_request p)) w1 in
  generate_improvement_suggestions md w1 = (w2, Ok "")
  /\ with_suggestions html "" = html
  /\ process_and_publish py_repr json_parse self t meeting_date w
     = deliver py_repr json_parse self d md html w2
  /\ (confluence self = None ->
      snd (process_and_publish py_repr json_parse self t meeting_date w)
      = Ok {| meeting_data := md; html_content := html; confluence_url := None;
              page_id := None; local_file := None; json_file := None |}).
Proof.
  intros Hprep Hp He w2.
  assert (Hgen : generate_improvement_suggestions md w1 = (w2, Ok "")).
  { rewrite (generate_improvement_suggestions_run md p w1 Hp), He. reflexivity. }
  assert (Hrun : process_and_publish py_repr json_parse self t meeting_date w
                 = deliver py_repr json_parse self d md html w2).
  { rewrite process_and_publish_stages, Hprep, Hgen. reflexivity. }
  split; [exact Hgen|]. split; [reflexivity|]. split; [exact Hrun|].
  intros Hnone. rewrite Hrun. unfold deliver. rewrite Hnone. reflexivity.
Qed.

(** When the call answers, the same pipeline delivers the document with the
    callout block of the answer. *)
Lemma suggestion_success
  (py_repr : pyval -> string) (json_parse : string -> option pyval)
  (self : AIMinutesGenerator) (t : string) (meeting_date : option string)
  (w w1 : world) (d : string) (md : pyval) (html p s : string) :
  prepare py_repr json_parse t meeting_date w = (w1, Ok (d, md, html)) ->
  improvement_prompt md = Ok p ->
  chat_service w1 (improvement_request p) = Ok s ->
  process_and_publish py_repr json_parse self t meeting_date w
  = deliver py_repr json_parse self d md (with_suggestions html s)
      (emit (EvChat (improvement_request p)) w1).
Proof.
  intros Hprep Hp Hs.
  rewrite process_and_publish_stages, Hprep.
  rewrite (generate_improvement_suggestions_run md p w1 Hp), Hs. reflexivity.
Qed.

Lemma suggestion_failure_is_absorbed_witness :
  exists w1 d md html p,
    prepare sample_repr sample_parse "Ana: done." None silent_advisor_world
    = (w1, Ok (d, md, html))
    /\ improvement_prompt md = Ok p
    /\ chat_service w1 (improvement_request p) = Raise (ServiceError "Timeout")
    /\ snd (process_and_publish sample_repr sample_parse local_generator
              "Ana: done." None silent_advisor_world)
       = Ok {| meeting_data := md; html_content := html; confluence_url := None;
               page_id := None; local_file := None; json_file := None |}.
Proof.
  do 5 eexists.
  split; [vm_compute; reflexivity|].
  split; [vm_compute; reflexivity|].
  split; [reflexivity|].
  eapply (suggestion_failure_is_absorbed sample_repr sample_parse local_generator
            "Ana: done." None silent_advisor_world).
  - vm_compute; reflexivity.
  - vm_compute; reflexivity.
  - reflexivity.
  - reflexivity.
Defined.

(** ** Frames: what a computation leaves alone *)

Lemma frame_refl (w : world) : frame w w.
Proof. repeat split. Qed.

Lemma frame_trans (w1 w2 w3 : world) : frame w1 w2 -> frame w2 w3 -> frame w1 w3.
Proof.
  unfold frame. intros (?&?&?&?&?&?) (?&?&?&?&?&?).
  repeat split; etransitivity; eassumption.
Qed.

Lemma framed_ret {A} (a : A) : framed (mret a : M A).
Proof. intros w. apply frame_refl. Qed.

Lemma framed_lift {A} (r : result A) : framed (lift r).
Proof. intros w. apply frame_refl. Qed.

Lemma framed_raise {A} (e : exn) : framed (@raise A e).
Proof. intros w. apply frame_refl. Qed.

Lemma framed_bind {A B} (m : M A) (f : A -> M B) :
  framed m -> (forall a, framed (f a)) -> framed (m ≫= f).
Proof.
  intros Hm Hf w. unfold mbind, M_bind. specialize (Hm w).
  destruct (m w) as [w' [a|e]]; cbn [fst] in *; [|exact Hm].
  eapply frame_trans; [exact Hm | apply Hf].
Qed.

Lemma framed_try {A} (body : M A) (handler : exn -> M A) :
  framed body -> (forall e, framed (handler e)) -> framed (try_except body handler).
Proof.
  intros Hb Hh w. unfold try_except. specialize (Hb w).
  destruct (body w) as [w' [a|e]]; cbn [fst] in *; [exact Hb|].
  eapply frame_trans; [exact Hb | apply Hh].
Qed.

Lemma framed_now : framed datetime_now.
Proof. intros w. repeat split. Qed.

Lemma framed_chat (r : chat_request) : framed (chat_completion_create r).
Proof. intros w. repeat split. Qed.

Lemma framed_send (r : http_request) : framed (requests_send r).
Proof. intros w. repeat split. Qed.

Lemma framed_read_text (p : string) : framed (read_text p).
Proof. intros w. unfold read_text. destruct (files w !! p); apply frame_refl. Qed.

Lemma framed_docx (p : string) : framed (docx_paragraphs p).
Proof. intros w. apply frame_refl. Qed.

Create HintDb framed.
#[local] Hint Resolve framed_ret framed_lift framed_raise framed_now framed_chat
  framed_send framed_read_text framed_docx : framed.

Ltac framed_step :=
  first [ apply framed_bind; [|intros ?]
        | apply framed_try; [|intros ?]
        | solve [auto with framed] ].

Section FramedPipeline.

Variable py_repr : pyval -> string.
Variable json_parse : string -> option pyval.

Lemma framed_date_or_today (d : option string) : framed (date_or_today d).
Proof. unfold date_or_today. destruct (opt_truthy d); repeat framed_step. Qed.

Lemma framed_ask_json (r : chat_request) : framed (ask_json json_parse r).
Proof. unfold ask_json. repeat framed_step. Qed.

Lemma framed_simple (t : string) : framed (simple_ai_extraction json_parse t).
Proof. unfold simple_ai_extraction. framed_step; [apply framed_ask_json|framed_step]. Qed.

Lemma framed_extract (t : string) (d : option string) :
  framed (process_transcript_with_ai json_parse t d).
Proof.
  unfold process_transcript_with_ai.
  framed_step; [apply framed_date_or_today|].
  framed_step; [apply framed_ask_json|].
  destruct e; first [apply framed_simple | framed_step].
Qed.

Lemma framed_format (md : pyval) (d : string) :
  framed (format_minutes_as_html py_repr md d).
Proof. unfold format_minutes_as_html. repeat framed_step. Qed.

Lemma framed_suggestions (md : pyval) : framed (generate_improvement_suggestions md).
Proof. unfold generate_improvement_suggestions. repeat framed_step. Qed.

Lemma framed_prepare (t : string) (d : option string) :
  framed (prepare py_repr json_parse t d).
Proof.
  unfold prepare.
  framed_step; [apply framed_date_or_today|].
  framed_step; [apply framed_extract|].
  framed_step; [apply framed_format|framed_step].
Qed.

Lemma framed_find (self : ConfluencePublisher) (title : string) :
  framed (find_page_by_title json_parse self title).
Proof. unfold find_page_by_title. repeat framed_step. Qed.

Lemma framed_create (self : ConfluencePublisher) (title html : string)
  (parent : option string) :
  framed (create_page json_parse self title html parent).
Proof. unfold create_page. repeat framed_step. Qed.

Lemma framed_update (self : ConfluencePublisher) (id : pyval) (title html : string)
  (version : pyval) :
  framed (update_page py_repr json_parse self id title html version).
Proof. unfold update_page. repeat framed_step. Qed.

Lemma framed_publish (self : ConfluencePublisher) (title html : string) :
  framed (publish py_repr json_parse self title html).
Proof.
  unfold publish. framed_step; [apply framed_find|].
  destruct (py_truthy a).
  - framed_step; [framed_step|]. framed_step; [framed_step|]. apply framed_update.
  - apply framed_create.
Qed.

Lemma framed_deliver (self : AIMinutesGenerator) (d : string) (md : pyval)
  (html : string) :
  framed (deliver py_repr json_parse self d md html).
Proof.
  unfold deliver. destruct (confluence self); [|framed_step].
  framed_step; [apply framed_publish|]. repeat framed_step.
Qed.

Lemma framed_process_and_publish (self : AIMinutesGenerator) (t : string)
  (d : option string) :
  framed (process_and_publish py_repr json_parse self t d).
Proof.
  unfold process_and_publish.
  framed_step; [apply framed_date_or_today|].
  framed_step; [apply framed_extract|].
  framed_step; [apply framed_format|].
  framed_step; [apply framed_suggestions|].
  apply framed_deliver.
Qed.

Lemma framed_read_transcript (input : input_path) : framed (read_transcript input).
Proof.
  unfold read_transcript.
  destruct (String.eqb (str_lower (suffix input)) ".docx"); repeat framed_step.
Qed.

End FramedPipeline.

(** ** The publisher *)

Section Publisher.

Variable py_repr : pyval -> string.
Variable json_parse : string -> option pyval.

Lemma send_then_lift {A} (r : http_request) (reader : http_response -> result A)
  (w : world) :
  (response ← requests_send r; lift (reader response)) w
  = (emit (EvHttp r) w, answered w r reader).
Proof.
  unfold mbind at 1. unfold M_bind, requests_send, answered, lift.
  destruct (http_service w r); reflexivity.
Qed.

Lemma find_page_by_title_run (self : ConfluencePublisher) (title : string) (w : world) :
  find_page_by_title json_parse self title w
  = (emit (EvHttp (find_request self title)) w,
     answered w (find_request self title) (first_result json_parse)).
Proof. apply send_then_lift. Qed.

Lemma create_page_run (self : ConfluencePublisher) (title html : string) (w : world) :
  create_page json_parse self title html None w
  = (emit (EvHttp (create_request self title html)) w,
     answered w (create_request self title html) (page_or_error json_parse)).
Proof. apply send_then_lift. Qed.

Lemma update_page_run (self : ConfluencePublisher) (id : pyval) (title html : string)
  (version body : pyval) (w : world) :
  update_payload title html version = Ok body ->
  let r := HttpPut (pub_base_url self +:+ "/rest/api/content/" +:+ py_str py_repr id)
             body (auth self) in
  update_page py_repr json_parse self id title html version w
  = (emit (EvHttp r) w, answered w r (page_or_error json_parse)).
Proof.
  intros Hb r. unfold update_page. unfold mbind at 1. unfold M_bind, lift.
  rewrite Hb. apply send_then_lift.
Qed.

(** A lookup that ends without a page leads to a create. *)
Lemma publish_creates (self : ConfluencePublisher) (title html : string) (w : world) :
  snd (find_page_by_title json_parse self title w) = Ok PNone ->
  publish py_repr json_parse self title html w
  = create_page json_parse self title html None
      (emit (EvHttp (find_request self title)) w).
Proof.
  rewrite find_page_by_title_run. cbn [snd]. intros H.
  unfold publish. unfold mbind at 1. unfold M_bind.
  rewrite find_page_by_title_run, H. reflexivity.
Qed.

Lemma sent_two (w : world) (e1 e2 : event) :
  sent_during w (emit e2 (emit e1 w)) = [e1; e2].
Proof.
  unfold sent_during. cbn [log emit]. rewrite <- app_assoc. apply drop_app_length.
Qed.

Lemma publish_create_sent (self : ConfluencePublisher) (title html : string)
  (w : world) :
  snd (find_page_by_title json_parse self title w) = Ok PNone ->
  sent_during w (fst (publish py_repr json_parse self title html w))
  = [EvHttp (find_request self title); EvHttp (create_request self title html)].
Proof.
  intros H. rewrite (publish_creates self title html w H), create_page_run.
  apply sent_two.
Qed.

Lemma create_payload_no_version (self : ConfluencePublisher) (title html : string)
  (parent : option string) :
  dict_lookup "version" (fields_of (create_payload self title html parent)) = None.
Proof.
  unfold create_payload.
  destruct (opt_truthy (opt_or parent (parent_page_id (config self)))); reflexivity.
Qed.

End Publisher.

(** C10.  When the lookup is answered with a status other than 200, or with an
    empty result list, [find_page_by_title] raises nothing and returns [None];
    the publisher then cannot tell the failure from a missing page and sends a
    create request. *)
Theorem failed_lookup_reads_as_absent
  (py_repr : pyval -> string) (json_parse : string -> option pyval)
  (self : ConfluencePublisher) (title html : string) (w : world)
  (response : http_response) :
  http_service w (find_request self title) = Ok response ->
  status_code response <> 200
  \/ (exists data, json_parse (text response) = Some data
                   /\ py_item data "results" = Ok (PList [])) ->
  snd (find_page_by_title json_parse self title w) = Ok PNone
  /\ publish py_repr json_parse self title html w
     = create_page json_parse self title html None
         (emit (EvHttp (find_request self title)) w)
  /\ sent_during w (fst (publish py_repr json_parse self title html w))
     = [EvHttp (find_request self title); EvHttp (create_request self title html)].
Proof.
  intros Hresp Hcase.
  assert (Hnone : snd (find_page_by_title json_parse self title w) = Ok PNone).
  { rewrite find_page_by_title_run. cbn [snd]. unfold answered.
    rewrite Hresp, result_bind_ok. unfold first_result.
    destruct (status_code response =? 200) eqn:E; [|reflexivity].
    destruct Hcase as [Hne|(data & Hdata & Hres)].
    - apply Z.eqb_eq in E. contradiction.
    - unfold json_loads. rewrite Hdata, result_bind_ok, Hres. reflexivity. }
  split; [exact Hnone|]. split.
  - apply publish_creates, Hnone.
  - apply publish_create_sent, Hnone.
Qed.

Lemma failed_lookup_reads_as_absent_witness :
  let w := wiki_world {| status_code := 503; text := "Service Unavailable" |}
                      {| status_code := 200; text := "PAGE" |} in
  let title := "Stand-up Minutes - 2024-01-15" in
  snd (find_page_by_title wiki_parse sample_publisher title w) = Ok PNone
  /\ sent_during w (fst (publish sample_repr wiki_parse sample_publisher title
                           "<p>minutes</p>" w))
     = [EvHttp (find_request sample_publisher title);
        EvHttp (create_request sample_publisher title "<p>minutes</p>")].
Proof.
  intros w title.
  destruct (failed_lookup_reads_as_absent sample_repr wiki_parse sample_publisher
              title "<p>minutes</p>" w
              {| status_code := 503; text := "Service Unavailable" |})
    as (Hnone & _ & Hsent).
  - reflexivity.
  - left. discriminate.
  - split; [exact Hnone | exact Hsent].
Defined.

(** Outside the two cases of C10 the lookup can raise: a 200 answer whose
    object has no [results] key. *)
Lemma lookup_without_results_key_raises :
  snd (find_page_by_title wiki_parse sample_publisher "Stand-up Minutes - 2024-01-15"
         (wiki_world {| status_code := 200; text := "NO RESULTS KEY" |}
                     {| status_code := 200; text := "PAGE" |}))
  = Raise (KeyError "results").
Proof. reflexivity. Qed.

(** C1.  When the lookup finds a page with version number [N], the publisher
    sends an update whose version number is [N + 1]; when the lookup finds no
    page, it sends a create whose payload has no version field. *)
Theorem publish_version_contract
  (py_repr : pyval -> string) (json_parse : string -> option pyval)
  (self : ConfluencePublisher) (title html : string) (w : world) :
  (forall response data page rest id version N,
      http_service w (find_request self title) = Ok response ->
      status_code response = 200 ->
      json_parse (text response) = Some data ->
      py_item data "results" = Ok (PList (page :: rest)) ->
      py_item page "id" = Ok id ->
      py_item page "version" = Ok version ->
      py_item version "number" = Ok (PInt N) ->
      exists body,
        sent_during w (fst (publish py_repr json_parse self title html w))
        = [EvHttp (find_request self title);
           EvHttp (HttpPut (pub_base_url self +:+ "/rest/api/content/"
                              +:+ py_str py_repr id) body (auth self))]
        /\ py_item body "version" = Ok (PDict [("number", PInt (N + 1))]))
  /\ (snd (find_page_by_title json_parse self title w) = Ok PNone ->
      exists payload,
        sent_during w (fst (publish py_repr json_parse self title html w))
        = [EvHttp (find_request self title);
           EvHttp (HttpPost (pub_base_url self +:+ "/rest/api/content") payload
                     (auth self))]
        /\ dict_lookup "version" (fields_of payload) = None).
Proof.
  split.
  - intros response data page rest id version N Hresp Hst Hdata Hres Hid Hver Hnum.
    assert (Hfind : answered w (find_request self title) (first_result json_parse)
                    = Ok page).
    { unfold answered. rewrite Hresp, result_bind_ok. unfold first_result.
      rewrite Hst. cbn [Z.eqb Pos.eqb]. unfold json_loads.
      rewrite Hdata, result_bind_ok, Hres. reflexivity. }
    assert (Htruthy : py_truthy page = true).
    { destruct page as [| | | | | |d]; try discriminate Hid.
      destruct d; [discriminate Hid | reflexivity]. }
    eexists. split.
    + unfold publish. unfold mbind at 1. unfold M_bind.
      rewrite find_page_by_title_run, Hfind, Htruthy.
      unfold mbind at 1. unfold M_bind, lift. rewrite Hid.
      unfold mbind at 1. unfold M_bind.
      rewrite Hver, result_bind_ok, Hnum.
      rewrite (update_page_run py_repr json_parse self id title html (PInt N) _ _
                 eq_refl).
      apply sent_two.
    + reflexivity.
  - intros Hnone. exists (create_payload self title html None). split.
    + apply publish_create_sent, Hnone.
    + apply create_payload_no_version.
Qed.

Lemma publish_version_contract_witness :
  let w := wiki_world {| status_code := 200; text := "FOUND" |}
                      {| status_code := 200; text := "PAGE" |} in
  let title := "Stand-up Minutes - 2024-01-15" in
  exists body,
    sent_during w (fst (publish sample_repr wiki_parse sample_publisher title
                          "<p>minutes</p>" w))
    = [EvHttp (find_request sample_publisher title);
       EvHttp (HttpPut "https://wiki.example.org/rest/api/content/4711" body
                 ("bot", "secret"))]
    /\ py_item body "version" = Ok (PDict [("number", PInt 4)]).
Proof.
  intros w title.
  apply (proj1 (publish_version_contract sample_repr wiki_parse sample_publisher
                  title "<p>minutes</p>" w)
           {| status_code := 200; text := "FOUND" |}
           (PDict [("results", PList [sample_page])]) sample_page []
           (PStr "4711") (PDict [("number", PInt 3)]) 3);
    reflexivity.
Defined.

(** With a publisher configured, what [deliver] sends is what [publish] sends
    for the title of the meeting date. *)
Lemma deliver_sends_what_publish_sends
  (py_repr : pyval -> string) (json_parse : string -> option pyval)
  (self : AIMinutesGenerator) (pub : ConfluencePublisher)
  (d : string) (md : pyval) (html : string) (w : world) :
  confluence self = Some pub ->
  sent_during w (fst (deliver py_repr json_parse self d md html w))
  = sent_during w (fst (publish py_repr json_parse pub (page_title d) html w)).
Proof.
  intros Hc. unfold deliver. rewrite Hc. unfold mbind at 1. unfold M_bind.
  destruct (publish py_repr json_parse pub (page_title d) html w)
    as [w1 [page|e]]; [|reflexivity].
  unfold mbind, M_bind, result_bind, lift.
  destruct (py_item page "_links") as [links|]; [|reflexivity].
  destruct (py_item links "webui"); [|reflexivity].
  destruct (py_item page "id"); reflexivity.
Qed.

(** ** A page is returned only for status 200 *)

Section WriteNeeds200.

Variable py_repr : pyval -> string.
Variable json_parse : string -> option pyval.

Lemma page_or_error_non_200 (response : http_response) :
  status_code response <> 200 ->
  page_or_error json_parse response
  = Raise (ExceptionMsg ("Confluence API error: " +:+ pretty (status_code response))).
Proof.
  intros H. unfold page_or_error.
  destruct (status_code response =? 200) eqn:E; [|reflexivity].
  apply Z.eqb_eq in E. contradiction.
Qed.

Lemma answered_page_ok (w : world) (r : http_request) (v : pyval) :
  is_write r = true ->
  answered w r (page_or_error json_parse) = Ok v -> write_accepted w.
Proof.
  intros Hw. unfold answered.
  destruct (http_service w r) as [response|e] eqn:E; [|discriminate].
  rewrite result_bind_ok. intros H. exists r, response.
  split; [exact Hw|]. split; [exact E|].
  destruct (Z.eq_dec (status_code response) 200) as [|Hne]; [assumption|].
  rewrite (page_or_error_non_200 response Hne) in H. discriminate.
Qed.

Lemma create_page_ok (self : ConfluencePublisher) (title html : string)
  (parent : option string) (w : world) (v : pyval) :
  snd (create_page json_parse self title html parent w) = Ok v -> write_accepted w.
Proof.
  unfold create_page. cbv zeta.
  rewrite (send_then_lift _ (page_or_error json_parse)). cbn [snd].
  apply answered_page_ok. reflexivity.
Qed.

Lemma update_page_ok (self : ConfluencePublisher) (id : pyval) (title html : string)
  (version : pyval) (w : world) (v : pyval) :
  snd (update_page py_repr json_parse self id title html version w) = Ok v ->
  write_accepted w.
Proof.
  unfold update_page. cbv zeta. unfold mbind at 1. unfold M_bind, lift.
  destruct (update_payload title html version) as [body|e]; [|discriminate].
  rewrite (send_then_lift _ (page_or_error json_parse)). cbn [snd].
  apply answered_page_ok. reflexivity.
Qed.

Lemma write_accepted_frame (w w' : world) :
  frame w w' -> write_accepted w' -> write_accepted w.
Proof.
  intros (_ & _ & Hh & _) (r & response & Hw & Hr & Hs).
  exists r, response. rewrite <- Hh. auto.
Qed.

Lemma publish_ok (self : ConfluencePublisher) (title html : string) (w : world)
  (v : pyval) :
  snd (publish py_repr json_parse self title html w) = Ok v -> write_accepted w.
Proof.
  unfold publish. unfold mbind at 1. unfold M_bind.
  pose proof (framed_find json_parse self title w) as Hf.
  destruct (find_page_by_title json_parse self title w) as [w1 [page|e]];
    cbn [fst] in Hf; [|discriminate].
  intros H. apply (write_accepted_frame w w1 Hf). revert H.
  destruct (py_truthy page); [|apply create_page_ok].
  unfold mbind at 1. unfold M_bind, lift.
  destruct (py_item page "id") as [id|e]; [|discriminate].
  unfold mbind at 1. unfold M_bind.
  destruct (version ← py_item page "version"; py_item version "number")
    as [number|e]; [|discriminate].
  apply update_page_ok.
Qed.

Lemma deliver_ok (self : AIMinutesGenerator) (pub : ConfluencePublisher)
  (d : string) (md : pyval) (html : string) (w : world) (r : run_result) :
  confluence self = Some pub ->
  snd (deliver py_repr json_parse self d md html w) = Ok r -> write_accepted w.
Proof.
  intros Hc. unfold deliver. rewrite Hc. unfold mbind at 1. unfold M_bind.
  destruct (publish py_repr json_parse pub (page_title d) html w)
    as [w1 [page|e]] eqn:E; [|discriminate].
  intros _. apply (publish_ok pub (page_title d) html w page).
  rewrite E. reflexivity.
Qed.

Lemma process_and_publish_ok (self : AIMinutesGenerator) (pub : ConfluencePublisher)
  (t : string) (meeting_date : option string) (w : world) (r : run_result) :
  confluence self = Some pub ->
  snd (process_and_publish py_repr json_parse self t meeting_date w) = Ok r ->
  write_accepted w.
Proof.
  intros Hc. rewrite process_and_publish_stages.
  pose proof (framed_prepare py_repr json_parse t meeting_date w) as Hp.
  destruct (prepare py_repr json_parse t meeting_date w)
    as [w1 [[[d md] html]|e]]; cbn [fst] in Hp; [|discriminate].
  pose proof (framed_suggestions md w1) as Hs.
  destruct (generate_improvement_suggestions md w1) as [w2 [s|e]];
    cbn [fst] in Hs; [|discriminate].
  intros H. apply (write_accepted_frame w w2 (frame_trans _ _ _ Hp Hs)).
  exact (deliver_ok self pub d md _ w2 r Hc H).
Qed.

End WriteNeeds200.

Lemma process_file_refused
  (py_repr : pyval -> string) (json_parse : string -> option pyval)
  (json_dumps : pyval -> string)
  (self : AIMinutesGenerator) (pub : ConfluencePublisher)
  (input_file : input_path) (output_dir : option string) (w : world) :
  confluence self = Some pub ->
  ~ write_accepted w ->
  exists w' e,
    process_file py_repr json_parse json_dumps self input_file output_dir w
    = (w', Raise e)
    /\ frame w w'.
Proof.
  intros Hc Hno.
  unfold process_file. unfold mbind at 1. unfold M_bind.
  pose proof (framed_read_transcript input_file w) as Hread.
  destruct (read_transcript input_file w) as [w0 [text|e]]; cbn [fst] in Hread;
    [|exists w0, e; split; [reflexivity | exact Hread]].
  unfold mbind at 1. unfold M_bind.
  pose proof (framed_process_and_publish py_repr json_parse self text None w0)
    as Hpub.
  destruct (process_and_publish py_repr json_parse self text None w0)
    as [w1 [r|e]] eqn:E; cbn [fst] in Hpub.
  - exfalso. apply Hno. apply (write_accepted_frame w w0 Hread).
    apply (process_and_publish_ok py_repr json_parse self pub text None w0 r Hc).
    rewrite E. reflexivity.
  - exists w1, e. split; [reflexivity|]. exact (frame_trans _ _ _ Hread Hpub).
Qed.

(** C9.  With a publisher configured, when no create or update request is
    answered with status 200, [process_file] ends with an exception and writes
    no file and makes no directory, also when an output directory is given:
    the local copy is saved only after [process_and_publish] has returned.
    The exception of a refused create or update carries the status. *)
Theorem publish_failure_writes_nothing
  (py_repr : pyval -> string) (json_parse : string -> option pyval)
  (json_dumps : pyval -> string)
  (self : AIMinutesGenerator) (pub : ConfluencePublisher)
  (input_file : input_path) (output_dir : option string) (w : world) :
  confluence self = Some pub ->
  (forall r response,
      is_write r = true -> http_service w r = Ok response ->
      status_code response <> 200) ->
  let run := process_file py_repr json_parse json_dumps self input_file output_dir w in
  is_ok (snd run) = false
  /\ files (fst run) = files w
  /\ dirs (fst run) = dirs w
  /\ (forall response,
        status_code response <> 200 ->
        page_or_error json_parse response
        = Raise (ExceptionMsg ("Confluence API error: "
                               +:+ pretty (status_code response)))).
Proof.
  intros Hc Hrefused run.
  assert (Hno : ~ write_accepted w).
  { intros (r & response & Hw & Hr & Hs). exact (Hrefused r response Hw Hr Hs). }
  destruct (process_file_refused py_repr json_parse json_dumps self pub input_file
              output_dir w Hc Hno) as (w' & e & Hrun & (_&_&_&_&Hf&Hd)).
  subst run. rewrite Hrun. cbn [fst snd is_ok].
  repeat split; try assumption. apply page_or_error_non_200.
Qed.

Lemma publish_failure_writes_nothing_witness :
  let w := wiki_world {| status_code := 200; text := "NOTHING" |}
                      {| status_code := 500; text := "Internal Server Error" |} in
  let run := process_file sample_repr wiki_parse sample_dumps wiki_generator
               sample_input (Some "out") w in
  confluence wiki_generator = Some sample_publisher
  /\ snd run = Raise (ExceptionMsg "Confluence API error: 500")
  /\ is_ok (snd run) = false
  /\ files (fst run) = files w
  /\ dirs (fst run) = dirs w.
Proof.
  intros w run. split; [reflexivity|]. split; [vm_compute; reflexivity|].
  destruct (publish_failure_writes_nothing sample_repr wiki_parse sample_dumps
              wiki_generator sample_publisher sample_input (Some "out") w)
    as (H1 & H2 & H3 & _).
  - reflexivity.
  - intros r response Hw Hr. unfold w, wiki_world in Hr. cbn [http_service] in Hr.
    rewrite Hw in Hr. inversion Hr. discriminate.
  - split; [exact H1|]. split; [exact H2 | exact H3].
Defined.

(** When the create request is accepted, the same run saves both local files. *)
Example accepted_publish_saves_local_copy :
  let w := wiki_world {| status_code := 200; text := "NOTHING" |}
                      {| status_code := 200; text := "PAGE" |} in
  let run := process_file sample_repr wiki_parse sample_dumps wiki_generator
               sample_input (Some "out") w in
  is_ok (snd run) = true
  /\ is_Some (files (fst run) !! "out/minutes_standup_20240115.html")
  /\ files (fst run) !! "out/minutes_standup_20240115.json" = Some "<json>"
  /\ dirs (fst run) = {[ "out" ]} ∪ ∅.
Proof. vm_compute. repeat split. eexists. reflexivity. Qed.

(** * Further properties *)

(** ** Rendering outside the meeting records *)

Lemma mapM_first_failure {A B} (f : A -> result B) (p : A -> bool) (e : exn)
  (l : list A) :
  (forall x, p x = true -> exists y, f x = Ok y) ->
  (forall x, p x = false -> f x = Raise e) ->
  forallb p l = false -> result_mapM f l = Raise e.
Proof.
  intros Hok Hbad. induction l as [|x l IH]; [discriminate|].
  cbn [forallb result_mapM]. destruct (p x) eqn:Hx.
  - destruct (Hok x Hx) as [y Hy]. rewrite Hy, result_bind_ok.
    cbn [andb]. intros Hl. rewrite (IH Hl). reflexivity.
  - intros _. rewrite (Hbad x Hx). reflexivity.
Qed.

Lemma py_get_some (d : list (string * pyval)) (k : string) (v default : pyval) :
  dict_lookup k d = Some v -> py_get (PDict d) k default = Ok v.
Proof. intros H. unfold py_get. rewrite H. reflexivity. Qed.

Lemma py_get_none (d : list (string * pyval)) (k : string) (default : pyval) :
  dict_lookup k d = None -> py_get (PDict d) k default = Ok default.
Proof. intros H. unfold py_get. rewrite H. reflexivity. Qed.

Lemma field_non_dict (py_repr : pyval -> string) (o : pyval) (k default : string) :
  is_dict o = false -> field py_repr o k default = Raise AttributeError.
Proof. destruct o; try reflexivity. discriminate. Qed.

Lemma for_pieces_bad_row (body : pyval -> result (list piece)) (l : list pyval) :
  (forall x, is_dict x = true -> exists y, body x = Ok y) ->
  (forall x, is_dict x = false -> body x = Raise AttributeError) ->
  forallb is_dict l = false ->
  for_pieces (PList l) body = Raise AttributeError.
Proof.
  intros Hok Hbad Hl. unfold for_pieces. cbn [py_iter]. rewrite result_bind_ok.
  rewrite (mapM_first_failure body is_dict AttributeError l Hok Hbad Hl).
  reflexivity.
Qed.

Section RenderEdges.

Variable py_repr : pyval -> string.

Lemma update_pieces_non_dict (u : pyval) :
  is_dict u = false -> update_pieces py_repr u = Raise AttributeError.
Proof.
  intros H. unfold update_pieces.
  rewrite (field_non_dict py_repr u "name" "Unknown" H). reflexivity.
Qed.

Lemma item_pieces_non_dict (i : pyval) :
  is_dict i = false -> item_pieces py_repr i = Raise AttributeError.
Proof.
  intros H. unfold item_pieces.
  rewrite (field_non_dict py_repr i "action" "" H). reflexivity.
Qed.

Lemma format_raises (md : pyval) (meeting_date : string) (e : exn) (w : world) :
  minutes_body py_repr md meeting_date = Raise e ->
  format_minutes_as_html py_repr md meeting_date w = (w, Raise e).
Proof. intros H. rewrite format_minutes_as_html_run, H. reflexivity. Qed.

Lemma format_non_object (md : pyval) (meeting_date : string) (w : world) :
  is_dict md = false ->
  format_minutes_as_html py_repr md meeting_date w = (w, Raise AttributeError).
Proof.
  intros H. apply format_raises.
  destruct md; try reflexivity. discriminate.
Qed.

(** X1.  A record that is not an object (a JSON list, string, number or null)
    makes the renderer raise [AttributeError] at its first field access; the
    clock is not read. *)
Theorem render_rejects_non_object (md : pyval) (meeting_date : string) (w : world) :
  is_dict md = false ->
  format_minutes_as_html py_repr md meeting_date w = (w, Raise AttributeError).
Proof. apply format_non_object. Qed.

(** X2.  An [attendees] field that [join] cannot take (null, a number, a
    boolean, or a list with an element that is not a string) makes the
    renderer raise [TypeError]. *)
Theorem render_rejects_unjoinable_attendees
  (d : list (string * pyval)) (v : pyval) (meeting_date : string) (w : world) :
  dict_lookup "attendees" d = Some v ->
  joinable v = false ->
  format_minutes_as_html py_repr (PDict d) meeting_date w = (w, Raise TypeError).
Proof.
  intros Hv Hj. apply format_raises.
  unfold minutes_body. rewrite (py_get_some d "attendees" v (PList [PStr "No attendees extracted"]) Hv),
    result_bind_ok.
  assert (Hjoin : py_join ", " v = Raise TypeError).
  { destruct v as [| | | | |l|]; try reflexivity; try discriminate.
    unfold py_join. cbn [py_iter]. rewrite result_bind_ok.
    cbn [joinable] in Hj.
    rewrite (mapM_first_failure as_str is_str TypeError l); [reflexivity| | |exact Hj].
    - intros [] Hx; try discriminate. eexists; reflexivity.
    - intros [] Hx; try discriminate; reflexivity. }
  rewrite Hjoin. reflexivity.
Qed.

(** X3.  With the fields before it in order, an individual update or an action
    item that is not an object (a plain string, say) makes the renderer raise
    [AttributeError]. *)
Theorem render_rejects_non_object_rows
  (d : list (string * pyval)) (l : list pyval) (meeting_date : string) (w : world) :
  optional (list_of is_str) d "attendees" = true ->
  forallb is_dict l = false ->
  dict_lookup "individual_updates" d = Some (PList l)
  \/ (optional (list_of is_dict) d "individual_updates" = true
      /\ optional (list_of any_value) d "blockers" = true
      /\ dict_lookup "action_items" d = Some (PList l)) ->
  format_minutes_as_html py_repr (PDict d) meeting_date w
  = (w, Raise AttributeError).
Proof.
  intros Hatt Hl Hcase. apply format_raises.
  destruct (attendees_cell d Hatt) as (att & Eget & Ejoin).
  unfold minutes_body.
  rewrite Eget, result_bind_ok, Ejoin, result_bind_ok.
  rewrite field_dict, result_bind_ok.
  destruct Hcase as [Hupd|(Hupd & Hblk & Hact)].
  - rewrite (py_get_some d "individual_updates" _ _ Hupd), result_bind_ok.
    rewrite (for_pieces_bad_row (update_pieces py_repr) l); [reflexivity| | |exact Hl].
    + intros x Hx. eexists. apply update_pieces_dict, Hx.
    + apply update_pieces_non_dict.
  - destruct (get_seq _ _ _ Hupd) as [Eupd Hupd'].
    destruct (get_seq _ _ _ Hblk) as [Eblk _].
    rewrite Eupd, result_bind_ok.
    rewrite (for_pieces_list (update_pieces py_repr) (documented_update py_repr)
               is_dict _ (update_pieces_dict py_repr) Hupd'), result_bind_ok.
    rewrite Eblk, result_bind_ok, bullet_section_list, result_bind_ok.
    rewrite (py_get_some d "action_items" _ _ Hact), result_bind_ok.
    assert (Hsec : action_section py_repr (PList l) = Raise AttributeError).
    { unfold action_section. destruct l as [|x l]; [discriminate|].
      change (py_truthy (PList (x :: l))) with true. cbv iota.
      rewrite (for_pieces_bad_row (item_pieces py_repr) (x :: l));
        [reflexivity| | |exact Hl].
      - intros y Hy. eexists. apply item_pieces_dict, Hy.
      - apply item_pieces_non_dict. }
    rewrite Hsec. reflexivity.
Qed.

End RenderEdges.

Lemma render_rejects_non_object_witness :
  is_dict (PList [PStr "Ana"]) = false
  /\ format_minutes_as_html sample_repr (PList [PStr "Ana"]) "2024-01-15" quiet_world
     = (quiet_world, Raise AttributeError).
Proof.
  split; [reflexivity|].
  apply (render_rejects_non_object sample_repr (PList [PStr "Ana"]) "2024-01-15"
           quiet_world).
  reflexivity.
Defined.

Lemma render_rejects_unjoinable_attendees_witness :
  joinable (PList [PStr "Ana"; PNone]) = false
  /\ format_minutes_as_html sample_repr
       (PDict [("attendees", PList [PStr "Ana"; PNone])]) "2024-01-15" quiet_world
     = (quiet_world, Raise TypeError).
Proof.
  split; [reflexivity|].
  apply (render_rejects_unjoinable_attendees sample_repr
           [("attendees", PList [PStr "Ana"; PNone])] (PList [PStr "Ana"; PNone])
           "2024-01-15" quiet_world); reflexivity.
Defined.

Lemma render_rejects_non_object_rows_witness :
  forallb is_dict [PStr "Review the draft"] = false
  /\ format_minutes_as_html sample_repr flat_record "2024-01-15" quiet_world
     = (quiet_world, Raise AttributeError).
Proof.
  split; [reflexivity|].
  apply (render_rejects_non_object_rows sample_repr (fields_of flat_record)
           [PStr "Review the draft"] "2024-01-15" quiet_world).
  - reflexivity.
  - reflexivity.
  - right. repeat split; reflexivity.
Defined.

(** ** The footer *)

(** The footer line of the attendee count in the documented document. *)
Lemma attendee_count_documented
  (py_repr : pyval -> string) (md : pyval) (meeting_date stamp : string) :
  str_contains (attendee_count_line (count_text (seq_of md "attendees")))
    (flatten (documented_pieces py_repr md meeting_date stamp)) = true.
Proof.
  unfold documented_pieces.
  generalize (count_text (seq_of md "attendees")) as n. intros n.
  rewrite !app_assoc.
  change ([Lit tpl_foot_0; Val n; Lit tpl_foot_1;
           Val (count_text (seq_of md "action_items")); Lit tpl_foot_2;
           Val (count_text (seq_of md "blockers")); Lit tpl_foot_3;
           Val (count_text (seq_of md "decisions")); Lit tpl_foot_4;
           Val stamp; Lit tpl_foot_5])
    with ([Lit tpl_foot_0; Val n; Lit tpl_foot_1]
            ++ [Val (count_text (seq_of md "action_items")); Lit tpl_foot_2;
                Val (count_text (seq_of md "blockers")); Lit tpl_foot_3;
                Val (count_text (seq_of md "decisions")); Lit tpl_foot_4;
                Val stamp; Lit tpl_foot_5]).
  rewrite flatten_app, (flatten_app [Lit tpl_foot_0; Val n; Lit tpl_foot_1]).
  apply str_contains_mid.
  cbn [flatten piece_text].
  set (pre := unlines [""; "        <hr/>"; "        <h2>Meeting Metrics</h2>";
                       "        <ul>"; "            "]).
  set (post := unlines [""; "            <li><strong>Action Items:</strong> "]).
  replace (tpl_foot_0 +:+ n +:+ tpl_foot_1 +:+ "")
    with (pre +:+ attendee_count_line n +:+ post).
  - apply str_contains_intro.
  - unfold attendee_count_line.
    replace tpl_foot_0 with (pre +:+ "<li><strong>Total Attendees:</strong> ")
      by (vm_compute; reflexivity).
    replace (tpl_foot_1 +:+ "") with ("</li>" +:+ post) by (vm_compute; reflexivity).
    rewrite !str_app_assoc. reflexivity.
Qed.

(** X5.  The footer of the document of a meeting record shows the number of
    attendees in the sequence.  When the field is absent the two places
    disagree: the cell shows 'No attendees extracted', which reads as one name,
    and the footer counts 0. *)
Theorem attendee_count_in_footer
  (py_repr : pyval -> string) (md : pyval) (meeting_date : string) (w : world) :
  meeting_record md = true ->
  exists html,
    snd (format_minutes_as_html py_repr md meeting_date w) = Ok html
    /\ str_contains
         (attendee_count_line (pretty (Z.of_nat (length (seq_of md "attendees")))))
         html = true
    /\ (dict_lookup "attendees" (fields_of md) = None ->
        str_contains (attendees_row "No attendees extracted") html = true
        /\ str_contains (attendee_count_line "0") html = true).
Proof.
  intros H. eexists. split.
  { rewrite format_minutes_as_html_render. apply render_documented, H. }
  pose proof (attendee_count_documented py_repr md meeting_date
                (strftime_stamp (clock w (ticks w)))) as Hcount.
  split; [exact Hcount|].
  intros Habs. split.
  - pose proof (attendees_row_documented py_repr md meeting_date
                  (strftime_stamp (clock w (ticks w)))) as Hrow.
    unfold documented_attendees in Hrow. rewrite Habs in Hrow. exact Hrow.
  - unfold seq_of, count_text in Hcount. rewrite Habs in Hcount. exact Hcount.
Qed.

Lemma attendee_count_in_footer_witness :
  meeting_record sparse_record = true
  /\ exists html,
       snd (format_minutes_as_html sample_repr sparse_record "2024-01-15" quiet_world)
       = Ok html
       /\ str_contains (attendees_row "No attendees extracted") html = true
       /\ str_contains (attendee_count_line "0") html = true.
Proof.
  split; [reflexivity|].
  destruct (attendee_count_in_footer sample_repr sparse_record "2024-01-15"
              quiet_world eq_refl) as (html & Hr & _ & Habs).
  exists html. split; [exact Hr|]. apply Habs. reflexivity.
Defined.

(** ** The prompts of the two tiers *)

Lemma str_length_app (a b : string) :
  String.length (a +:+ b) = (String.length a + String.length b)%nat.
Proof.
  induction a as [|x a IH]; [reflexivity|].
  rewrite str_app_cons. cbn [String.length]. rewrite IH. reflexivity.
Qed.

Lemma str_prefix_length (n : nat) (s : string) :
  String.length (str_prefix n s) = Nat.min n (String.length s).
Proof.
  unfold str_prefix. revert s. induction n as [|n IH]; intros s.
  - destruct s; reflexivity.
  - destruct s as [|x s]; [reflexivity|].
    cbn [substring String.length Nat.min]. rewrite IH. reflexivity.
Qed.

Lemma str_prefix_all (n : nat) (s : string) :
  (String.length s <= n)%nat -> str_prefix n s = s.
Proof.
  unfold str_prefix. revert s. induction n as [|n IH]; intros s Hs.
  - destruct s; [reflexivity|]. cbn [String.length] in Hs. lia.
  - destruct s as [|x s]; [reflexivity|].
    cbn [substring]. cbn [String.length] in Hs. rewrite IH by lia. reflexivity.
Qed.

Lemma str_prefix_idem (n : nat) (s : string) :
  str_prefix n (str_prefix n s) = str_prefix n s.
Proof. apply str_prefix_all. rewrite str_prefix_length. lia. Qed.

(** X6.  The prompt of the simplified tier holds the first 3000 characters of
    the transcript and nothing after them: it is never longer than 3231
    characters, a transcript cut to 3000 characters gives the same request,
    and a transcript of up to 3000 characters is in it whole.  The prompt of
    the primary tier grows with the transcript. *)
Theorem simple_prompt_is_bounded (t : string) :
  String.length (user_content (simple_request t))
  = (231 + Nat.min 3000 (String.length t))%nat
  /\ simple_request (str_prefix 3000 t) = simple_request t
  /\ ((String.length t <= 3000)%nat ->
      user_content (simple_request t)
      = tpl_simple_prompt_0 +:+ t +:+ tpl_simple_prompt_1)
  /\ String.length (user_content (primary_request t))
     = (687 + String.length t)%nat.
Proof.
  split; [|split; [|split]].
  - cbn [user_content simple_request messages last from_option snd].
    rewrite !str_length_app, str_prefix_length.
    change (String.length tpl_simple_prompt_0) with 71%nat.
    change (String.length tpl_simple_prompt_1) with 160%nat. lia.
  - unfold simple_request. rewrite str_prefix_idem. reflexivity.
  - intros Ht. cbn [user_content simple_request messages last from_option snd].
    rewrite (str_prefix_all 3000 t Ht). reflexivity.
  - cbn [user_content primary_request messages last from_option snd].
    rewrite !str_length_app.
    change (String.length tpl_primary_prompt_0) with 617%nat.
    change (String.length tpl_primary_prompt_1) with 70%nat. lia.
Qed.

Lemma simple_prompt_is_bounded_witness :
  (String.length "Ana: done." <= 3000)%nat
  /\ user_content (simple_request "Ana: done.")
     = tpl_simple_prompt_0 +:+ "Ana: done." +:+ tpl_simple_prompt_1.
Proof.
  split; [vm_compute; lia|].
  apply (proj1 (proj2 (proj2 (simple_prompt_is_bounded "Ana: done.")))).
  vm_compute. lia.
Defined.

(** ** What extraction returns *)

Lemma tier_outcome_frame (json_parse : string -> option pyval) (w w' : world)
  (r : chat_request) :
  frame w w' -> tier_outcome json_parse w' r = tier_outcome json_parse w r.
Proof. intros (_ & Hc & _). unfold tier_outcome. rewrite Hc. reflexivity. Qed.

(** X7.  Extraction returns the first answer that parses, as it is: the answer
    of the primary tier, or else, after a JSON decode error, the answer of the
    simplified tier.  The value is not checked: it need not be an object. *)
Theorem extraction_returns_first_parsed_answer
  (json_parse : string -> option pyval) (t : string) (meeting_date : option string)
  (w : world) (v : pyval) :
  let run := process_transcript_with_ai json_parse t meeting_date w in
  (tier_outcome json_parse w (primary_request t) = Ok v ->
   snd run = Ok v
   /\ sent_during w (fst run) = [EvChat (primary_request t)])
  /\ (tier_outcome json_parse w (primary_request t) = Raise JSONDecodeError ->
      tier_outcome json_parse w (simple_request t) = Ok v ->
      snd run = Ok v
      /\ sent_during w (fst run)
         = [EvChat (primary_request t); EvChat (simple_request t)]).
Proof.
  intros run. subst run. rewrite process_transcript_with_ai_run. split.
  - intros Hp. rewrite Hp. cbn [fst snd]. rewrite sent_during_one. auto.
  - intros Hp Hs. rewrite Hp, simple_ai_extraction_run. cbn [fst snd].
    rewrite tier_outcome_later, Hs, sent_during_two. auto.
Qed.

Lemma extraction_returns_first_parsed_answer_witness :
  tier_outcome answer_parse (fallback_world "LIST") (primary_request "Ana: done.")
  = Raise JSONDecodeError
  /\ tier_outcome answer_parse (fallback_world "LIST") (simple_request "Ana: done.")
     = Ok (PList [PStr "Ana"; PStr "Ben"])
  /\ snd (process_transcript_with_ai answer_parse "Ana: done." None
            (fallback_world "LIST"))
     = Ok (PList [PStr "Ana"; PStr "Ben"]).
Proof.
  split; [reflexivity|]. split; [reflexivity|].
  apply (proj2 (extraction_returns_first_parsed_answer answer_parse "Ana: done."
                  None (fallback_world "LIST") (PList [PStr "Ana"; PStr "Ben"])));
    reflexivity.
Defined.

Section Unchecked.

Variable py_repr : pyval -> string.
Variable json_parse : string -> option pyval.

Lemma date_or_today_value (meeting_date : option string) (w : world) :
  date_or_today meeting_date w
  = (dated meeting_date w, Ok (date_value meeting_date w)).
Proof.
  unfold date_or_today, dated, date_value.
  destruct (opt_truthy meeting_date); reflexivity.
Qed.

Lemma prepare_run (t : string) (meeting_date : option string) (w : world) :
  let d := date_value meeting_date w in
  prepare py_repr json_parse t meeting_date w
  = match process_transcript_with_ai json_parse t (Some d)
            (dated meeting_date w) with
    | (w1, Ok md) =>
        match format_minutes_as_html py_repr md d w1 with
        | (w2, Ok html) => (w2, Ok (d, md, html))
        | (w2, Raise e) => (w2, Raise e)
        end
    | (w1, Raise e) => (w1, Raise e)
    end.
Proof.
  intros d. unfold prepare. unfold mbind at 1. unfold M_bind.
  rewrite date_or_today_value. fold d. unfold mbind, M_bind.
  destruct (process_transcript_with_ai json_parse t (Some d) (dated meeting_date w))
    as [w1 [md|e]]; [|reflexivity].
  destruct (format_minutes_as_html py_repr md d w1) as [w2 [html|e]]; reflexivity.
Qed.

Lemma frame_dated (meeting_date : option string) (w : world) :
  frame w (dated meeting_date w).
Proof. unfold dated. destruct (opt_truthy meeting_date); repeat split. Qed.

(** X8.  When the primary tier answers with JSON that is not an object, the
    run ends with [AttributeError] in the renderer: only the primary request
    has been sent, nothing is published and no file is written. *)
Theorem non_object_answer_ends_the_run
  (self : AIMinutesGenerator) (t : string) (meeting_date : option string)
  (w : world) (v : pyval) :
  tier_outcome json_parse w (primary_request t) = Ok v ->
  is_dict v = false ->
  let run := process_and_publish py_repr json_parse self t meeting_date w in
  snd run = Raise AttributeError
  /\ sent_during w (fst run) = [EvChat (primary_request t)]
  /\ files (fst run) = files w.
Proof.
  intros Hp Hv run. subst run.
  rewrite process_and_publish_stages.
  rewrite prepare_run. cbv zeta. set (d := date_value meeting_date w).
  rewrite process_transcript_with_ai_run.
  rewrite (tier_outcome_frame json_parse w _ _ (frame_dated meeting_date w)), Hp.
  rewrite (format_non_object py_repr v d _ Hv).
  cbn [fst snd]. split; [reflexivity|]. split.
  - unfold sent_during. cbn [log emit]. rewrite !log_dated. apply drop_app_length.
  - cbn [files emit]. unfold dated.
    destruct (opt_truthy (Some d)), (opt_truthy meeting_date); reflexivity.
Qed.

End Unchecked.

Lemma non_object_answer_ends_the_run_witness :
  let w := advised_world "LIST" "Keep it short." in
  let run := process_and_publish sample_repr answer_parse wiki_generator
               "Ana: done." None w in
  tier_outcome answer_parse w (primary_request "Ana: done.")
  = Ok (PList [PStr "Ana"; PStr "Ben"])
  /\ snd run = Raise AttributeError
  /\ sent_during w (fst run) = [EvChat (primary_request "Ana: done.")].
Proof.
  intros w run. split; [reflexivity|].
  destruct (non_object_answer_ends_the_run sample_repr answer_parse wiki_generator
              "Ana: done." None w (PList [PStr "Ana"; PStr "Ben"]))
    as (H1 & H2 & _); [reflexivity | reflexivity |].
  split; [exact H1 | exact H2].
Defined.

(** ** Suggestions after a rendering *)

(** X9.  For a record that the renderer accepted, the suggestion step returns
    a string whatever the completion service does: it cannot end the run. *)
Theorem suggestions_cannot_fail_after_rendering
  (py_repr : pyval -> string) (md : pyval) (meeting_date html : string)
  (w0 w : world) :
  snd (format_minutes_as_html py_repr md meeting_date w0) = Ok html ->
  exists s, snd (generate_improvement_suggestions md w) = Ok s.
Proof.
  rewrite format_minutes_as_html_run.
  destruct (minutes_body py_repr md meeting_date) as [body|e] eqn:E; [|discriminate].
  intros _.
  destruct (rendered_record_has_prompt py_repr md meeting_date body E) as [p Hp].
  rewrite (generate_improvement_suggestions_run md p w Hp). eexists. reflexivity.
Qed.

Lemma suggestions_cannot_fail_after_rendering_witness :
  snd (format_minutes_as_html sample_repr sparse_record "2024-01-15" quiet_world)
  = Ok (flatten (documented_pieces sample_repr sparse_record "2024-01-15"
                   "2024-01-15 09:30:00"))
  /\ exists s, snd (generate_improvement_suggestions sparse_record quiet_world) = Ok s.
Proof.
  split; [reflexivity|].
  apply (suggestions_cannot_fail_after_rendering sample_repr sparse_record
           "2024-01-15"
           (flatten (documented_pieces sample_repr sparse_record "2024-01-15"
                       "2024-01-15 09:30:00"))
           quiet_world quiet_world).
  reflexivity.
Defined.

(** X10.  Without a publisher, a run whose suggestion call answers [s] returns
    the record and the rendered document followed by the callout block of [s];
    an empty answer adds nothing, like a failed call. *)
Theorem suggestion_block_in_result
  (py_repr : pyval -> string) (json_parse : string -> option pyval)
  (self : AIMinutesGenerator) (t : string) (meeting_date : option string)
  (w w1 : world) (d : string) (md : pyval) (html p s : string) :
  prepare py_repr json_parse t meeting_date w = (w1, Ok (d, md, html)) ->
  improvement_prompt md = Ok p ->
  chat_service w1 (improvement_request p) = Ok s ->
  confluence self = None ->
  exists r,
    snd (process_and_publish py_repr json_parse self t meeting_date w) = Ok r
    /\ meeting_data r = md
    /\ confluence_url r = None
    /\ (s <> "" -> html_content r = html +:+ tpl_suggest_0 +:+ s +:+ tpl_suggest_1)
    /\ (s = "" -> html_content r = html).
Proof.
  intros Hprep Hp Hs Hnone.
  rewrite (suggestion_success py_repr json_parse self t meeting_date w w1 d md html
             p s Hprep Hp Hs).
  unfold deliver. rewrite Hnone. eexists. split; [reflexivity|].
  cbn [meeting_data confluence_url html_content].
  split; [reflexivity|]. split; [reflexivity|].
  unfold with_suggestions. split.
  - intros Hne. apply String.eqb_neq in Hne. rewrite Hne. reflexivity.
  - intros ->. reflexivity.
Qed.

Lemma suggestion_block_in_result_witness :
  let w := advised_world "RECORD" "Keep it short." in
  exists w1 d md html p,
    prepare sample_repr answer_parse "Ana: done." None w = (w1, Ok (d, md, html))
    /\ improvement_prompt md = Ok p
    /\ chat_service w1 (improvement_request p) = Ok "Keep it short."
    /\ exists r,
         snd (process_and_publish sample_repr answer_parse local_generator
                "Ana: done." None w) = Ok r
         /\ meeting_data r = md
         /\ confluence_url r = None
         /\ ("Keep it short." <> "" ->
             html_content r
             = html +:+ tpl_suggest_0 +:+ "Keep it short." +:+ tpl_suggest_1)
         /\ ("Keep it short." = "" -> html_content r = html).
Proof.
  intros w. do 5 eexists.
  split; [vm_compute; reflexivity|].
  split; [vm_compute; reflexivity|].
  split; [reflexivity|].
  eapply (suggestion_block_in_result sample_repr answer_parse local_generator
            "Ana: done." None w).
  - vm_compute; reflexivity.
  - vm_compute; reflexivity.
  - reflexivity.
  - reflexivity.
Defined.

(** ** The base URL *)

Lemma rstrip_slash_snoc (s : string) : rstrip_slash (s +:+ "/") = rstrip_slash s.
Proof.
  induction s as [|c s IH]; [reflexivity|].
  rewrite str_app_cons. cbn [rstrip_slash]. rewrite IH. reflexivity.
Qed.

Lemma rstrip_slash_no_trailing (s t : string) : rstrip_slash s <> t +:+ "/".
Proof.
  revert t. induction s as [|c s IH]; intros t.
  - destruct t; discriminate.
  - cbn [rstrip_slash]. destruct (rstrip_slash s) as [|c' r] eqn:E.
    + destruct (Ascii.eqb c "/") eqn:Ec.
      * destruct t; discriminate.
      * destruct t as [|c0 t]; [|destruct t; discriminate].
        rewrite str_app_nil_l. intros H. inversion H. subst.
        rewrite Ascii.eqb_refl in Ec. discriminate.
    + destruct t as [|c0 t].
      * rewrite str_app_nil_l. discriminate.
      * rewrite str_app_cons. intros H. inversion H. subst.
        apply (IH t). assumption.
Qed.

(** X11.  The publisher drops every trailing slash of the configured base
    URL: its base URL never ends with a slash, and a configuration with one
    more slash at the end of the URL sends the same lookup and the same create
    request. *)
Theorem trailing_slashes_do_not_matter
  (c : ConfluenceConfig) (title html : string) :
  let c' := with_base_url (base_url c +:+ "/") c in
  (forall t, pub_base_url (new_publisher c) <> t +:+ "/")
  /\ pub_base_url (new_publisher c') = pub_base_url (new_publisher c)
  /\ find_request (new_publisher c') title = find_request (new_publisher c) title
  /\ create_request (new_publisher c') title html
     = create_request (new_publisher c) title html.
Proof.
  intros c'. split; [|split; [|split]].
  - intros t. apply rstrip_slash_no_trailing.
  - apply rstrip_slash_snoc.
  - unfold find_request, new_publisher. cbn [pub_base_url config auth c'
      with_base_url base_url username api_token space_key].
    rewrite rstrip_slash_snoc. reflexivity.
  - unfold create_request, create_payload, new_publisher.
    cbn [pub_base_url config auth c' with_base_url base_url username api_token
         space_key parent_page_id].
    rewrite rstrip_slash_snoc. reflexivity.
Qed.

(** ** The create payload *)

Lemma opt_truthy_some (p : string) : p <> "" -> opt_truthy (Some p) = true.
Proof. intros H. apply String.eqb_neq in H. cbn [opt_truthy]. rewrite H. reflexivity. Qed.

(** X12.  The create payload names a parent page exactly when a parent id is
    given and not empty: the argument of [create_page] comes first, the
    configured parent second.  The payload always carries the title, the type
    [page], the space key and the three labels. *)
Theorem create_payload_parent
  (self : ConfluencePublisher) (title content : string) (parent_id : option string) :
  let payload := create_payload self title content parent_id in
  let configured := parent_page_id (config self) in
  (forall p, parent_id = Some p -> p <> "" ->
     py_item payload "ancestors" = Ok (PList [PDict [("id", PStr p)]]))
  /\ (opt_truthy parent_id = false ->
      forall q, configured = Some q -> q <> "" ->
        py_item payload "ancestors" = Ok (PList [PDict [("id", PStr q)]]))
  /\ (opt_truthy parent_id = false -> opt_truthy configured = false ->
      dict_lookup "ancestors" (fields_of payload) = None)
  /\ py_item payload "title" = Ok (PStr title)
  /\ py_item payload "type" = Ok (PStr "page")
  /\ py_item payload "space" = Ok (PDict [("key", PStr (space_key (config self)))])
  /\ py_item payload "metadata"
     = Ok (PDict [("labels", PList [PDict [("name", PStr "meeting-minutes")];
                                    PDict [("name", PStr "standup")];
                                    PDict [("name", PStr "ai-generated")]])]).
Proof.
  intros payload configured. subst payload configured. unfold create_payload.
  split; [|split; [|split]].
  - intros p -> Hp. unfold opt_or.
    rewrite (opt_truthy_some p Hp). cbv iota.
    rewrite (opt_truthy_some p Hp). reflexivity.
  - intros Hfalse q Hq Hne. unfold opt_or.
    rewrite Hfalse, Hq. cbv iota. rewrite (opt_truthy_some q Hne). reflexivity.
  - intros Hfalse Hconf. unfold opt_or. rewrite Hfalse, Hconf. reflexivity.
  - destruct (opt_truthy (opt_or parent_id (parent_page_id (config self))));
      repeat split; reflexivity.
Qed.

Lemma create_payload_parent_witness :
  let self := new_publisher
                {| base_url := "https://wiki.example.org"; username := "bot";
                   api_token := "secret"; space_key := "TEAM";
                   parent_page_id := Some "900" |} in
  opt_truthy (Some "") = false
  /\ py_item (create_payload self "T" "<p/>" (Some "")) "ancestors"
     = Ok (PList [PDict [("id", PStr "900")]])
  /\ py_item (create_payload self "T" "<p/>" (Some "12")) "ancestors"
     = Ok (PList [PDict [("id", PStr "12")]]).
Proof.
  intros self. split; [reflexivity|]. split.
  - apply (proj1 (proj2 (create_payload_parent self "T" "<p/>" (Some "")))
             eq_refl "900" eq_refl).
    discriminate.
  - apply (proj1 (create_payload_parent self "T" "<p/>" (Some "12")) "12" eq_refl).
    discriminate.
Defined.

(** ** One lookup, then at most one write *)

Section PublishRuns.

Variable py_repr : pyval -> string.
Variable json_parse : string -> option pyval.

Lemma publish_run (self : ConfluencePublisher) (title html : string) (w : world) :
  let w1 := emit (EvHttp (find_request self title)) w in
  publish py_repr json_parse self title html w
  = match answered w (find_request self title) (first_result json_parse) with
    | Raise e => (w1, Raise e)
    | Ok page =>
        if py_truthy page then
          match update_request py_repr self page title html with
          | Ok r => (emit (EvHttp r) w1, answered w r (page_or_error json_parse))
          | Raise e => (w1, Raise e)
          end
        else (emit (EvHttp (create_request self title html)) w1,
              answered w (create_request self title html)
                (page_or_error json_parse))
    end.
Proof.
  intros w1. unfold publish. unfold mbind at 1. unfold M_bind.
  rewrite find_page_by_title_run. fold w1.
  destruct (answered w (find_request self title) (first_result json_parse))
    as [page|e]; [|reflexivity].
  destruct (py_truthy page); [|rewrite create_page_run; reflexivity].
  unfold update_request. unfold mbind at 1. unfold M_bind, lift.
  destruct (py_item page "id") as [id|e]; [|reflexivity].
  rewrite result_bind_ok. unfold mbind at 1. unfold M_bind.
  destruct (version ← py_item page "version"; py_item version "number")
    as [number|e]; [|reflexivity].
  rewrite result_bind_ok.
  destruct (update_payload title html number) as [payload|e] eqn:E.
  - rewrite result_bind_ok.
    rewrite (update_page_run py_repr json_parse self id title html number payload
               w1 E).
    reflexivity.
  - unfold update_page. cbv zeta. unfold mbind at 1. unfold M_bind, lift.
    rewrite E. reflexivity.
Qed.

Lemma sent_one (w : world) (e : event) : sent_during w (emit e w) = [e].
Proof. unfold sent_during. cbn [log emit]. apply drop_app_length. Qed.

Lemma publish_log_shape
  (self : ConfluencePublisher) (title html : string) (w : world) :
  exists rest,
    sent_during w (fst (publish py_repr json_parse self title html w))
    = EvHttp (find_request self title) :: rest
    /\ (rest = [] \/ exists r, rest = [EvHttp r] /\ is_write r = true).
Proof.
  rewrite publish_run.
  destruct (answered w (find_request self title) (first_result json_parse))
    as [page|e].
  - destruct (py_truthy page).
    + destruct (update_request py_repr self page title html) as [r|e] eqn:E.
      * exists [EvHttp r]. cbn [fst]. rewrite sent_two. split; [reflexivity|].
        right. exists r. split; [reflexivity|].
        unfold update_request in E.
        destruct (py_item page "id"); [|discriminate E].
        rewrite result_bind_ok in E.
        destruct (version ← py_item page "version"; py_item version "number")
          as [number|]; [|discriminate E].
        rewrite result_bind_ok in E.
        destruct (update_payload title html number); [|discriminate E].
        inversion E. reflexivity.
      * exists []. cbn [fst]. rewrite sent_one. auto.
    + exists [EvHttp (create_request self title html)]. cbn [fst].
      rewrite sent_two. split; [reflexivity|]. right. eexists. split; reflexivity.
  - exists []. cbn [fst]. rewrite sent_one. auto.
Qed.

(** X13.  [publish] sends the lookup first and after it at most one request,
    a create or an update: never both, and never a write without a lookup. *)
Theorem publish_sends_at_most_one_write
  (self : ConfluencePublisher) (title html : string) (w : world) :
  exists rest,
    sent_during w (fst (publish py_repr json_parse self title html w))
    = EvHttp (find_request self title) :: rest
    /\ (rest = [] \/ exists r, rest = [EvHttp r] /\ is_write r = true).
Proof. apply publish_log_shape. Qed.

(** X14.  When the lookup finds a page whose id or version number cannot be
    read, or whose version number cannot be incremented, [publish] raises the
    exception of that step after the lookup and sends no update: a missing
    [id] gives [KeyError], a version number that is a string gives
    [TypeError]. *)
Theorem unusable_page_stops_publish
  (self : ConfluencePublisher) (title html : string) (w : world)
  (page : pyval) (e : exn) :
  answered w (find_request self title) (first_result json_parse) = Ok page ->
  py_truthy page = true ->
  update_request py_repr self page title html = Raise e ->
  publish py_repr json_parse self title html w
  = (emit (EvHttp (find_request self title)) w, Raise e)
  /\ sent_during w (fst (publish py_repr json_parse self title html w))
     = [EvHttp (find_request self title)]
  /\ (forall d, page = PDict d -> dict_lookup "id" d = None -> e = KeyError "id")
  /\ (forall id s,
        py_item page "id" = Ok id ->
        (version ← py_item page "version"; py_item version "number") = Ok (PStr s) ->
        e = TypeError).
Proof.
  intros Hfind Htruthy Hreq.
  assert (Hrun : publish py_repr json_parse self title html w
                 = (emit (EvHttp (find_request self title)) w, Raise e)).
  { rewrite publish_run, Hfind, Htruthy, Hreq. reflexivity. }
  split; [exact Hrun|]. split; [rewrite Hrun; apply sent_one|]. split.
  - intros d -> Hid. unfold update_request, py_item in Hreq. rewrite Hid in Hreq.
    inversion Hreq. reflexivity.
  - intros id s Hid Hnum. unfold update_request in Hreq.
    rewrite Hid, result_bind_ok, Hnum, result_bind_ok in Hreq.
    inversion Hreq. reflexivity.
Qed.

(** X15.  A create that the wiki accepted with status 200 still ends in an
    exception when the answer has no [_links] or no [webui] in it: the page
    exists, and [create_page] raises the [KeyError] of the log line. *)
Theorem accepted_create_without_link_raises
  (self : ConfluencePublisher) (title html : string) (w : world)
  (response : http_response) (data : pyval) (e : exn) :
  http_service w (create_request self title html) = Ok response ->
  status_code response = 200 ->
  json_parse (text response) = Some data ->
  (links ← py_item data "_links"; py_item links "webui") = Raise e ->
  create_page json_parse self title html None w
  = (emit (EvHttp (create_request self title html)) w, Raise e)
  /\ (forall d, data = PDict d -> dict_lookup "_links" d = None ->
        e = KeyError "_links").
Proof.
  intros Hresp Hst Hdata Hlinks. split.
  - rewrite create_page_run. unfold answered. rewrite Hresp, result_bind_ok.
    unfold page_or_error. rewrite Hst. cbn [Z.eqb Pos.eqb]. unfold json_loads.
    rewrite Hdata, result_bind_ok.
    destruct (py_item data "_links") as [links|e0].
    + rewrite result_bind_ok in Hlinks |- *. rewrite Hlinks. reflexivity.
    + inversion Hlinks. reflexivity.
  - intros d -> Hd. unfold py_item in Hlinks. rewrite Hd in Hlinks.
    inversion Hlinks. reflexivity.
Qed.

(** X16.  Of several pages with the title the lookup returns the first one,
    whatever follows it; when that first result is empty or null, [publish]
    takes the page for missing and sends a create. *)
Theorem first_result_decides
  (self : ConfluencePublisher) (title html : string) (w : world)
  (response : http_response) (data page : pyval) (rest : list pyval) :
  http_service w (find_request self title) = Ok response ->
  status_code response = 200 ->
  json_parse (text response) = Some data ->
  py_item data "results" = Ok (PList (page :: rest)) ->
  snd (find_page_by_title json_parse self title w) = Ok page
  /\ (py_truthy page = false ->
      publish py_repr json_parse self title html w
      = create_page json_parse self title html None
          (emit (EvHttp (find_request self title)) w)).
Proof.
  intros Hresp Hst Hdata Hres.
  assert (Hfind : answered w (find_request self title) (first_result json_parse)
                  = Ok page).
  { unfold answered. rewrite Hresp, result_bind_ok. unfold first_result.
    rewrite Hst. cbn [Z.eqb Pos.eqb]. unfold json_loads.
    rewrite Hdata, result_bind_ok, Hres. reflexivity. }
  split.
  - rewrite find_page_by_title_run. exact Hfind.
  - intros Hfalsy. rewrite publish_run, Hfind, Hfalsy, create_page_run. reflexivity.
Qed.

End PublishRuns.

Lemma unusable_page_stops_publish_witness :
  let title := "Stand-up Minutes - 2024-01-15" in
  answered found_world (find_request sample_publisher title)
    (first_result (found_parse odd_page)) = Ok odd_page
  /\ publish sample_repr (found_parse odd_page) sample_publisher title
       "<p>minutes</p>" found_world
     = (emit (EvHttp (find_request sample_publisher title)) found_world,
        Raise TypeError).
Proof.
  intros title. split; [reflexivity|].
  apply (unusable_page_stops_publish sample_repr (found_parse odd_page)
           sample_publisher title "<p>minutes</p>" found_world odd_page TypeError);
    reflexivity.
Defined.

Lemma accepted_create_without_link_raises_witness :
  let w := wiki_world {| status_code := 200; text := "NOTHING" |}
                      {| status_code := 200; text := "BARE" |} in
  let title := "Stand-up Minutes - 2024-01-15" in
  create_page (found_parse sample_page) sample_publisher title "<p>minutes</p>" None w
  = (emit (EvHttp (create_request sample_publisher title "<p>minutes</p>")) w,
     Raise (KeyError "_links")).
Proof.
  intros w title.
  apply (accepted_create_without_link_raises (found_parse sample_page)
           sample_publisher title "<p>minutes</p>" w
           {| status_code := 200; text := "BARE" |} (PDict [("id", PStr "4711")])
           (KeyError "_links"));
    reflexivity.
Defined.

Lemma first_result_decides_witness :
  let title := "Stand-up Minutes - 2024-01-15" in
  snd (find_page_by_title (found_parse (PDict [])) sample_publisher title found_world)
  = Ok (PDict [])
  /\ sent_during found_world
       (fst (publish sample_repr (found_parse (PDict [])) sample_publisher title
               "<p>minutes</p>" found_world))
     = [EvHttp (find_request sample_publisher title);
        EvHttp (create_request sample_publisher title "<p>minutes</p>")].
Proof.
  intros title.
  destruct (first_result_decides sample_repr (found_parse (PDict []))
              sample_publisher title "<p>minutes</p>" found_world
              {| status_code := 200; text := "FOUND" |}
              (PDict [("results", PList [PDict []; sample_page])])
              (PDict []) [sample_page])
    as [Hfind Hpub]; try reflexivity.
  split; [exact Hfind|].
  rewrite (Hpub eq_refl), create_page_run. apply sent_two.
Defined.

(** ** The log of a run *)

Lemma grows_refl (w : world) : grows w w [].
Proof. unfold grows. rewrite app_nil_r. reflexivity. Qed.

Lemma grows_trans (w1 w2 w3 : world) (l1 l2 : list event) :
  grows w1 w2 l1 -> grows w2 w3 l2 -> grows w1 w3 (l1 ++ l2).
Proof. unfold grows. intros H1 H2. rewrite H2, H1, app_assoc. reflexivity. Qed.

Lemma grows_sent (w w' : world) (l : list event) :
  grows w w' l -> sent_during w w' = l.
Proof. unfold grows, sent_during. intros ->. apply drop_app_length. Qed.

Lemma sent_grows (w w' : world) (l : list event) :
  (exists l', grows w w' l') -> sent_during w w' = l -> grows w w' l.
Proof. intros [l' H] Hs. rewrite (grows_sent w w' l' H) in Hs. subst. exact H. Qed.

Lemma grows_emit (w : world) (e : event) : grows w (emit e w) [e].
Proof. reflexivity. Qed.

Lemma grows_dated (meeting_date : option string) (w : world) :
  grows w (dated meeting_date w) [].
Proof. unfold grows. rewrite log_dated, app_nil_r. reflexivity. Qed.

Section RunLogs.

Variable py_repr : pyval -> string.
Variable json_parse : string -> option pyval.

Lemma extract_grows (t : string) (meeting_date : option string) (w : world) :
  exists l,
    grows w (fst (process_transcript_with_ai json_parse t meeting_date w)) l
    /\ forallb is_chat l = true /\ (length l <= 2)%nat.
Proof.
  rewrite process_transcript_with_ai_run.
  set (w0 := dated meeting_date w).
  assert (H0 : grows w w0 []) by apply grows_dated.
  assert (H1 : grows w (emit (EvChat (primary_request t)) w0)
                 [EvChat (primary_request t)]).
  { apply (grows_trans w w0 _ [] _ H0). apply grows_emit. }
  destruct (tier_outcome json_parse w (primary_request t)) as [v|e].
  - eexists. split; [exact H1|]. split; [reflexivity | cbn; lia].
  - destruct e; try (eexists; split; [exact H1|]; split; [reflexivity | cbn; lia]).
    rewrite simple_ai_extraction_run. cbn [fst].
    exists [EvChat (primary_request t); EvChat (simple_request t)].
    split; [|split; [reflexivity | cbn; lia]].
    apply (grows_trans w _ _ [EvChat (primary_request t)]
             [EvChat (simple_request t)] H1).
    apply grows_emit.
Qed.

Lemma format_grows (md : pyval) (d : string) (w : world) :
  grows w (fst (format_minutes_as_html py_repr md d w)) [].
Proof.
  rewrite format_minutes_as_html_run.
  destruct (minutes_body py_repr md d); cbn [fst]; unfold grows; cbn [log tick];
    rewrite app_nil_r; reflexivity.
Qed.

Lemma suggestions_grow (md : pyval) (w : world) :
  exists l,
    grows w (fst (generate_improvement_suggestions md w)) l
    /\ forallb is_chat l = true /\ (length l <= 1)%nat.
Proof.
  destruct (improvement_prompt md) as [p|e] eqn:E.
  - rewrite (generate_improvement_suggestions_run md p w E). cbn [fst].
    eexists. split; [apply grows_emit|]. split; [reflexivity | cbn; lia].
  - unfold generate_improvement_suggestions, mbind, M_bind, lift. rewrite E.
    cbn [fst]. exists []. split; [apply grows_refl|]. split; [reflexivity | cbn; lia].
Qed.

Lemma prepare_grows (t : string) (meeting_date : option string) (w : world) :
  exists l,
    grows w (fst (prepare py_repr json_parse t meeting_date w)) l
    /\ forallb is_chat l = true /\ (length l <= 2)%nat.
Proof.
  rewrite prepare_run. cbv zeta. set (d := date_value meeting_date w).
  destruct (extract_grows t (Some d) (dated meeting_date w)) as (l & Hl & Hc & Hn).
  assert (Hl' : grows w (fst (process_transcript_with_ai json_parse t (Some d)
                                (dated meeting_date w))) l).
  { apply (grows_trans w _ _ [] l (grows_dated meeting_date w) Hl). }
  destruct (process_transcript_with_ai json_parse t (Some d) (dated meeting_date w))
    as [w1 [md|e]]; cbn [fst] in *; [|exists l; auto].
  pose proof (format_grows md d w1) as Hf.
  destruct (format_minutes_as_html py_repr md d w1) as [w2 [html|e]];
    cbn [fst] in *; exists l; (split; [|auto]);
    rewrite <- (app_nil_r l); exact (grows_trans _ _ _ _ _ Hl' Hf).
Qed.

End RunLogs.

(** ** What a successful run has published *)

Section Delivered.

Variable py_repr : pyval -> string.
Variable json_parse : string -> option pyval.

Lemma update_request_shape (self : ConfluencePublisher) (page : pyval)
  (title html : string) (r : http_request) :
  update_request py_repr self page title html = Ok r ->
  is_write r = true
  /\ py_item (request_json r) "title" = Ok (PStr title)
  /\ storage_value (request_json r) = Ok (PStr (format_for_confluence html)).
Proof.
  unfold update_request. intros H.
  destruct (py_item page "id") as [id|]; [|discriminate H].
  rewrite result_bind_ok in H.
  destruct (version ← py_item page "version"; py_item version "number")
    as [number|]; [|discriminate H].
  rewrite result_bind_ok in H. unfold update_payload in H.
  destruct (py_succ number) as [n|]; [|discriminate H].
  rewrite !result_bind_ok in H. inversion H. repeat split; reflexivity.
Qed.

Lemma create_request_shape (self : ConfluencePublisher) (title html : string) :
  is_write (create_request self title html) = true
  /\ py_item (request_json (create_request self title html)) "title"
     = Ok (PStr title)
  /\ storage_value (request_json (create_request self title html))
     = Ok (PStr (format_for_confluence html)).
Proof.
  unfold create_request, create_payload. cbn [request_json is_write].
  destruct (opt_truthy (opt_or None (parent_page_id (config self))));
    repeat split; reflexivity.
Qed.

Lemma deliver_run (self : AIMinutesGenerator) (pub : ConfluencePublisher)
  (d : string) (md : pyval) (html : string) (w : world) :
  confluence self = Some pub ->
  deliver py_repr json_parse self d md html w
  = match publish py_repr json_parse pub (page_title d) html w with
    | (w1, Ok page) =>
        (w1,
         webui ← (links ← py_item page "_links"; py_item links "webui");
         id ← py_item page "id";
         Ok {| meeting_data := md; html_content := html;
               confluence_url := Some (pub_base_url pub +:+ py_str py_repr webui);
               page_id := Some id; local_file := None; json_file := None |})
    | (w1, Raise e) => (w1, Raise e)
    end.
Proof.
  intros Hc. unfold deliver. rewrite Hc. unfold mbind at 1. unfold M_bind.
  destruct (publish py_repr json_parse pub (page_title d) html w)
    as [w1 [page|e]]; [|reflexivity].
  unfold mbind, M_bind, result_bind, lift.
  destruct (py_item page "_links") as [links|]; [|reflexivity].
  destruct (py_item links "webui"); [|reflexivity].
  destruct (py_item page "id"); reflexivity.
Qed.

(** X17.  When the delivery with a publisher returns a result, exactly two
    requests were sent: the lookup of the title of the meeting date and one
    create or update.  The write carries that title and, wrapped in the
    banner, the very document the result returns; the page id and the link of
    the result are read from the answer to the write. *)
Theorem delivered_document_is_the_published_one
  (self : AIMinutesGenerator) (pub : ConfluencePublisher)
  (d : string) (md : pyval) (html : string) (w w' : world) (r : run_result) :
  confluence self = Some pub ->
  deliver py_repr json_parse self d md html w = (w', Ok r) ->
  exists req page id webui,
    sent_during w w' = [EvHttp (find_request pub (page_title d)); EvHttp req]
    /\ is_write req = true
    /\ py_item (request_json req) "title" = Ok (PStr (page_title d))
    /\ storage_value (request_json req) = Ok (PStr (format_for_confluence html))
    /\ html_content r = html
    /\ meeting_data r = md
    /\ answered w req (page_or_error json_parse) = Ok page
    /\ py_item page "id" = Ok id
    /\ page_id r = Some id
    /\ (links ← py_item page "_links"; py_item links "webui") = Ok webui
    /\ confluence_url r = Some (pub_base_url pub +:+ py_str py_repr webui).
Proof.
  intros Hc. rewrite (deliver_run self pub d md html w Hc), publish_run.
  cbv zeta.
  destruct (answered w (find_request pub (page_title d)) (first_result json_parse))
    as [found|e]; [|discriminate].
  assert (Hfin : forall req w1 page,
            is_write req = true ->
            py_item (request_json req) "title" = Ok (PStr (page_title d)) ->
            storage_value (request_json req)
            = Ok (PStr (format_for_confluence html)) ->
            sent_during w w1
            = [EvHttp (find_request pub (page_title d)); EvHttp req] ->
            (w1,
             webui ← (links ← py_item page "_links"; py_item links "webui");
             id ← py_item page "id";
             Ok {| meeting_data := md; html_content := html;
                   confluence_url := Some (pub_base_url pub +:+ py_str py_repr webui);
                   page_id := Some id; local_file := None; json_file := None |})
            = (w', Ok r) ->
            answered w req (page_or_error json_parse) = Ok page ->
            exists req page id webui,
              sent_during w w'
              = [EvHttp (find_request pub (page_title d)); EvHttp req]
              /\ is_write req = true
              /\ py_item (request_json req) "title" = Ok (PStr (page_title d))
              /\ storage_value (request_json req)
                 = Ok (PStr (format_for_confluence html))
              /\ html_content r = html
              /\ meeting_data r = md
              /\ answered w req (page_or_error json_parse) = Ok page
              /\ py_item page "id" = Ok id
              /\ page_id r = Some id
              /\ (links ← py_item page "_links"; py_item links "webui") = Ok webui
              /\ confluence_url r
                 = Some (pub_base_url pub +:+ py_str py_repr webui)).
  { intros req w1 page Hw Ht Hv Hs Heq Hans.
    destruct (links ← py_item page "_links"; py_item links "webui")
      as [webui|] eqn:Elinks; [|discriminate Heq].
    rewrite result_bind_ok in Heq.
    destruct (py_item page "id") as [id|] eqn:Eid; [|discriminate Heq].
    rewrite result_bind_ok in Heq. inversion Heq. subst.
    exists req, page, id, webui. repeat split; auto. }
  destruct (py_truthy found).
  - destruct (update_request py_repr pub found (page_title d) html) as [req|e] eqn:E;
      [|discriminate].
    destruct (update_request_shape pub found (page_title d) html req E)
      as (Hw & Ht & Hv).
    destruct (answered w req (page_or_error json_parse)) as [page|e] eqn:Ea;
      [|discriminate].
    intros Heq. apply (Hfin req _ page Hw Ht Hv (sent_two _ _ _) Heq Ea).
  - destruct (create_request_shape pub (page_title d) html) as (Hw & Ht & Hv).
    destruct (answered w (create_request pub (page_title d) html)
                (page_or_error json_parse)) as [page|e] eqn:Ea; [|discriminate].
    intros Heq. apply (Hfin _ _ page Hw Ht Hv (sent_two _ _ _) Heq Ea).
Qed.

End Delivered.

Lemma delivered_document_is_the_published_one_witness :
  let w := wiki_world {| status_code := 200; text := "FOUND" |}
                      {| status_code := 200; text := "PAGE" |} in
  let run := deliver sample_repr wiki_parse wiki_generator "2024-01-15"
               sparse_record "<p>minutes</p>" w in
  exists r req,
    run = (fst run, Ok r)
    /\ sent_during w (fst run)
       = [EvHttp (find_request sample_publisher "Stand-up Minutes - 2024-01-15");
          EvHttp req]
    /\ storage_value (request_json req)
       = Ok (PStr (format_for_confluence "<p>minutes</p>"))
    /\ page_id r = Some (PStr "4711")
    /\ confluence_url r
       = Some "https://wiki.example.org/spaces/TEAM/pages/4711".
Proof.
  intros w run.
  assert (Hrun : exists r, run = (fst run, Ok r)) by (eexists; vm_compute; reflexivity).
  destruct Hrun as [r Hrun].
  destruct (delivered_document_is_the_published_one sample_repr wiki_parse
              wiki_generator sample_publisher "2024-01-15" sparse_record
              "<p>minutes</p>" w (fst run) r eq_refl Hrun)
    as (req & page & id & webui & Hs & _ & _ & Hv & _ & _ & Ha & Hid & Hpid & Hl & Hu).
  exists r, req. split; [exact Hrun|]. split; [exact Hs|]. split; [exact Hv|].
  assert (Hreq : req = HttpPut "https://wiki.example.org/rest/api/content/4711"
                         (request_json req) ("bot", "secret")).
  { assert (Hlog : sent_during w (fst run)
                   = [EvHttp (find_request sample_publisher
                                "Stand-up Minutes - 2024-01-15");
                      EvHttp (HttpPut "https://wiki.example.org/rest/api/content/4711"
                                (PDict [("version", PDict [("number", PInt 4)]);
                                        ("title", PStr "Stand-up Minutes - 2024-01-15");
                                        ("type", PStr "page");
                                        ("body", storage_body
                                                   (format_for_confluence
                                                      "<p>minutes</p>"))])
                                ("bot", "secret"))])
      by (vm_compute; reflexivity).
    rewrite Hs in Hlog. inversion Hlog. reflexivity. }
  rewrite Hreq in Ha. vm_compute in Ha. inversion Ha. subst page.
  vm_compute in Hid. inversion Hid. subst id.
  vm_compute in Hl. inversion Hl. subst webui.
  split; [exact Hpid|]. rewrite Hu. vm_compute. reflexivity.
Defined.

(** ** The requests of a whole run *)

Section WholeRun.

Variable py_repr : pyval -> string.
Variable json_parse : string -> option pyval.

Lemma prepare_date (t : string) (meeting_date : option string) (w w1 : world)
  (d : string) (md : pyval) (html : string) :
  prepare py_repr json_parse t meeting_date w = (w1, Ok (d, md, html)) ->
  d = date_value meeting_date w.
Proof.
  rewrite prepare_run. cbv zeta.
  destruct (process_transcript_with_ai json_parse t
              (Some (date_value meeting_date w)) (dated meeting_date w))
    as [w2 [md0|e]]; [|discriminate].
  destruct (format_minutes_as_html py_repr md0 (date_value meeting_date w) w2)
    as [w3 [html0|e]]; [|discriminate].
  intros H. inversion H. reflexivity.
Qed.

Lemma publish_grows (self : ConfluencePublisher) (title html : string) (w : world) :
  exists rest,
    grows w (fst (publish py_repr json_parse self title html w))
      (EvHttp (find_request self title) :: rest)
    /\ (rest = [] \/ exists r, rest = [EvHttp r] /\ is_write r = true).
Proof.
  destruct (publish_log_shape py_repr json_parse self title html w)
    as (rest & Hs & Hshape).
  exists rest. split; [|exact Hshape].
  apply sent_grows; [|exact Hs].
  rewrite publish_run. cbv zeta.
  destruct (answered w (find_request self title) (first_result json_parse))
    as [page|e]; [|eexists; apply grows_emit].
  destruct (py_truthy page).
  - destruct (update_request py_repr self page title html);
      eexists; [|apply grows_emit].
    cbn [fst]. eapply grows_trans; apply grows_emit.
  - eexists. cbn [fst]. eapply grows_trans; apply grows_emit.
Qed.

Lemma deliver_grows (self : AIMinutesGenerator) (d : string) (md : pyval)
  (html : string) (w : world) :
  exists https,
    grows w (fst (deliver py_repr json_parse self d md html w)) https
    /\ (confluence self = None -> https = [])
    /\ (forall pub, confluence self = Some pub ->
          exists rest,
            https = EvHttp (find_request pub (page_title d)) :: rest
            /\ (rest = [] \/ exists r, rest = [EvHttp r] /\ is_write r = true)).
Proof.
  destruct (confluence self) as [pub|] eqn:Hc.
  - rewrite (deliver_run py_repr json_parse self pub d md html w Hc).
    destruct (publish_grows pub (page_title d) html w) as (rest & Hg & Hshape).
    exists (EvHttp (find_request pub (page_title d)) :: rest).
    split; [|split; [discriminate|]].
    + destruct (publish py_repr json_parse pub (page_title d) html w)
        as [w1 [page|e]]; exact Hg.
    + intros pub' Hpub. inversion Hpub. subst. exists rest. auto.
  - exists []. unfold deliver. rewrite Hc. split; [apply grows_refl|].
    split; [reflexivity | discriminate].
Qed.

Lemma run_log_shape
  (self : AIMinutesGenerator) (t : string) (meeting_date : option string)
  (w : world) :
  exists chats https,
    sent_during w (fst (process_and_publish py_repr json_parse self t meeting_date w))
    = chats ++ https
    /\ forallb is_chat chats = true
    /\ (length chats <= 3)%nat
    /\ (confluence self = None -> https = [])
    /\ (forall pub, confluence self = Some pub ->
          https = []
          \/ exists rest,
               https = EvHttp (find_request pub
                                 (page_title (date_value meeting_date w))) :: rest
               /\ (rest = [] \/ exists r, rest = [EvHttp r] /\ is_write r = true)).
Proof.
  rewrite process_and_publish_stages.
  destruct (prepare_grows py_repr json_parse t meeting_date w) as (l1 & H1 & C1 & N1).
  destruct (prepare py_repr json_parse t meeting_date w)
    as [w1 [[[d md] html]|e]] eqn:Eprep; cbn [fst] in H1.
  - pose proof (prepare_date t meeting_date w w1 d md html Eprep) as Hd.
    destruct (suggestions_grow md w1) as (l2 & H2 & C2 & N2).
    destruct (generate_improvement_suggestions md w1) as [w2 [s|e]];
      cbn [fst] in H2.
    + destruct (deliver_grows self d md (with_suggestions html s) w2)
        as (https & H3 & Hnone & Hsome).
      exists (l1 ++ l2), https. split; [|split; [|split; [|split]]].
      * apply grows_sent.
        exact (grows_trans _ _ _ _ _ (grows_trans _ _ _ _ _ H1 H2) H3).
      * rewrite forallb_app, C1, C2. reflexivity.
      * rewrite length_app. lia.
      * exact Hnone.
      * intros pub Hpub. right. rewrite <- Hd. exact (Hsome pub Hpub).
    + exists (l1 ++ l2), []. rewrite app_nil_r. split; [|split; [|split; [|split]]].
      * apply grows_sent. exact (grows_trans _ _ _ _ _ H1 H2).
      * rewrite forallb_app, C1, C2. reflexivity.
      * rewrite length_app. lia.
      * reflexivity.
      * intros pub _. left. reflexivity.
  - exists l1, []. rewrite app_nil_r. split; [|split; [|split; [|split]]].
    + apply grows_sent. exact H1.
    + exact C1.
    + lia.
    + reflexivity.
    + intros pub _. left. reflexivity.
Qed.

(** X18.  A run of [process_and_publish] sends at most three completion
    requests and after them, only with a publisher configured, the lookup of
    the title of the run's date and at most one create or update.  Without a
    publisher no HTTP request is sent. *)
Theorem run_sends_chats_then_publishes
  (self : AIMinutesGenerator) (t : string) (meeting_date : option string)
  (w : world) :
  exists chats https,
    sent_during w (fst (process_and_publish py_repr json_parse self t meeting_date w))
    = chats ++ https
    /\ forallb is_chat chats = true
    /\ (length chats <= 3)%nat
    /\ (confluence self = None -> https = [])
    /\ (forall pub, confluence self = Some pub ->
          https = []
          \/ exists rest,
               https = EvHttp (find_request pub
                                 (page_title (date_value meeting_date w))) :: rest
               /\ (rest = [] \/ exists r, rest = [EvHttp r] /\ is_write r = true)).
Proof. apply run_log_shape. Qed.

End WholeRun.

(** ** [process_file]: reading and saving *)

Section Files.

Variable py_repr : pyval -> string.
Variable json_parse : string -> option pyval.
Variable json_dumps : pyval -> string.

Lemma read_transcript_run (input_file : input_path) (w : world) :
  read_transcript input_file w = (w, snd (read_transcript input_file w)).
Proof.
  unfold read_transcript.
  destruct (String.eqb (str_lower (suffix input_file)) ".docx").
  - unfold mbind, M_bind, docx_paragraphs.
    destruct (docx_service w (path_str input_file)); reflexivity.
  - unfold read_text. destruct (files w !! path_str input_file); reflexivity.
Qed.

Lemma check_ancestors_dirs (w : world) (l : list string) :
  forallb (is_dir w) l = true -> check_ancestors w l = Ok tt.
Proof.
  induction l as [|q l IH]; [reflexivity|]. cbn [forallb check_ancestors].
  intros H. apply andb_true_iff in H as [Hq Hl]. rewrite Hq. exact (IH Hl).
Qed.

Lemma check_ancestors_fails (w : world) (l : list string) :
  forallb (is_dir w) l = false -> exists e, check_ancestors w l = Raise e.
Proof.
  induction l as [|q l IH]; [discriminate|]. cbn [forallb check_ancestors].
  destruct (is_dir w q); cbn [andb]; [exact IH|]. intros _.
  destruct (is_file w q); eexists; reflexivity.
Qed.


Lemma write_text_ok (p content : string) (w : world) :
  can_write w p = true -> write_text p content w = (set_file p content w, Ok tt).
Proof.
  unfold can_write, write_text. intros H. apply andb_true_iff in H as [Hd Ha].
  apply negb_true_iff in Hd. rewrite Hd, (check_ancestors_dirs w _ Ha). reflexivity.
Qed.

Lemma write_text_fails (p content : string) (w : world) :
  can_write w p = false -> exists e, write_text p content w = (w, Raise e).
Proof.
  unfold can_write, write_text. intros H.
  destruct (is_dir w p); [eexists; reflexivity|]. cbn [negb andb] in H.
  destruct (check_ancestors_fails w _ H) as [e He]. rewrite He.
  eexists; reflexivity.
Qed.

Lemma mkdir_ok (p : string) (w : world) :
  is_file w p || is_dir w p = false -> can_make w p = true ->
  mkdir p w = (add_dirs (path_ancestors p ++ [p]) w, Ok tt).
Proof.
  unfold can_make, mkdir. intros Hp Hm. apply negb_true_iff in Hm.
  rewrite Hp, Hm. reflexivity.
Qed.

Lemma mkdir_fails (p : string) (w : world) :
  is_file w p || is_dir w p = false -> can_make w p = false ->
  mkdir p w = (w, Raise NotADirectoryError).
Proof.
  unfold can_make, mkdir. intros Hp Hm. apply negb_false_iff in Hm.
  rewrite Hp, Hm. reflexivity.
Qed.

Lemma can_write_same_dirs (w w' : world) (p : string) :
  dirs w' = dirs w -> can_write w' p = can_write w p.
Proof. unfold can_write, is_dir. intros H. rewrite H. reflexivity. Qed.

Lemma bind_run {A B} (m : M A) (k : A -> M B) (w : world) :
  (m ≫= k) w = match m w with
               | (w', Ok a) => k a w'
               | (w', Raise e) => (w', Raise e)
               end.
Proof. reflexivity. Qed.

(** Lines 438-448: the two writes. *)
Lemma save_local_writes (d : string) (input_file : input_path) (r : run_result)
  (wd : world) :
  let html_name := output_name d input_file (clock wd (ticks wd)) ".html" in
  let json_name := output_name d input_file (clock wd (S (ticks wd))) ".json" in
  let out :=
    (now ← datetime_now;
     _ ← write_text (output_name d input_file now ".html") (html_content r);
     now' ← datetime_now;
     _ ← write_text (output_name d input_file now' ".json")
           (json_dumps (meeting_data r));
     mret (with_local_files (output_name d input_file now ".html")
             (output_name d input_file now' ".json") r)) wd in
  log (fst out) = log wd
  /\ (can_write wd html_name && can_write wd json_name = true ->
      snd out = Ok (with_local_files html_name json_name r)
      /\ files (fst out) = <[json_name := json_dumps (meeting_data r)]>
                             (<[html_name := html_content r]> (files wd))
      /\ dirs (fst out) = dirs wd)
  /\ (can_write wd html_name && can_write wd json_name = false ->
      is_ok (snd out) = false).
Proof.
  intros html_name json_name out. assert (Hout : out = out) by reflexivity.
  unfold out at 2 in Hout. clearbody out.
  rewrite bind_run in Hout. unfold datetime_now at 1 in Hout.
  fold html_name in Hout. rewrite bind_run in Hout.
  destruct (can_write wd html_name) eqn:Hh; cbn [andb].
  - rewrite (write_text_ok html_name (html_content r) (tick wd)) in Hout
      by (rewrite <- Hh; apply can_write_same_dirs; reflexivity).
    rewrite bind_run in Hout. unfold datetime_now at 1 in Hout.
    cbn [clock ticks tick set_file] in Hout. fold json_name in Hout.
    rewrite bind_run in Hout.
    destruct (can_write wd json_name) eqn:Hj.
    + rewrite write_text_ok in Hout
        by (rewrite <- Hj; apply can_write_same_dirs; reflexivity).
      subst out. cbn. split; [reflexivity|]. split; [|discriminate].
      intros _. repeat split.
    + match type of Hout with
      | context [write_text ?p ?c ?w0] =>
          destruct (write_text_fails p c w0) as [e He];
          [rewrite <- Hj; apply can_write_same_dirs; reflexivity|];
          rewrite He in Hout
      end.
      subst out.
      cbn. split; [reflexivity|]. split; [discriminate | reflexivity].
  - destruct (write_text_fails html_name (html_content r) (tick wd))
      as [e He]; [rewrite <- Hh; apply can_write_same_dirs; reflexivity|].
    rewrite He in Hout. subst out.
    cbn. split; [reflexivity|]. split; [discriminate | reflexivity].
Qed.

(** Lines 434-448 on any disk. *)
Lemma save_local_run (d : string) (input_file : input_path) (r : run_result)
  (w : world) :
  let html_name := output_name d input_file (clock w (ticks w)) ".html" in
  let json_name := output_name d input_file (clock w (S (ticks w))) ".json" in
  let out := save_local json_dumps d input_file r w in
  log (fst out) = log w
  /\ (save_ready w d html_name json_name = true ->
      snd out = Ok (with_local_files html_name json_name r)
      /\ files (fst out) = <[json_name := json_dumps (meeting_data r)]>
                             (<[html_name := html_content r]> (files w))
      /\ dirs (fst out) = dirs (made_dir d w))
  /\ (save_ready w d html_name json_name = false -> is_ok (snd out) = false).
Proof.
  intros html_name json_name out. assert (Hout : out = out) by reflexivity.
  unfold out at 2 in Hout. clearbody out. unfold save_local in Hout.
  rewrite bind_run in Hout. unfold path_exists at 1 in Hout.
  rewrite bind_run in Hout. unfold save_ready, made_dir.
  destruct (is_file w d || is_dir w d) eqn:Hthere; cbn [negb orb andb] in *.
  - unfold mret at 1, M_ret at 1 in Hout. rewrite Hout.
    exact (save_local_writes d input_file r w).
  - destruct (can_make w d) eqn:Hm.
    + rewrite (mkdir_ok d w Hthere Hm) in Hout. rewrite Hout.
      exact (save_local_writes d input_file r
               (add_dirs (path_ancestors d ++ [d]) w)).
    + rewrite (mkdir_fails d w Hthere Hm) in Hout. rewrite Hout.
      cbn. split; [reflexivity|]. split; [discriminate | reflexivity].
Qed.

Lemma save_local_keeps_record (d : string) (input_file : input_path)
  (r r' : run_result) (w : world) :
  snd (save_local json_dumps d input_file r w) = Ok r' ->
  meeting_data r' = meeting_data r.
Proof.
  intros H.
  destruct (save_local_run d input_file r w) as (_ & Hyes & Hno).
  destruct (save_ready w d _ _).
  - destruct (Hyes eq_refl) as (Hr & _). rewrite Hr in H. inversion H. reflexivity.
  - specialize (Hno eq_refl). rewrite H in Hno. discriminate Hno.
Qed.

Lemma process_file_run (self : AIMinutesGenerator) (input_file : input_path)
  (output_dir : option string) (w : world) :
  process_file py_repr json_parse json_dumps self input_file output_dir w
  = match snd (read_transcript input_file w) with
    | Ok text =>
        match process_and_publish py_repr json_parse self text None w with
        | (w1, Ok r) =>
            match output_dir with
            | Some d => save_local json_dumps d input_file r w1
            | None => (w1, Ok r)
            end
        | (w1, Raise e) => (w1, Raise e)
        end
    | Raise e => (w, Raise e)
    end.
Proof.
  unfold process_file. unfold mbind at 1. unfold M_bind.
  pose proof (read_transcript_run input_file w) as Hr.
  destruct (read_transcript input_file w) as [w0 res]. cbn [snd] in *.
  inversion Hr. subst w0. clear Hr.
  destruct res as [text|e]; [|reflexivity].
  unfold mbind, M_bind.
  destruct (process_and_publish py_repr json_parse self text None w)
    as [w1 [r|e]]; [|reflexivity].
  destruct output_dir; reflexivity.
Qed.

(** X19.  When the run succeeds and an output directory is given,
    [process_file] goes on to save two files under that directory, named
    after the stem of the transcript and the day of the clock and joined to
    the directory as [pathlib] joins them.  The output directory is made, with
    the missing directories on the way to it, unless the path is there
    already.  When the directory can be made and the two files can be written,
    the result is the one of the run with the two names, the disk is the one
    after the run plus the HTML file holding the returned document and the
    JSON file holding the returned record, and a file of the same name is
    overwritten.  Otherwise (a file where the directory should be or on the way
    to it, a directory where a file should go) [process_file] raises.  Saving
    sends nothing in either case. *)
Theorem local_copy_is_saved_after_success
  (self : AIMinutesGenerator) (input_file : input_path) (d text : string)
  (w w1 : world) (r : run_result) :
  snd (read_transcript input_file w) = Ok text ->
  process_and_publish py_repr json_parse self text None w = (w1, Ok r) ->
  let html_name := output_name d input_file (clock w1 (ticks w1)) ".html" in
  let json_name := output_name d input_file (clock w1 (S (ticks w1))) ".json" in
  let out := process_file py_repr json_parse json_dumps self input_file (Some d) w in
  (save_ready w1 d html_name json_name = true ->
   snd out = Ok (with_local_files html_name json_name r)
   /\ files (fst out) = <[json_name := json_dumps (meeting_data r)]>
                          (<[html_name := html_content r]> (files w))
   /\ dirs (fst out) = dirs (made_dir d w))
  /\ (save_ready w1 d html_name json_name = false -> is_ok (snd out) = false)
  /\ sent_during w (fst out) = sent_during w w1.
Proof.
  intros Hread Hrun html_name json_name out. subst out.
  rewrite process_file_run, Hread, Hrun.
  destruct (save_local_run d input_file r w1) as (Hl & Hyes & Hno).
  pose proof (framed_process_and_publish py_repr json_parse self text None w)
    as Hframe.
  rewrite Hrun in Hframe. cbn [fst] in Hframe.
  destruct Hframe as (_ & _ & _ & _ & Hfiles & Hdirs).
  split; [|split].
  - intros Hready. destruct (Hyes Hready) as (Hr & Hf & Hd).
    split; [exact Hr|]. split.
    + rewrite Hf, Hfiles. reflexivity.
    + rewrite Hd. unfold made_dir, is_file, is_dir. rewrite Hfiles, Hdirs.
      destruct (_ || _); [exact Hdirs|].
      unfold add_dirs. cbn [dirs]. rewrite Hdirs. reflexivity.
  - exact Hno.
  - unfold sent_during. rewrite Hl. reflexivity.
Qed.

(** X20.  Without an output directory [process_file] never writes: whatever
    the run does and however it ends, the files and the directories of the
    disk are the ones it started with.  The same holds for
    [process_and_publish] alone. *)
Theorem no_output_directory_no_writes
  (self : AIMinutesGenerator) (input_file : input_path) (t : string)
  (meeting_date : option string) (w : world) :
  let run := process_file py_repr json_parse json_dumps self input_file None w in
  let inner := process_and_publish py_repr json_parse self t meeting_date w in
  files (fst run) = files w /\ dirs (fst run) = dirs w
  /\ files (fst inner) = files w /\ dirs (fst inner) = dirs w.
Proof.
  intros run inner. subst run inner.
  pose proof (framed_process_and_publish py_repr json_parse self t meeting_date w)
    as (_ & _ & _ & _ & Hf & Hd).
  split; [|split; [|split]]; try assumption.
  - rewrite process_file_run.
    destruct (snd (read_transcript input_file w)) as [text|e]; [|reflexivity].
    pose proof (framed_process_and_publish py_repr json_parse self text None w)
      as (_ & _ & _ & _ & Hf' & _).
    destruct (process_and_publish py_repr json_parse self text None w)
      as [w1 [r|e]]; exact Hf'.
  - rewrite process_file_run.
    destruct (snd (read_transcript input_file w)) as [text|e]; [|reflexivity].
    pose proof (framed_process_and_publish py_repr json_parse self text None w)
      as (_ & _ & _ & _ & _ & Hd').
    destruct (process_and_publish py_repr json_parse self text None w)
      as [w1 [r|e]]; exact Hd'.
Qed.


End Files.

Lemma local_copy_is_saved_after_success_witness :
  let w := wiki_world {| status_code := 200; text := "NOTHING" |}
                      {| status_code := 200; text := "PAGE" |} in
  let out := process_file sample_repr wiki_parse sample_dumps wiki_generator
               sample_input (Some "out") w in
  exists w1 r,
    snd (read_transcript sample_input w) = Ok "Ana: done."
    /\ process_and_publish sample_repr wiki_parse wiki_generator "Ana: done." None w
       = (w1, Ok r)
    /\ snd out = Ok (with_local_files "out/minutes_standup_20240115.html"
                       "out/minutes_standup_20240115.json" r)
    /\ files (fst out)
       = <["out/minutes_standup_20240115.json" := "<json>"]>
           (<["out/minutes_standup_20240115.html" := html_content r]> (files w))
    /\ dirs (fst out) = {["out"]} ∪ dirs w.
Proof.
  intros w out.
  assert (Hrun : exists w1 r,
             process_and_publish sample_repr wiki_parse wiki_generator "Ana: done."
               None w = (w1, Ok r)
             /\ output_name "out" sample_input (clock w1 (ticks w1)) ".html"
                = "out/minutes_standup_20240115.html"
             /\ output_name "out" sample_input (clock w1 (S (ticks w1))) ".json"
                = "out/minutes_standup_20240115.json"
             /\ save_ready w1 "out" "out/minutes_standup_20240115.html"
                  "out/minutes_standup_20240115.json" = true).
  { do 2 eexists. split; [vm_compute; reflexivity|].
    split; [vm_compute; reflexivity|]. split; vm_compute; reflexivity. }
  destruct Hrun as (w1 & r & Hrun & Hhtml & Hjson & Hready).
  destruct (local_copy_is_saved_after_success sample_repr wiki_parse sample_dumps
              wiki_generator sample_input "out" "Ana: done." w w1 r eq_refl Hrun)
    as (Hyes & _ & _).
  rewrite Hhtml, Hjson in Hyes. destruct (Hyes Hready) as (Hr & Hf & Hd).
  exists w1, r. split; [reflexivity|]. split; [exact Hrun|].
  split; [exact Hr|]. split; [exact Hf|].
  unfold out. rewrite Hd. vm_compute. reflexivity.
Defined.


(** A file where the output directory should be: [exists()] is true, no
    directory is made, and the first write raises after the page was
    published. *)
Example file_at_output_path_raises :
  let w := blocked_world (wiki_world {| status_code := 200; text := "NOTHING" |}
                                     {| status_code := 200; text := "PAGE" |}) in
  let out := process_file sample_repr wiki_parse sample_dumps wiki_generator
               sample_input (Some "out") w in
  snd out = Raise NotADirectoryError
  /\ files (fst out) = files w /\ dirs (fst out) = dirs w
  /\ existsb (fun e => match e with EvHttp r => is_write r | EvChat _ => false end)
       (log (fst out)) = true.
Proof. vm_compute. repeat split. Qed.

(** The current directory as output directory: nothing is made and the names
    have no directory part. *)
Example current_directory_output :
  let w := wiki_world {| status_code := 200; text := "NOTHING" |}
                      {| status_code := 200; text := "PAGE" |} in
  let out := process_file sample_repr wiki_parse sample_dumps wiki_generator
               sample_input (Some ".") w in
  is_ok (snd out) = true
  /\ dirs (fst out) = dirs w
  /\ files (fst out) !! "minutes_standup_20240115.html" <> None
  /\ files (fst out) !! "minutes_standup_20240115.json" = Some "<json>".
Proof. vm_compute. repeat split. discriminate. Qed.

(** A directory as input: [main] lets it through, the read raises. *)
Example directory_input_raises :
  is_dir folder_world "standup.txt" = true
  /\ process_file sample_repr sample_parse sample_dumps wiki_generator sample_input
       (Some "out") folder_world
     = (folder_world, Raise IsADirectoryError).
Proof. split; reflexivity. Qed.

(** ** [main]: exit codes *)

Lemma sent_during_same (w : world) : sent_during w w = [].
Proof. unfold sent_during. apply drop_all. Qed.

Section ExitCodes.

Variable py_repr : pyval -> string.
Variable json_parse : string -> option pyval.
Variable json_dumps : pyval -> string.
Variable py_Path : string -> input_path.

Lemma process_file_sent (self : AIMinutesGenerator) (input_file : input_path)
  (output_dir : option string) (w : world) :
  sent_during w
    (fst (process_file py_repr json_parse json_dumps self input_file output_dir w))
  = match snd (read_transcript input_file w) with
    | Ok text =>
        sent_during w (fst (process_and_publish py_repr json_parse self text None w))
    | Raise _ => []
    end.
Proof.
  rewrite process_file_run.
  destruct (snd (read_transcript input_file w)) as [text|e];
    [|apply sent_during_same].
  destruct (process_and_publish py_repr json_parse self text None w)
    as [w1 [r|e]]; [|reflexivity].
  destruct output_dir as [d|]; [|reflexivity].
  destruct (save_local_run json_dumps d input_file r w1) as (Hl & _).
  unfold sent_during. cbn [fst]. rewrite Hl. reflexivity.
Qed.

Lemma rendered_record_has_counts (md : pyval) (meeting_date : string)
  (body : list piece) :
  minutes_body py_repr md meeting_date = Ok body -> summary_counts md = Ok tt.
Proof.
  unfold minutes_body. intros H.
  do 18 bind_inv H.
  destruct (len_piece_count md _ "attendees" _ Hx12 Hx13) as [a Ha].
  destruct (len_piece_count md _ "action_items" _ Hx6 Hx14) as [b Hb].
  destruct (len_piece_count md _ "blockers" _ Hx4 Hx15) as [c Hc].
  destruct (len_piece_count md _ "decisions" _ Hx8 Hx16) as [d Hd].
  unfold summary_counts. rewrite Ha, Hb, Hc, Hd. reflexivity.
Qed.

Lemma deliver_meeting_data (self : AIMinutesGenerator) (d : string) (md : pyval)
  (html : string) (w : world) (r : run_result) :
  snd (deliver py_repr json_parse self d md html w) = Ok r -> meeting_data r = md.
Proof.
  destruct (confluence self) as [pub|] eqn:Hc.
  - rewrite (deliver_run py_repr json_parse self pub d md html w Hc).
    destruct (publish py_repr json_parse pub (page_title d) html w)
      as [w1 [page|e]]; [|discriminate].
    cbn [snd].
    destruct (links ← py_item page "_links"; py_item links "webui");
      [|discriminate].
    rewrite result_bind_ok. destruct (py_item page "id"); [|discriminate].
    rewrite result_bind_ok. intros H. inversion H. reflexivity.
  - unfold deliver. rewrite Hc. intros H. inversion H. reflexivity.
Qed.

Lemma run_result_has_counts (self : AIMinutesGenerator) (t : string)
  (meeting_date : option string) (w : world) (r : run_result) :
  snd (process_and_publish py_repr json_parse self t meeting_date w) = Ok r ->
  summary_counts (meeting_data r) = Ok tt.
Proof.
  rewrite process_and_publish_stages.
  destruct (prepare py_repr json_parse t meeting_date w)
    as [w1 [[[d md] html]|e]] eqn:Eprep; [|discriminate].
  destruct (prepare_rendered py_repr json_parse t meeting_date w w1 d md html Eprep)
    as [body Hbody].
  destruct (generate_improvement_suggestions md w1) as [w2 [s|e]]; [|discriminate].
  intros H. rewrite (deliver_meeting_data self d md _ w2 r H).
  exact (rendered_record_has_counts md d body Hbody).
Qed.

Lemma process_file_has_counts (self : AIMinutesGenerator) (input_file : input_path)
  (output_dir : option string) (w : world) (r : run_result) :
  snd (process_file py_repr json_parse json_dumps self input_file output_dir w)
  = Ok r ->
  summary_counts (meeting_data r) = Ok tt.
Proof.
  rewrite process_file_run.
  destruct (snd (read_transcript input_file w)) as [text|e]; [|discriminate].
  destruct (process_and_publish py_repr json_parse self text None w)
    as [w1 [r0|e]] eqn:E; [|discriminate].
  assert (H0 : summary_counts (meeting_data r0) = Ok tt).
  { apply (run_result_has_counts self text None w). rewrite E. reflexivity. }
  destruct output_dir as [d|].
  - intros H. rewrite (save_local_keeps_record json_dumps d input_file r0 r w1 H).
    exact H0.
  - intros H. inversion H. subst. exact H0.
Qed.


Lemma main_run (args : cli_args) (env_key : option string) (w : world) :
  main py_repr json_parse json_dumps py_Path args env_key w
  = if negb (opt_truthy (main_key args env_key)) then (w, Ok 1)
    else if negb (input_there py_Path args w) then (w, Ok 1)
    else
      match process_file py_repr json_parse json_dumps
              (main_generator args env_key) (py_Path (arg_input args))
              (main_output_dir py_Path args) w with
      | (w', Ok r) =>
          (w', Ok match summary_counts (meeting_data r) with
                  | Ok _ => 0
                  | Raise _ => 1
                  end)
      | (w', Raise _) => (w', Ok 1)
      end.
Proof.
  unfold main, main_key, main_generator, main_output_dir, input_there.
  destruct (opt_truthy (opt_or (arg_openai_key args) env_key)); [|reflexivity].
  cbn [negb]. unfold mbind at 1. unfold M_bind, path_exists.
  destruct (is_file w (path_str (py_Path (arg_input args)))
            || is_dir w (path_str (py_Path (arg_input args))));
    [|reflexivity].
  cbn [negb]. unfold try_except. unfold mbind at 1. unfold M_bind.
  destruct (process_file py_repr json_parse json_dumps _ _ _ w) as [w' [r|e]];
    [|reflexivity].
  unfold mbind, M_bind, lift.
  destruct (summary_counts (meeting_data r)); reflexivity.
Qed.

(** X22.  [main] always ends with an exit code, 0 or 1, and never with an
    exception.  The code is 0 exactly when there is an API key, the input path
    exists and [process_file] returns; every exception of the run becomes
    code 1. *)
Theorem main_exit_code (args : cli_args) (env_key : option string) (w : world) :
  exists code,
    snd (main py_repr json_parse json_dumps py_Path args env_key w) = Ok code
    /\ (code = 0 \/ code = 1)
    /\ (code = 0 <->
        opt_truthy (main_key args env_key) = true
        /\ input_there py_Path args w = true
        /\ is_ok (snd (process_file py_repr json_parse json_dumps
                         (main_generator args env_key) (py_Path (arg_input args))
                         (main_output_dir py_Path args) w)) = true).
Proof.
  rewrite main_run.
  destruct (opt_truthy (main_key args env_key)); cbn [negb].
  2: { exists 1. split; [reflexivity|]. split; [auto|].
       split; [discriminate | intros (H & _); discriminate H]. }
  destruct (input_there py_Path args w); cbn [negb].
  2: { exists 1. split; [reflexivity|]. split; [auto|].
       split; [discriminate | intros (_ & H & _); discriminate H]. }
  destruct (process_file py_repr json_parse json_dumps (main_generator args env_key)
              (py_Path (arg_input args)) (main_output_dir py_Path args) w)
    as [w' [r|e]] eqn:E; cbn [snd is_ok].
  - rewrite (process_file_has_counts (main_generator args env_key)
               (py_Path (arg_input args)) (main_output_dir py_Path args) w r)
      by (rewrite E; reflexivity).
    exists 0. split; [reflexivity|]. split; [auto|]. split; auto.
  - exists 1. split; [reflexivity|]. split; [auto|].
    split; [discriminate | intros (_ & _ & H); discriminate H].
Qed.

(** X23.  Without an API key (none given, or an empty one, on the command line
    and in the environment), or when the input path does not exist, [main]
    ends with code 1 and has done nothing: no request, no clock reading, no
    file. *)
Theorem main_stops_before_any_work
  (args : cli_args) (env_key : option string) (w : world) :
  opt_truthy (main_key args env_key) = false \/ input_there py_Path args w = false ->
  main py_repr json_parse json_dumps py_Path args env_key w = (w, Ok 1).
Proof.
  intros H. rewrite main_run.
  destruct (opt_truthy (main_key args env_key)); [|reflexivity].
  destruct H as [H|H]; [discriminate H|]. rewrite H. reflexivity.
Qed.

Lemma main_sent (args : cli_args) (env_key : option string) (w : world) :
  sent_during w (fst (main py_repr json_parse json_dumps py_Path args env_key w)) = []
  \/ exists text,
       sent_during w (fst (main py_repr json_parse json_dumps py_Path args env_key w))
       = sent_during w (fst (process_and_publish py_repr json_parse
                               (main_generator args env_key) text None w)).
Proof.
  rewrite main_run.
  destruct (negb (opt_truthy (main_key args env_key)));
    [left; apply sent_during_same|].
  destruct (negb (input_there py_Path args w)); [left; apply sent_during_same|].
  pose proof (process_file_sent (main_generator args env_key)
                (py_Path (arg_input args)) (main_output_dir py_Path args) w) as Hs.
  assert (Hfst : fst match process_file py_repr json_parse json_dumps
                             (main_generator args env_key) (py_Path (arg_input args))
                             (main_output_dir py_Path args) w with
                     | (w', Ok r) =>
                         (w', Ok match summary_counts (meeting_data r) with
                                 | Ok _ => 0
                                 | Raise _ => 1
                                 end)
                     | (w', Raise _) => (w', Ok 1)
                     end
                 = fst (process_file py_repr json_parse json_dumps
                          (main_generator args env_key) (py_Path (arg_input args))
                          (main_output_dir py_Path args) w)).
  { destruct (process_file py_repr json_parse json_dumps _ _ _ w) as [w' [r|e]];
      reflexivity. }
  rewrite Hfst, Hs.
  destruct (snd (read_transcript (py_Path (arg_input args)) w)) as [text|e];
    [right; exists text; reflexivity | left; reflexivity].
Qed.

(** X24.  The wiki is used only when all four of URL, user name, token and
    space key are given and not empty.  With any of them missing [main] runs
    without a publisher: every request it sends goes to the completion
    service, none to the wiki. *)
Theorem partial_wiki_settings_publish_nothing
  (args : cli_args) (env_key : option string) (w : world) :
  opt_truthy (arg_confluence_url args)
  && opt_truthy (arg_confluence_username args)
  && opt_truthy (arg_confluence_token args)
  && opt_truthy (arg_confluence_space args) = false ->
  confluence (main_generator args env_key) = None
  /\ forallb is_chat
       (sent_during w
          (fst (main py_repr json_parse json_dumps py_Path args env_key w))) = true.
Proof.
  intros H.
  assert (Hnone : confluence (main_generator args env_key) = None).
  { unfold main_generator, new_generator, confluence_config_of. rewrite H.
    reflexivity. }
  split; [exact Hnone|].
  destruct (main_sent args env_key w) as [Hs|[text Hs]]; rewrite Hs; [reflexivity|].
  destruct (run_log_shape py_repr json_parse (main_generator args env_key) text
              None w) as (chats & https & Hlog & Hchat & _ & Hno & _).
  rewrite Hlog, (Hno Hnone), app_nil_r. exact Hchat.
Qed.

(** X25.  The date given with [--date] is never used: [main] does the same
    with any other date, and every lookup it sends asks for the title of the
    day the clock shows at the start of the run. *)
Theorem lookup_title_is_the_day_of_the_clock
  (args : cli_args) (env_key : option string) (w : world) :
  (forall d,
     main py_repr json_parse json_dumps py_Path (with_date d args) env_key
     = main py_repr json_parse json_dumps py_Path args env_key)
  /\ (forall url params auth,
        In (EvHttp (HttpGet url params auth))
          (sent_during w
             (fst (main py_repr json_parse json_dumps py_Path args env_key w))) ->
        params = lookup_params (default "" (arg_confluence_space args))
                   (strftime_date (clock w (ticks w)))).
Proof.
  split; [intros d; reflexivity|].
  intros url params auth Hin.
  destruct (main_sent args env_key w) as [Hs|[text Hs]]; rewrite Hs in Hin;
    [destruct Hin|].
  destruct (run_log_shape py_repr json_parse (main_generator args env_key) text
              None w) as (chats & https & Hlog & Hchat & _ & Hno & Hsome).
  rewrite Hlog in Hin. apply in_app_or in Hin as [Hin|Hin].
  - rewrite forallb_forall in Hchat. specialize (Hchat _ Hin). discriminate Hchat.
  - destruct (confluence (main_generator args env_key)) as [pub|] eqn:Hc.
    + destruct (Hsome pub eq_refl) as [Hnil|(rest & Hhttps & Hrest)];
        [rewrite Hnil in Hin; destruct Hin|].
      rewrite Hhttps in Hin. destruct Hin as [Heq|Hin].
      * inversion Heq. subst.
        unfold main_generator, new_generator, confluence_config_of in Hc.
        destruct (opt_truthy (arg_confluence_url args)
                  && opt_truthy (arg_confluence_username args)
                  && opt_truthy (arg_confluence_token args)
                  && opt_truthy (arg_confluence_space args));
          [|discriminate Hc].
        inversion Hc. reflexivity.
      * destruct Hrest as [->|(r & -> & Hw)]; [destruct Hin|].
        destruct Hin as [Heq|[]]. inversion Heq. subst. discriminate Hw.
    + rewrite (Hno eq_refl) in Hin. destruct Hin.
Qed.

End ExitCodes.

Lemma main_stops_before_any_work_witness :
  let args := with_date None
                {| arg_input := "standup.txt"; arg_output_dir := Some "out";
                   arg_date := None; arg_openai_key := Some "";
                   arg_confluence_url := None; arg_confluence_username := None;
                   arg_confluence_token := None; arg_confluence_space := None;
                   arg_confluence_parent_id := None |} in
  opt_truthy (main_key args None) = false
  /\ main sample_repr wiki_parse sample_dumps sample_Path args None found_world
     = (found_world, Ok 1).
Proof.
  intros args. split; [reflexivity|].
  apply (main_stops_before_any_work sample_repr wiki_parse sample_dumps sample_Path
           args None found_world).
  left. reflexivity.
Defined.

Lemma partial_wiki_settings_publish_nothing_witness :
  opt_truthy (arg_confluence_url tokenless_args)
  && opt_truthy (arg_confluence_username tokenless_args)
  && opt_truthy (arg_confluence_token tokenless_args)
  && opt_truthy (arg_confluence_space tokenless_args) = false
  /\ snd (main sample_repr wiki_parse sample_dumps sample_Path tokenless_args None
            found_world) = Ok 0
  /\ forallb is_chat
       (sent_during found_world
          (fst (main sample_repr wiki_parse sample_dumps sample_Path tokenless_args
                  None found_world))) = true.
Proof.
  split; [reflexivity|]. split; [vm_compute; reflexivity|].
  apply (partial_wiki_settings_publish_nothing sample_repr wiki_parse sample_dumps
           sample_Path tokenless_args None found_world).
  reflexivity.
Defined.

Lemma lookup_title_is_the_day_of_the_clock_witness :
  let run := main sample_repr wiki_parse sample_dumps sample_Path sample_args None
               found_world in
  arg_date sample_args = Some "1999-12-31"
  /\ snd run = Ok 0
  /\ exists url params auth,
       In (EvHttp (HttpGet url params auth)) (sent_during found_world (fst run))
       /\ params = lookup_params "TEAM" "2024-01-15".
Proof.
  intros run. split; [reflexivity|]. split; [vm_compute; reflexivity|].
  assert (Hin : In (EvHttp (find_request sample_publisher
                              "Stand-up Minutes - 2024-01-15"))
                  (sent_during found_world (fst run))).
  { vm_compute. right. right. left. reflexivity. }
  do 3 eexists. split; [exact Hin|].
  apply (proj2 (lookup_title_is_the_day_of_the_clock sample_repr wiki_parse
                  sample_dumps sample_Path sample_args None found_world)
           _ _ _ Hin).
Defined.

(** ** Occurrences in the returned document *)

Lemma prefix_app_l (n x y : string) :
  String.prefix n x = true -> String.prefix n (x +:+ y) = true.
Proof.
  revert x. induction n as [|c n IH]; intros x; [intros _; destruct (x +:+ y); reflexivity|].
  destruct x as [|c' x]; [discriminate|]. rewrite str_app_cons.
  cbn [String.prefix]. destruct (ascii_dec c c'); [apply IH | discriminate].
Qed.

Lemma prefix_app_split (n x y : string) :
  String.prefix n (x +:+ y) = true ->
  String.prefix n x = true \/ String.prefix x n = true.
Proof.
  revert x. induction n as [|c n IH]; intros x; [intros _; left; destruct x; reflexivity|].
  destruct x as [|c' x]; [intros _; right; reflexivity|]. rewrite str_app_cons.
  cbn [String.prefix]. destruct (ascii_dec c c') as [->|Hne].
  - destruct (ascii_dec c' c'); [|contradiction]. apply IH.
  - discriminate.
Qed.

(** Text after an edge-safe text adds its own occurrences and no other. *)
Lemma occurrences_app (n x y : string) :
  edge_safe n x = true ->
  occurrences n (x +:+ y) = (occurrences n x + occurrences n y)%nat.
Proof.
  induction x as [|c x IH]; [reflexivity|].
  cbn [edge_safe]. intros [Hc Hx]%andb_true_iff.
  rewrite str_app_cons. cbn [occurrences]. rewrite (IH Hx).
  rewrite <- str_app_cons.
  destruct (String.prefix n (String c x)) eqn:Hp.
  - rewrite (prefix_app_l _ _ y Hp). lia.
  - cbn [orb] in Hc. apply negb_true_iff in Hc.
    destruct (String.prefix n (String c x +:+ y)) eqn:Hq; [|lia].
    destruct (prefix_app_split _ _ _ Hq) as [H|H]; congruence.
Qed.


Lemma markup_free_app (a b : string) :
  markup_free (a +:+ b) = markup_free a && markup_free b.
Proof.
  induction a as [|c a IH]; [reflexivity|].
  rewrite str_app_cons. cbn [markup_free]. rewrite IH, andb_assoc. reflexivity.
Qed.

(** A text without [<] neither holds nor begins a tag. *)
Lemma markup_free_quiet (n v : string) :
  markup_free v = true ->
  edge_safe (String "<" n) v = true /\ occurrences (String "<" n) v = 0%nat.
Proof.
  induction v as [|c v IH]; [split; reflexivity|].
  cbn [markup_free]. intros [Hc Hv]%andb_true_iff.
  destruct (IH Hv) as [He Ho].
  apply negb_true_iff, Ascii.eqb_neq in Hc.
  cbn [edge_safe occurrences String.prefix]. rewrite He, Ho.
  destruct (ascii_dec "<" c) as [E|_]; [congruence|].
  destruct (ascii_dec c "<") as [E|_]; [congruence|].
  split; reflexivity.
Qed.

(** In a document whose values have no [<], a tag occurs where the template
    has it. *)
Lemma occurrences_flatten (n : string) (ps : list piece) :
  forallb val_markup_free ps = true ->
  forallb (lit_edge_safe (String "<" n)) ps = true ->
  occurrences (String "<" n) (flatten ps) = occ_lits (String "<" n) ps.
Proof.
  induction ps as [|p ps IH]; [reflexivity|].
  cbn [forallb]. intros [Hp Hps]%andb_true_iff [Ep Eps]%andb_true_iff.
  cbn [flatten]. destruct p as [l|v]; cbn [piece_text occ_lits] in *.
  - rewrite (occurrences_app _ _ _ Ep), (IH Hps Eps). reflexivity.
  - destruct (markup_free_quiet n v Hp) as [He Ho].
    rewrite (occurrences_app _ _ _ He), Ho, (IH Hps Eps). reflexivity.
Qed.

Lemma occ_lits_app (n : string) (ps qs : list piece) :
  occ_lits n (ps ++ qs) = (occ_lits n ps + occ_lits n qs)%nat.
Proof.
  induction ps as [|[l|v] ps IH]; cbn [occ_lits app]; [reflexivity| |exact IH].
  rewrite IH. lia.
Qed.

Lemma occ_lits_rows (n : string) (row : pyval -> list piece) (k : nat)
  (l : list pyval) :
  (forall x, occ_lits n (row x) = k) ->
  occ_lits n (concat (map row l)) = (k * length l)%nat.
Proof.
  intros Hrow. induction l as [|x l IH]; cbn [map concat length]; [cbn; lia|].
  rewrite occ_lits_app, Hrow, IH. lia.
Qed.

Lemma forallb_rows (P : piece -> bool) (row : pyval -> list piece)
  (Q : pyval -> bool) (l : list pyval) :
  (forall x, Q x = true -> forallb P (row x) = true) ->
  forallb Q l = true -> forallb P (concat (map row l)) = true.
Proof.
  intros Hrow. induction l as [|x l IH]; [reflexivity|].
  cbn [forallb map concat]. intros [Hx Hl]%andb_true_iff.
  rewrite forallb_app, (Hrow x Hx), (IH Hl). reflexivity.
Qed.

Lemma forallb_always {A} (l : list A) : forallb (fun _ => true) l = true.
Proof. induction l; [reflexivity | assumption]. Qed.

(** The decimal digits of a number are not [<]. *)
Lemma markup_free_pretty_N_go (x : N) (s : string) :
  markup_free s = true -> markup_free (pretty_N_go x s) = true.
Proof.
  revert s. induction (N.lt_wf_0 x) as [x _ IH]. intros s Hs.
  assert (x = 0 \/ 0 < x)%N as [->|Hx] by lia.
  - rewrite pretty_N_go_0. exact Hs.
  - rewrite pretty_N_go_step by exact Hx. apply IH.
    + apply N.div_lt; lia.
    + cbn [markup_free]. rewrite Hs, andb_true_r.
      unfold pretty_N_char. repeat case_match; reflexivity.
Qed.

Lemma markup_free_pretty_N (x : N) : markup_free (pretty x) = true.
Proof.
  unfold pretty, pretty_N. destruct (decide (x = 0%N)); [reflexivity|].
  apply markup_free_pretty_N_go. reflexivity.
Qed.

Lemma markup_free_pretty_nat (x : nat) : markup_free (pretty x) = true.
Proof. apply markup_free_pretty_N. Qed.

Lemma markup_free_pretty_Z (x : Z) : markup_free (pretty x) = true.
Proof.
  unfold pretty, pretty_Z. destruct x as [|p|p]; [reflexivity| |].
  - apply markup_free_pretty_N.
  - rewrite markup_free_app. apply markup_free_pretty_N.
Qed.

Lemma markup_free_pad2 (n : nat) : markup_free (pad2 n) = true.
Proof.
  unfold pad2. destruct (n <? 10)%nat; [rewrite markup_free_app|];
    apply markup_free_pretty_nat.
Qed.

Lemma markup_free_stamp (d : datetime) : markup_free (strftime_stamp d) = true.
Proof.
  unfold strftime_stamp, strftime_date.
  rewrite !markup_free_app, !markup_free_pad2, markup_free_pretty_nat.
  reflexivity.
Qed.

Ltac conj_bool := apply andb_true_intro; split.

Ltac split_parts :=
  conj_bool; [|conj_bool; [|conj_bool; [|conj_bool; [|conj_bool; [|conj_bool]]]]].

Section DocumentText.

Variable py_repr : pyval -> string.

Lemma occ_lits_bullets (n heading : string) (l : list pyval) :
  occ_lits n (documented_bullets py_repr heading l)
  = match l with
    | [] => 0
    | _ :: _ =>
        occurrences n heading + occurrences n "</ul>"
        + (occurrences n "<li>" + occurrences n "</li>") * length l
    end%nat.
Proof.
  destruct l as [|x l]; [reflexivity|].
  unfold documented_bullets. cbn [occ_lits]. rewrite occ_lits_app.
  rewrite (occ_lits_rows n (documented_li py_repr)
             (occurrences n "<li>" + occurrences n "</li>")%nat).
  - cbn [occ_lits]. lia.
  - intros y. cbn [documented_li occ_lits]. lia.
Qed.

Lemma occ_lits_actions (n : string) (l : list pyval) :
  occ_lits n (documented_actions py_repr l)
  = match l with
    | [] => 0
    | _ :: _ =>
        occurrences n tpl_actions_0 + occurrences n "</table>"
        + occ_lits n (documented_item py_repr PNone) * length l
    end%nat.
Proof.
  destruct l as [|x l]; [reflexivity|].
  unfold documented_actions. cbn [occ_lits]. rewrite occ_lits_app.
  rewrite (occ_lits_rows n (documented_item py_repr)
             (occ_lits n (documented_item py_repr PNone))).
  - cbn [occ_lits]. lia.
  - intros y. reflexivity.
Qed.

(** The tags of the template in the document of a record: those of the head
    and the footer, and those of each row. *)
Lemma occ_lits_documented (n : string) (md : pyval) (meeting_date stamp : string) :
  occ_lits n (documented_pieces py_repr md meeting_date stamp)
  = (occ_lits n (documented_pieces py_repr (PDict []) "" "")
     + occ_lits n (documented_update py_repr PNone)
       * length (seq_of md "individual_updates")
     + occ_lits n (documented_bullets py_repr h2_blockers (seq_of md "blockers"))
     + occ_lits n (documented_actions py_repr (seq_of md "action_items"))
     + occ_lits n (documented_bullets py_repr h2_decisions (seq_of md "decisions"))
     + occ_lits n (documented_bullets py_repr h2_discussions
                     (seq_of md "key_discussions")))%nat.
Proof.
  unfold documented_pieces at 1. rewrite !occ_lits_app.
  rewrite (occ_lits_rows n (documented_update py_repr)
             (occ_lits n (documented_update py_repr PNone)))
    by (intros ?; reflexivity).
  unfold documented_pieces. cbn [seq_of fields_of dict_lookup map concat app
    documented_bullets documented_actions]. rewrite ?occ_lits_app.
  cbn [occ_lits]. lia.
Qed.

Lemma forallb_bullets (P : piece -> bool) (Q : pyval -> bool) (heading : string)
  (l : list pyval) :
  P (Lit heading) = true -> P (Lit "</ul>") = true ->
  (forall x, Q x = true -> forallb P (documented_li py_repr x) = true) ->
  forallb Q l = true ->
  forallb P (documented_bullets py_repr heading l) = true.
Proof.
  intros Hh Hu Hrow Hl. destruct l as [|x l]; [reflexivity|].
  unfold documented_bullets. cbn [forallb]. rewrite Hh, forallb_app.
  rewrite (forallb_rows P _ Q _ Hrow Hl). cbn [forallb]. rewrite Hu. reflexivity.
Qed.

Lemma forallb_actions (P : piece -> bool) (Q : pyval -> bool) (l : list pyval) :
  P (Lit tpl_actions_0) = true -> P (Lit "</table>") = true ->
  (forall x, Q x = true -> forallb P (documented_item py_repr x) = true) ->
  forallb Q l = true ->
  forallb P (documented_actions py_repr l) = true.
Proof.
  intros Hh Hu Hrow Hl. destruct l as [|x l]; [reflexivity|].
  unfold documented_actions. cbn [forallb]. rewrite Hh, forallb_app.
  rewrite (forallb_rows P _ Q _ Hrow Hl). cbn [forallb]. rewrite Hu. reflexivity.
Qed.

(** The values of the document of a markup-free record have no [<]. *)
Lemma values_markup_free (md : pyval) (meeting_date : string) (d : datetime) :
  markup_free_record py_repr md meeting_date = true ->
  forallb val_markup_free
    (documented_pieces py_repr md meeting_date (strftime_stamp d)) = true.
Proof.
  unfold markup_free_record. rewrite !andb_true_iff.
  intros [[[[[[[Hdate Hatt] Hsum] Hupd] Hblk] Hact] Hdec] Hdis].
  unfold documented_pieces. rewrite !forallb_app.
  split_parts.
  - cbn [forallb val_markup_free]. rewrite Hdate, Hatt, Hsum. reflexivity.
  - apply (forallb_rows _ _ (markup_free_update py_repr)); [|exact Hupd].
    intros u Hu. unfold markup_free_update in Hu. rewrite !andb_true_iff in Hu.
    destruct Hu as [[[H1 H2] H3] H4].
    cbn [documented_update forallb val_markup_free].
    rewrite H1, H2, H3, H4. reflexivity.
  - apply (forallb_bullets _ (markup_free_value py_repr));
      [reflexivity | reflexivity | | exact Hblk].
    intros x Hx. cbn [documented_li forallb val_markup_free].
    unfold markup_free_value in Hx. rewrite Hx. reflexivity.
  - apply (forallb_actions _ (markup_free_item py_repr));
      [reflexivity | reflexivity | | exact Hact].
    intros i Hi. unfold markup_free_item in Hi. rewrite !andb_true_iff in Hi.
    destruct Hi as [[[H1 H2] H3] H4].
    cbn [documented_item forallb val_markup_free].
    rewrite H1, H2, H3, H4. reflexivity.
  - apply (forallb_bullets _ (markup_free_value py_repr));
      [reflexivity | reflexivity | | exact Hdec].
    intros x Hx. cbn [documented_li forallb val_markup_free].
    unfold markup_free_value in Hx. rewrite Hx. reflexivity.
  - apply (forallb_bullets _ (markup_free_value py_repr));
      [reflexivity | reflexivity | | exact Hdis].
    intros x Hx. cbn [documented_li forallb val_markup_free].
    unfold markup_free_value in Hx. rewrite Hx. reflexivity.
  - cbn [forallb val_markup_free]. unfold count_text.
    rewrite !markup_free_pretty_Z, markup_free_stamp. reflexivity.
Qed.

(** No template segment ends in an unfinished beginning of [n], for a tag [n]
    for which this holds of the segments. *)
Lemma lits_edge_safe (n : string) (md : pyval) (meeting_date stamp : string) :
  forallb (edge_safe n)
    [tpl_head_0; tpl_head_1; tpl_head_2; tpl_head_3; tpl_head_4;
     tpl_update_0; tpl_update_1; tpl_update_2; tpl_update_3; tpl_update_4;
     h2_blockers; h2_decisions; h2_discussions; "<li>"; "</li>"; "</ul>";
     tpl_actions_0; tpl_item_0; tpl_item_1; tpl_item_2; tpl_item_3; tpl_item_4;
     "</table>";
     tpl_foot_0; tpl_foot_1; tpl_foot_2; tpl_foot_3; tpl_foot_4; tpl_foot_5]
  = true ->
  forallb (lit_edge_safe n) (documented_pieces py_repr md meeting_date stamp)
  = true.
Proof.
  cbn [forallb]. rewrite !andb_true_iff.
  intros (H0&H1&H2&H3&H4&U0&U1&U2&U3&U4&B&D&K&L0&L1&L2&A&I0&I1&I2&I3&I4&T
          &F0&F1&F2&F3&F4&F5&_).
  unfold documented_pieces. rewrite !forallb_app.
  split_parts.
  - cbn [forallb lit_edge_safe]. rewrite H0, H1, H2, H3, H4. reflexivity.
  - apply (forallb_rows _ _ (fun _ => true)); [|apply forallb_always].
    intros u _. cbn [documented_update forallb lit_edge_safe].
    rewrite U0, U1, U2, U3, U4. reflexivity.
  - apply (forallb_bullets _ (fun _ => true)); try assumption;
      [|apply forallb_always].
    intros x _. cbn [documented_li forallb lit_edge_safe]. rewrite L0, L1.
    reflexivity.
  - apply (forallb_actions _ (fun _ => true)); try assumption;
      [|apply forallb_always].
    intros x _. cbn [documented_item forallb lit_edge_safe].
    rewrite I0, I1, I2, I3, I4. reflexivity.
  - apply (forallb_bullets _ (fun _ => true)); try assumption;
      [|apply forallb_always].
    intros x _. cbn [documented_li forallb lit_edge_safe]. rewrite L0, L1.
    reflexivity.
  - apply (forallb_bullets _ (fun _ => true)); try assumption;
      [|apply forallb_always].
    intros x _. cbn [documented_li forallb lit_edge_safe]. rewrite L0, L1.
    reflexivity.
  - cbn [forallb lit_edge_safe]. rewrite F0, F1, F2, F3, F4, F5. reflexivity.
Qed.

End DocumentText.

Lemma str_app_nil_r (a : string) : a +:+ "" = a.
Proof.
  induction a as [|x a IH]; [reflexivity|]. rewrite str_app_cons, IH. reflexivity.
Qed.

Ltac eval_occurrences :=
  repeat match goal with
         | |- context [occ_lits ?n ?ps] =>
             let v := eval vm_compute in (occ_lits n ps) in
             replace (occ_lits n ps) with v by (vm_compute; reflexivity)
         | |- context [occurrences ?n ?s] =>
             let v := eval vm_compute in (occurrences n s) in
             replace (occurrences n s) with v by (vm_compute; reflexivity)
         end.

Section DocumentClaims.

Variable py_repr : pyval -> string.

Lemma occurrences_tag (n : string) (md : pyval) (meeting_date : string)
  (d : datetime) :
  String.prefix "<" n = true ->
  markup_free_record py_repr md meeting_date = true ->
  forallb (edge_safe n)
    [tpl_head_0; tpl_head_1; tpl_head_2; tpl_head_3; tpl_head_4;
     tpl_update_0; tpl_update_1; tpl_update_2; tpl_update_3; tpl_update_4;
     h2_blockers; h2_decisions; h2_discussions; "<li>"; "</li>"; "</ul>";
     tpl_actions_0; tpl_item_0; tpl_item_1; tpl_item_2; tpl_item_3; tpl_item_4;
     "</table>";
     tpl_foot_0; tpl_foot_1; tpl_foot_2; tpl_foot_3; tpl_foot_4; tpl_foot_5]
  = true ->
  occurrences n
    (flatten (documented_pieces py_repr md meeting_date (strftime_stamp d)))
  = (occ_lits n (documented_pieces py_repr (PDict []) "" "")
     + occ_lits n (documented_update py_repr PNone)
       * length (seq_of md "individual_updates")
     + match seq_of md "blockers" with
       | [] => 0
       | _ :: _ =>
           occurrences n h2_blockers + occurrences n "</ul>"
           + (occurrences n "<li>" + occurrences n "</li>")
             * length (seq_of md "blockers")
       end
     + match seq_of md "action_items" with
       | [] => 0
       | _ :: _ =>
           occurrences n tpl_actions_0 + occurrences n "</table>"
           + occ_lits n (documented_item py_repr PNone)
             * length (seq_of md "action_items")
       end
     + match seq_of md "decisions" with
       | [] => 0
       | _ :: _ =>
           occurrences n h2_decisions + occurrences n "</ul>"
           + (occurrences n "<li>" + occurrences n "</li>")
             * length (seq_of md "decisions")
       end
     + match seq_of md "key_discussions" with
       | [] => 0
       | _ :: _ =>
           occurrences n h2_discussions + occurrences n "</ul>"
           + (occurrences n "<li>" + occurrences n "</li>")
             * length (seq_of md "key_discussions")
       end)%nat.
Proof.
  intros Hn Hfree Hsafe.
  destruct n as [|c n]; [discriminate Hn|]. cbn [String.prefix] in Hn.
  destruct (ascii_dec "<" c) as [<-|]; [|discriminate Hn].
  rewrite occurrences_flatten.
  - rewrite occ_lits_documented, !occ_lits_bullets, occ_lits_actions.
    reflexivity.
  - apply values_markup_free, Hfree.
  - apply lits_edge_safe, Hsafe.
Qed.



End DocumentClaims.




Lemma footer_pieces (a b c d : nat) (stamp : string) :
  flatten [Lit tpl_foot_0; Val (pretty (Z.of_nat a));
           Lit tpl_foot_1; Val (pretty (Z.of_nat b));
           Lit tpl_foot_2; Val (pretty (Z.of_nat c));
           Lit tpl_foot_3; Val (pretty (Z.of_nat d));
           Lit tpl_foot_4; Val stamp; Lit tpl_foot_5]
  = footer a b c d stamp.
Proof.
  unfold footer. cbn [flatten piece_text]. rewrite str_app_nil_r. reflexivity.
Qed.

(** X4.  The document [format_minutes_as_html] returns for a meeting record
    ends with the footer that shows the lengths of the attendee, action-item,
    blocker and decision sequences and the time of the clock.  When neither
    the date nor a text of the record has a [<], the document has one [<h3>]
    block per individual update, four table cells per action item next to the
    three of the head, and one list item per blocker, decision and discussion
    point next to the three of each update and the four of the footer. *)
Theorem rows_match_sequences
  (py_repr : pyval -> string) (md : pyval) (meeting_date : string) (w : world) :
  meeting_record md = true ->
  exists html body,
    snd (format_minutes_as_html py_repr md meeting_date w) = Ok html
    /\ html = body +:+ footer (length (seq_of md "attendees"))
                         (length (seq_of md "action_items"))
                         (length (seq_of md "blockers"))
                         (length (seq_of md "decisions"))
                         (strftime_stamp (clock w (ticks w)))
    /\ (markup_free_record py_repr md meeting_date = true ->
        occurrences "<h3>" html = length (seq_of md "individual_updates")
        /\ occurrences "<td>" html
           = (3 + 4 * length (seq_of md "action_items"))%nat
        /\ occurrences "<li>" html
           = (3 * length (seq_of md "individual_updates")
              + length (seq_of md "blockers") + length (seq_of md "decisions")
              + length (seq_of md "key_discussions") + 4)%nat).
Proof.
  intros Hrec.
  exists (flatten (documented_pieces py_repr md meeting_date
                     (strftime_stamp (clock w (ticks w))))).
  eexists.
  split; [rewrite format_minutes_as_html_render; apply render_documented, Hrec|].
  split.
  { unfold documented_pieces, count_text. rewrite !app_assoc, flatten_app.
    rewrite footer_pieces. reflexivity. }
  intros Hfree. split; [|split].
  all: rewrite occurrences_tag;
    [|reflexivity|exact Hfree|vm_compute; reflexivity].
  all: eval_occurrences.
  all: destruct (seq_of md "blockers"), (seq_of md "action_items"),
         (seq_of md "decisions"), (seq_of md "key_discussions");
       cbn [length]; lia.
Qed.

Lemma rows_match_sequences_witness :
  meeting_record full_record = true
  /\ markup_free_record sample_repr full_record "2024-01-15" = true
  /\ exists html,
       snd (format_minutes_as_html sample_repr full_record "2024-01-15" quiet_world)
       = Ok html
       /\ occurrences "<h3>" html = 1%nat
       /\ occurrences "<td>" html = 11%nat
       /\ occurrences "<li>" html = 8%nat.
Proof.
  split; [reflexivity|]. split; [reflexivity|].
  destruct (rows_match_sequences sample_repr full_record "2024-01-15" quiet_world
              eq_refl) as (html & body & Hr & _ & Hfree).
  destruct (Hfree eq_refl) as (Hh & Ht & Hl).
  exists html. split; [exact Hr|]. split; [exact Hh|]. split; [exact Ht | exact Hl].
Defined.

(** Markup in a text of the record is counted with the rows: a record without
    updates whose summary holds an [<h3>] tag gives a document with one. *)
Example tag_without_updates :
  meeting_record tag_in_summary = true
  /\ seq_of tag_in_summary "individual_updates" = []
  /\ exists html,
       snd (format_minutes_as_html sample_repr tag_in_summary "2024-01-15"
              quiet_world) = Ok html
       /\ occurrences "<h3>" html = 1%nat.
Proof.
  split; [reflexivity|]. split; [reflexivity|].
  eexists. split; [reflexivity|]. vm_compute. reflexivity.
Qed.
